(** * Coverage grid validation (parse_coverage_grid.py)

    A shallow embedding of the grid parser, the coverage aggregator and the
    gap analyzer of [parse_coverage_grid.py], with the properties the
    specification states about them.

    Modelling conventions.
    - A Python [str] is the list of its code points, [str]; an ASCII
      literal is written [u"..."].  [str.lower] and [str.strip] follow
      CPython 3.11 with the character tables of Unicode 14.0.0: the full
      lower-case mapping, the final-sigma rule and the white space
      characters of [str.isspace].
    - A Python [dict] is an insertion-ordered association list with
      distinct keys ([Dict.set] overwrites in place or appends).
    - A Python [set] of sheet names is a [gset str].
    - [print] appends one entry to the list of printed texts.
    - The zip archive, the XML parser and [repr] of a list are taken from a
      [Runtime] record: they are the interpreter's, not this program's. *)

From Stdlib Require Import String Ascii List Bool Arith NArith Lia DecimalString Permutation.
From stdpp Require Import base gmap sets list strings.
Import ListNotations.
Local Open Scope string_scope.
Local Open Scope list_scope.
Local Set Warnings "-register-all,-clear-no-such-hyp".

(* ------------------------------------------------------------------ *)
(** ** Strings *)

(** A Python [str]: the list of its code points. *)
Abbreviation str := (list N).

(** The [str] of an ASCII literal. *)
Definition u (s : string) : str := map N_of_ascii (list_ascii_of_string s).

Module Str.

(** The white space characters of [str.isspace], as ranges of code points. *)
Definition WHITESPACE : list (N * N) :=
  [
   (9, 13); (28, 32); (133, 133); (160, 160); (5760, 5760); (8192, 8202);
   (8232, 8233); (8239, 8239); (8287, 8287); (12288, 12288)]%N.

(** The characters whose lower case is one other character, each with
    its lower case. *)
Definition LOWERCASE : list (N * N) :=
  [
   (65, 97); (66, 98); (67, 99); (68, 100); (69, 101); (70, 102);
   (71, 103); (72, 104); (73, 105); (74, 106); (75, 107); (76, 108);
   (77, 109); (78, 110); (79, 111); (80, 112); (81, 113); (82, 114);
   (83, 115); (84, 116); (85, 117); (86, 118); (87, 119); (88, 120);
   (89, 121); (90, 122); (192, 224); (193, 225); (194, 226); (195, 227);
   (196, 228); (197, 229); (198, 230); (199, 231); (200, 232); (201, 233);
   (202, 234); (203, 235); (204, 236); (205, 237); (206, 238); (207, 239);
   (208, 240); (209, 241); (210, 242); (211, 243); (212, 244); (213, 245);
   (214, 246); (216, 248); (217, 249); (218, 250); (219, 251); (220, 252);
   (221, 253); (222, 254); (256, 257); (258, 259); (260, 261); (262, 263);
   (264, 265); (266, 267); (268, 269); (270, 271); (272, 273); (274, 275);
   (276, 277); (278, 279); (280, 281); (282, 283); (284, 285); (286, 287);
   (288, 289); (290, 291); (292, 293); (294, 295); (296, 297); (298, 299);
   (300, 301); (302, 303); (306, 307); (308, 309); (310, 311); (313, 314);
   (315, 316); (317, 318); (319, 320); (321, 322); (323, 324); (325, 326);
   (327, 328); (330, 331); (332, 333); (334, 335); (336, 337); (338, 339);
   (340, 341); (342, 343); (344, 345); (346, 347); (348, 349); (350, 351);
   (352, 353); (354, 355); (356, 357); (358, 359); (360, 361); (362, 363);
   (364, 365); (366, 367); (368, 369); (370, 371); (372, 373); (374, 375);
   (376, 255); (377, 378); (379, 380); (381, 382); (385, 595); (386, 387);
   (388, 389); (390, 596); (391, 392); (393, 598); (394, 599); (395, 396);
   (398, 477); (399, 601); (400, 603); (401, 402); (403, 608); (404, 611);
   (406, 617); (407, 616); (408, 409); (412, 623); (413, 626); (415, 629);
   (416, 417); (418, 419); (420, 421); (422, 640); (423, 424); (425, 643);
   (428, 429); (430, 648); (431, 432); (433, 650); (434, 651); (435, 436);
   (437, 438); (439, 658); (440, 441); (444, 445); (452, 454); (453, 454);
   (455, 457); (456, 457); (458, 460); (459, 460); (461, 462); (463, 464);
   (465, 466); (467, 468); (469, 470); (471, 472); (473, 474); (475, 476);
   (478, 479); (480, 481); (482, 483); (484, 485); (486, 487); (488, 489);
   (490, 491); (492, 493); (494, 495); (497, 499); (498, 499); (500, 501);
   (502, 405); (503, 447); (504, 505); (506, 507); (508, 509); (510, 511);
   (512, 513); (514, 515); (516, 517); (518, 519); (520, 521); (522, 523);
   (524, 525); (526, 527); (528, 529); (530, 531); (532, 533); (534, 535);
   (536, 537); (538, 539); (540, 541); (542, 543); (544, 414); (546, 547);
   (548, 549); (550, 551); (552, 553); (554, 555); (556, 557); (558, 559);
   (560, 561); (562, 563); (570, 11365); (571, 572); (573, 410); (574, 11366);
   (577, 578); (579, 384); (580, 649); (581, 652); (582, 583); (584, 585);
   (586, 587); (588, 589); (590, 591); (880, 881); (882, 883); (886, 887);
   (895, 1011); (902, 940); (904, 941); (905, 942); (906, 943); (908, 972);
   (910, 973); (911, 974); (913, 945); (914, 946); (915, 947); (916, 948);
   (917, 949); (918, 950); (919, 951); (920, 952); (921, 953); (922, 954);
   (923, 955); (924, 956); (925, 957); (926, 958); (927, 959); (928, 960);
   (929, 961); (932, 964); (933, 965); (934, 966); (935, 967); (936, 968);
   (937, 969); (938, 970); (939, 971); (975, 983); (984, 985); (986, 987);
   (988, 989); (990, 991); (992, 993); (994, 995); (996, 997); (998, 999);
   (1000, 1001); (1002, 1003); (1004, 1005); (1006, 1007); (1012, 952); (1015, 1016);
   (1017, 1010); (1018, 1019); (1021, 891); (1022, 892); (1023, 893); (1024, 1104);
   (1025, 1105); (1026, 1106); (1027, 1107); (1028, 1108); (1029, 1109); (1030, 1110);
   (1031, 1111); (1032, 1112); (1033, 1113); (1034, 1114); (1035, 1115); (1036, 1116);
   (1037, 1117); (1038, 1118); (1039, 1119); (1040, 1072); (1041, 1073); (1042, 1074);
   (1043, 1075); (1044, 1076); (1045, 1077); (1046, 1078); (1047, 1079); (1048, 1080);
   (1049, 1081); (1050, 1082); (1051, 1083); (1052, 1084); (1053, 1085); (1054, 1086);
   (1055, 1087); (1056, 1088); (1057, 1089); (1058, 1090); (1059, 1091); (1060, 1092);
   (1061, 1093); (1062, 1094); (1063, 1095); (1064, 1096); (1065, 1097); (1066, 1098);
   (1067, 1099); (1068, 1100); (1069, 1101); (1070, 1102); (1071, 1103); (1120, 1121);
   (1122, 1123); (1124, 1125); (1126, 1127); (1128, 1129); (1130, 1131); (1132, 1133);
   (1134, 1135); (1136, 1137); (1138, 1139); (1140, 1141); (1142, 1143); (1144, 1145);
   (1146, 1147); (1148, 1149); (1150, 1151); (1152, 1153); (1162, 1163); (1164, 1165);
   (1166, 1167); (1168, 1169); (1170, 1171); (1172, 1173); (1174, 1175); (1176, 1177);
   (1178, 1179); (1180, 1181); (1182, 1183); (1184, 1185); (1186, 1187); (1188, 1189);
   (1190, 1191); (1192, 1193); (1194, 1195); (1196, 1197); (1198, 1199); (1200, 1201);
   (1202, 1203); (1204, 1205); (1206, 1207); (1208, 1209); (1210, 1211); (1212, 1213);
   (1214, 1215); (1216, 1231); (1217, 1218); (1219, 1220); (1221, 1222); (1223, 1224);
   (1225, 1226); (1227, 1228); (1229, 1230); (1232, 1233); (1234, 1235); (1236, 1237);
   (1238, 1239); (1240, 1241); (1242, 1243); (1244, 1245); (1246, 1247); (1248, 1249);
   (1250, 1251); (1252, 1253); (1254, 1255); (1256, 1257); (1258, 1259); (1260, 1261);
   (1262, 1263); (1264, 1265); (1266, 1267); (1268, 1269); (1270, 1271); (1272, 1273);
   (1274, 1275); (1276, 1277); (1278, 1279); (1280, 1281); (1282, 1283); (1284, 1285);
   (1286, 1287); (1288, 1289); (1290, 1291); (1292, 1293); (1294, 1295); (1296, 1297);
   (1298, 1299); (1300, 1301); (1302, 1303); (1304, 1305); (1306, 1307); (1308, 1309);
   (1310, 1311); (1312, 1313); (1314, 1315); (1316, 1317); (1318, 1319); (1320, 1321);
   (1322, 1323); (1324, 1325); (1326, 1327); (1329, 1377); (1330, 1378); (1331, 1379);
   (1332, 1380); (1333, 1381); (1334, 1382); (1335, 1383); (1336, 1384); (1337, 1385);
   (1338, 1386); (1339, 1387); (1340, 1388); (1341, 1389); (1342, 1390); (1343, 1391);
   (1344, 1392); (1345, 1393); (1346, 1394); (1347, 1395); (1348, 1396); (1349, 1397);
   (1350, 1398); (1351, 1399); (1352, 1400); (1353, 1401); (1354, 1402); (1355, 1403);
   (1356, 1404); (1357, 1405); (1358, 1406); (1359, 1407); (1360, 1408); (1361, 1409);
   (1362, 1410); (1363, 1411); (1364, 1412); (1365, 1413); (1366, 1414); (4256, 11520);
   (4257, 11521); (4258, 11522); (4259, 11523); (4260, 11524); (4261, 11525); (4262, 11526);
   (4263, 11527); (4264, 11528); (4265, 11529); (4266, 11530); (4267, 11531); (4268, 11532);
   (4269, 11533); (4270, 11534); (4271, 11535); (4272, 11536); (4273, 11537); (4274, 11538);
   (4275, 11539); (4276, 11540); (4277, 11541); (4278, 11542); (4279, 11543); (4280, 11544);
   (4281, 11545); (4282, 11546); (4283, 11547); (4284, 11548); (4285, 11549); (4286, 11550);
   (4287, 11551); (4288, 11552); (4289, 11553); (4290, 11554); (4291, 11555); (4292, 11556);
   (4293, 11557); (4295, 11559); (4301, 11565); (5024, 43888); (5025, 43889); (5026, 43890);
   (5027, 43891); (5028, 43892); (5029, 43893); (5030, 43894); (5031, 43895); (5032, 43896);
   (5033, 43897); (5034, 43898); (5035, 43899); (5036, 43900); (5037, 43901); (5038, 43902);
   (5039, 43903); (5040, 43904); (5041, 43905); (5042, 43906); (5043, 43907); (5044, 43908);
   (5045, 43909); (5046, 43910); (5047, 43911); (5048, 43912); (5049, 43913); (5050, 43914);
   (5051, 43915); (5052, 43916); (5053, 43917); (5054, 43918); (5055, 43919); (5056, 43920);
   (5057, 43921); (5058, 43922); (5059, 43923); (5060, 43924); (5061, 43925); (5062, 43926);
   (5063, 43927); (5064, 43928); (5065, 43929); (5066, 43930); (5067, 43931); (5068, 43932);
   (5069, 43933); (5070, 43934); (5071, 43935); (5072, 43936); (5073, 43937); (5074, 43938);
   (5075, 43939); (5076, 43940); (5077, 43941); (5078, 43942); (5079, 43943); (5080, 43944);
   (5081, 43945); (5082, 43946); (5083, 43947); (5084, 43948); (5085, 43949); (5086, 43950);
   (5087, 43951); (5088, 43952); (5089, 43953); (5090, 43954); (5091, 43955); (5092, 43956);
   (5093, 43957); (5094, 43958); (5095, 43959); (5096, 43960); (5097, 43961); (5098, 43962);
   (5099, 43963); (5100, 43964); (5101, 43965); (5102, 43966); (5103, 43967); (5104, 5112);
   (5105, 5113); (5106, 5114); (5107, 5115); (5108, 5116); (5109, 5117); (7312, 4304);
   (7313, 4305); (7314, 4306); (7315, 4307); (7316, 4308); (7317, 4309); (7318, 4310);
   (7319, 4311); (7320, 4312); (7321, 4313); (7322, 4314); (7323, 4315); (7324, 4316);
   (7325, 4317); (7326, 4318); (7327, 4319); (7328, 4320); (7329, 4321); (7330, 4322);
   (7331, 4323); (7332, 4324); (7333, 4325); (7334, 4326); (7335, 4327); (7336, 4328);
   (7337, 4329); (7338, 4330); (7339, 4331); (7340, 4332); (7341, 4333); (7342, 4334);
   (7343, 4335); (7344, 4336); (7345, 4337); (7346, 4338); (7347, 4339); (7348, 4340);
   (7349, 4341); (7350, 4342); (7351, 4343); (7352, 4344); (7353, 4345); (7354, 4346);
   (7357, 4349); (7358, 4350); (7359, 4351); (7680, 7681); (7682, 7683); (7684, 7685);
   (7686, 7687); (7688, 7689); (7690, 7691); (7692, 7693); (7694, 7695); (7696, 7697);
   (7698, 7699); (7700, 7701); (7702, 7703); (7704, 7705); (7706, 7707); (7708, 7709);
   (7710, 7711); (7712, 7713); (7714, 7715); (7716, 7717); (7718, 7719); (7720, 7721);
   (7722, 7723); (7724, 7725); (7726, 7727); (7728, 7729); (7730, 7731); (7732, 7733);
   (7734, 7735); (7736, 7737); (7738, 7739); (7740, 7741); (7742, 7743); (7744, 7745);
   (7746, 7747); (7748, 7749); (7750, 7751); (7752, 7753); (7754, 7755); (7756, 7757);
   (7758, 7759); (7760, 7761); (7762, 7763); (7764, 7765); (7766, 7767); (7768, 7769);
   (7770, 7771); (7772, 7773); (7774, 7775); (7776, 7777); (7778, 7779); (7780, 7781);
   (7782, 7783); (7784, 7785); (7786, 7787); (7788, 7789); (7790, 7791); (7792, 7793);
   (7794, 7795); (7796, 7797); (7798, 7799); (7800, 7801); (7802, 7803); (7804, 7805);
   (7806, 7807); (7808, 7809); (7810, 7811); (7812, 7813); (7814, 7815); (7816, 7817);
   (7818, 7819); (7820, 7821); (7822, 7823); (7824, 7825); (7826, 7827); (7828, 7829);
   (7838, 223); (7840, 7841); (7842, 7843); (7844, 7845); (7846, 7847); (7848, 7849);
   (7850, 7851); (7852, 7853); (7854, 7855); (7856, 7857); (7858, 7859); (7860, 7861);
   (7862, 7863); (7864, 7865); (7866, 7867); (7868, 7869); (7870, 7871); (7872, 7873);
   (7874, 7875); (7876, 7877); (7878, 7879); (7880, 7881); (7882, 7883); (7884, 7885);
   (7886, 7887); (7888, 7889); (7890, 7891); (7892, 7893); (7894, 7895); (7896, 7897);
   (7898, 7899); (7900, 7901); (7902, 7903); (7904, 7905); (7906, 7907); (7908, 7909);
   (7910, 7911); (7912, 7913); (7914, 7915); (7916, 7917); (7918, 7919); (7920, 7921);
   (7922, 7923); (7924, 7925); (7926, 7927); (7928, 7929); (7930, 7931); (7932, 7933);
   (7934, 7935); (7944, 7936); (7945, 7937); (7946, 7938); (7947, 7939); (7948, 7940);
   (7949, 7941); (7950, 7942); (7951, 7943); (7960, 7952); (7961, 7953); (7962, 7954);
   (7963, 7955); (7964, 7956); (7965, 7957); (7976, 7968); (7977, 7969); (7978, 7970);
   (7979, 7971); (7980, 7972); (7981, 7973); (7982, 7974); (7983, 7975); (7992, 7984);
   (7993, 7985); (7994, 7986); (7995, 7987); (7996, 7988); (7997, 7989); (7998, 7990);
   (7999, 7991); (8008, 8000); (8009, 8001); (8010, 8002); (8011, 8003); (8012, 8004);
   (8013, 8005); (8025, 8017); (8027, 8019); (8029, 8021); (8031, 8023); (8040, 8032);
   (8041, 8033); (8042, 8034); (8043, 8035); (8044, 8036); (8045, 8037); (8046, 8038);
   (8047, 8039); (8072, 8064); (8073, 8065); (8074, 8066); (8075, 8067); (8076, 8068);
   (8077, 8069); (8078, 8070); (8079, 8071); (8088, 8080); (8089, 8081); (8090, 8082);
   (8091, 8083); (8092, 8084); (8093, 8085); (8094, 8086); (8095, 8087); (8104, 8096);
   (8105, 8097); (8106, 8098); (8107, 8099); (8108, 8100); (8109, 8101); (8110, 8102);
   (8111, 8103); (8120, 8112); (8121, 8113); (8122, 8048); (8123, 8049); (8124, 8115);
   (8136, 8050); (8137, 8051); (8138, 8052); (8139, 8053); (8140, 8131); (8152, 8144);
   (8153, 8145); (8154, 8054); (8155, 8055); (8168, 8160); (8169, 8161); (8170, 8058);
   (8171, 8059); (8172, 8165); (8184, 8056); (8185, 8057); (8186, 8060); (8187, 8061);
   (8188, 8179); (8486, 969); (8490, 107); (8491, 229); (8498, 8526); (8544, 8560);
   (8545, 8561); (8546, 8562); (8547, 8563); (8548, 8564); (8549, 8565); (8550, 8566);
   (8551, 8567); (8552, 8568); (8553, 8569); (8554, 8570); (8555, 8571); (8556, 8572);
   (8557, 8573); (8558, 8574); (8559, 8575); (8579, 8580); (9398, 9424); (9399, 9425);
   (9400, 9426); (9401, 9427); (9402, 9428); (9403, 9429); (9404, 9430); (9405, 9431);
   (9406, 9432); (9407, 9433); (9408, 9434); (9409, 9435); (9410, 9436); (9411, 9437);
   (9412, 9438); (9413, 9439); (9414, 9440); (9415, 9441); (9416, 9442); (9417, 9443);
   (9418, 9444); (9419, 9445); (9420, 9446); (9421, 9447); (9422, 9448); (9423, 9449);
   (11264, 11312); (11265, 11313); (11266, 11314); (11267, 11315); (11268, 11316); (11269, 11317);
   (11270, 11318); (11271, 11319); (11272, 11320); (11273, 11321); (11274, 11322); (11275, 11323);
   (11276, 11324); (11277, 11325); (11278, 11326); (11279, 11327); (11280, 11328); (11281, 11329);
   (11282, 11330); (11283, 11331); (11284, 11332); (11285, 11333); (11286, 11334); (11287, 11335);
   (11288, 11336); (11289, 11337); (11290, 11338); (11291, 11339); (11292, 11340); (11293, 11341);
   (11294, 11342); (11295, 11343); (11296, 11344); (11297, 11345); (11298, 11346); (11299, 11347);
   (11300, 11348); (11301, 11349); (11302, 11350); (11303, 11351); (11304, 11352); (11305, 11353);
   (11306, 11354); (11307, 11355); (11308, 11356); (11309, 11357); (11310, 11358); (11311, 11359);
   (11360, 11361); (11362, 619); (11363, 7549); (11364, 637); (11367, 11368); (11369, 11370);
   (11371, 11372); (11373, 593); (11374, 625); (11375, 592); (11376, 594); (11378, 11379);
   (11381, 11382); (11390, 575); (11391, 576); (11392, 11393); (11394, 11395); (11396, 11397);
   (11398, 11399); (11400, 11401); (11402, 11403); (11404, 11405); (11406, 11407); (11408, 11409);
   (11410, 11411); (11412, 11413); (11414, 11415); (11416, 11417); (11418, 11419); (11420, 11421);
   (11422, 11423); (11424, 11425); (11426, 11427); (11428, 11429); (11430, 11431); (11432, 11433);
   (11434, 11435); (11436, 11437); (11438, 11439); (11440, 11441); (11442, 11443); (11444, 11445);
   (11446, 11447); (11448, 11449); (11450, 11451); (11452, 11453); (11454, 11455); (11456, 11457);
   (11458, 11459); (11460, 11461); (11462, 11463); (11464, 11465); (11466, 11467); (11468, 11469);
   (11470, 11471); (11472, 11473); (11474, 11475); (11476, 11477); (11478, 11479); (11480, 11481);
   (11482, 11483); (11484, 11485); (11486, 11487); (11488, 11489); (11490, 11491); (11499, 11500);
   (11501, 11502); (11506, 11507); (42560, 42561); (42562, 42563); (42564, 42565); (42566, 42567);
   (42568, 42569); (42570, 42571); (42572, 42573); (42574, 42575); (42576, 42577); (42578, 42579);
   (42580, 42581); (42582, 42583); (42584, 42585); (42586, 42587); (42588, 42589); (42590, 42591);
   (42592, 42593); (42594, 42595); (42596, 42597); (42598, 42599); (42600, 42601); (42602, 42603);
   (42604, 42605); (42624, 42625); (42626, 42627); (42628, 42629); (42630, 42631); (42632, 42633);
   (42634, 42635); (42636, 42637); (42638, 42639); (42640, 42641); (42642, 42643); (42644, 42645);
   (42646, 42647); (42648, 42649); (42650, 42651); (42786, 42787); (42788, 42789); (42790, 42791);
   (42792, 42793); (42794, 42795); (42796, 42797); (42798, 42799); (42802, 42803); (42804, 42805);
   (42806, 42807); (42808, 42809); (42810, 42811); (42812, 42813); (42814, 42815); (42816, 42817);
   (42818, 42819); (42820, 42821); (42822, 42823); (42824, 42825); (42826, 42827); (42828, 42829);
   (42830, 42831); (42832, 42833); (42834, 42835); (42836, 42837); (42838, 42839); (42840, 42841);
   (42842, 42843); (42844, 42845); (42846, 42847); (42848, 42849); (42850, 42851); (42852, 42853);
   (42854, 42855); (42856, 42857); (42858, 42859); (42860, 42861); (42862, 42863); (42873, 42874);
   (42875, 42876); (42877, 7545); (42878, 42879); (42880, 42881); (42882, 42883); (42884, 42885);
   (42886, 42887); (42891, 42892); (42893, 613); (42896, 42897); (42898, 42899); (42902, 42903);
   (42904, 42905); (42906, 42907); (42908, 42909); (42910, 42911); (42912, 42913); (42914, 42915);
   (42916, 42917); (42918, 42919); (42920, 42921); (42922, 614); (42923, 604); (42924, 609);
   (42925, 620); (42926, 618); (42928, 670); (42929, 647); (42930, 669); (42931, 43859);
   (42932, 42933); (42934, 42935); (42936, 42937); (42938, 42939); (42940, 42941); (42942, 42943);
   (42944, 42945); (42946, 42947); (42948, 42900); (42949, 642); (42950, 7566); (42951, 42952);
   (42953, 42954); (42960, 42961); (42966, 42967); (42968, 42969); (42997, 42998); (65313, 65345);
   (65314, 65346); (65315, 65347); (65316, 65348); (65317, 65349); (65318, 65350); (65319, 65351);
   (65320, 65352); (65321, 65353); (65322, 65354); (65323, 65355); (65324, 65356); (65325, 65357);
   (65326, 65358); (65327, 65359); (65328, 65360); (65329, 65361); (65330, 65362); (65331, 65363);
   (65332, 65364); (65333, 65365); (65334, 65366); (65335, 65367); (65336, 65368); (65337, 65369);
   (65338, 65370); (66560, 66600); (66561, 66601); (66562, 66602); (66563, 66603); (66564, 66604);
   (66565, 66605); (66566, 66606); (66567, 66607); (66568, 66608); (66569, 66609); (66570, 66610);
   (66571, 66611); (66572, 66612); (66573, 66613); (66574, 66614); (66575, 66615); (66576, 66616);
   (66577, 66617); (66578, 66618); (66579, 66619); (66580, 66620); (66581, 66621); (66582, 66622);
   (66583, 66623); (66584, 66624); (66585, 66625); (66586, 66626); (66587, 66627); (66588, 66628);
   (66589, 66629); (66590, 66630); (66591, 66631); (66592, 66632); (66593, 66633); (66594, 66634);
   (66595, 66635); (66596, 66636); (66597, 66637); (66598, 66638); (66599, 66639); (66736, 66776);
   (66737, 66777); (66738, 66778); (66739, 66779); (66740, 66780); (66741, 66781); (66742, 66782);
   (66743, 66783); (66744, 66784); (66745, 66785); (66746, 66786); (66747, 66787); (66748, 66788);
   (66749, 66789); (66750, 66790); (66751, 66791); (66752, 66792); (66753, 66793); (66754, 66794);
   (66755, 66795); (66756, 66796); (66757, 66797); (66758, 66798); (66759, 66799); (66760, 66800);
   (66761, 66801); (66762, 66802); (66763, 66803); (66764, 66804); (66765, 66805); (66766, 66806);
   (66767, 66807); (66768, 66808); (66769, 66809); (66770, 66810); (66771, 66811); (66928, 66967);
   (66929, 66968); (66930, 66969); (66931, 66970); (66932, 66971); (66933, 66972); (66934, 66973);
   (66935, 66974); (66936, 66975); (66937, 66976); (66938, 66977); (66940, 66979); (66941, 66980);
   (66942, 66981); (66943, 66982); (66944, 66983); (66945, 66984); (66946, 66985); (66947, 66986);
   (66948, 66987); (66949, 66988); (66950, 66989); (66951, 66990); (66952, 66991); (66953, 66992);
   (66954, 66993); (66956, 66995); (66957, 66996); (66958, 66997); (66959, 66998); (66960, 66999);
   (66961, 67000); (66962, 67001); (66964, 67003); (66965, 67004); (68736, 68800); (68737, 68801);
   (68738, 68802); (68739, 68803); (68740, 68804); (68741, 68805); (68742, 68806); (68743, 68807);
   (68744, 68808); (68745, 68809); (68746, 68810); (68747, 68811); (68748, 68812); (68749, 68813);
   (68750, 68814); (68751, 68815); (68752, 68816); (68753, 68817); (68754, 68818); (68755, 68819);
   (68756, 68820); (68757, 68821); (68758, 68822); (68759, 68823); (68760, 68824); (68761, 68825);
   (68762, 68826); (68763, 68827); (68764, 68828); (68765, 68829); (68766, 68830); (68767, 68831);
   (68768, 68832); (68769, 68833); (68770, 68834); (68771, 68835); (68772, 68836); (68773, 68837);
   (68774, 68838); (68775, 68839); (68776, 68840); (68777, 68841); (68778, 68842); (68779, 68843);
   (68780, 68844); (68781, 68845); (68782, 68846); (68783, 68847); (68784, 68848); (68785, 68849);
   (68786, 68850); (71840, 71872); (71841, 71873); (71842, 71874); (71843, 71875); (71844, 71876);
   (71845, 71877); (71846, 71878); (71847, 71879); (71848, 71880); (71849, 71881); (71850, 71882);
   (71851, 71883); (71852, 71884); (71853, 71885); (71854, 71886); (71855, 71887); (71856, 71888);
   (71857, 71889); (71858, 71890); (71859, 71891); (71860, 71892); (71861, 71893); (71862, 71894);
   (71863, 71895); (71864, 71896); (71865, 71897); (71866, 71898); (71867, 71899); (71868, 71900);
   (71869, 71901); (71870, 71902); (71871, 71903); (93760, 93792); (93761, 93793); (93762, 93794);
   (93763, 93795); (93764, 93796); (93765, 93797); (93766, 93798); (93767, 93799); (93768, 93800);
   (93769, 93801); (93770, 93802); (93771, 93803); (93772, 93804); (93773, 93805); (93774, 93806);
   (93775, 93807); (93776, 93808); (93777, 93809); (93778, 93810); (93779, 93811); (93780, 93812);
   (93781, 93813); (93782, 93814); (93783, 93815); (93784, 93816); (93785, 93817); (93786, 93818);
   (93787, 93819); (93788, 93820); (93789, 93821); (93790, 93822); (93791, 93823); (125184, 125218);
   (125185, 125219); (125186, 125220); (125187, 125221); (125188, 125222); (125189, 125223); (125190, 125224);
   (125191, 125225); (125192, 125226); (125193, 125227); (125194, 125228); (125195, 125229); (125196, 125230);
   (125197, 125231); (125198, 125232); (125199, 125233); (125200, 125234); (125201, 125235); (125202, 125236);
   (125203, 125237); (125204, 125238); (125205, 125239); (125206, 125240); (125207, 125241); (125208, 125242);
   (125209, 125243); (125210, 125244); (125211, 125245); (125212, 125246); (125213, 125247); (125214, 125248);
   (125215, 125249); (125216, 125250); (125217, 125251)]%N.

(** The cased characters, as ranges of code points. *)
Definition CASED : list (N * N) :=
  [
   (65, 90); (97, 122); (170, 170); (181, 181); (186, 186); (192, 214);
   (216, 246); (248, 442); (444, 447); (452, 659); (661, 696); (704, 705);
   (736, 740); (837, 837); (880, 883); (886, 887); (890, 893); (895, 895);
   (902, 902); (904, 906); (908, 908); (910, 929); (931, 1013); (1015, 1153);
   (1162, 1327); (1329, 1366); (1376, 1416); (4256, 4293); (4295, 4295); (4301, 4301);
   (4304, 4346); (4349, 4351); (5024, 5109); (5112, 5117); (7296, 7304); (7312, 7354);
   (7357, 7359); (7424, 7615); (7680, 7957); (7960, 7965); (7968, 8005); (8008, 8013);
   (8016, 8023); (8025, 8025); (8027, 8027); (8029, 8029); (8031, 8061); (8064, 8116);
   (8118, 8124); (8126, 8126); (8130, 8132); (8134, 8140); (8144, 8147); (8150, 8155);
   (8160, 8172); (8178, 8180); (8182, 8188); (8305, 8305); (8319, 8319); (8336, 8348);
   (8450, 8450); (8455, 8455); (8458, 8467); (8469, 8469); (8473, 8477); (8484, 8484);
   (8486, 8486); (8488, 8488); (8490, 8493); (8495, 8500); (8505, 8505); (8508, 8511);
   (8517, 8521); (8526, 8526); (8544, 8575); (8579, 8580); (9398, 9449); (11264, 11492);
   (11499, 11502); (11506, 11507); (11520, 11557); (11559, 11559); (11565, 11565); (42560, 42605);
   (42624, 42653); (42786, 42887); (42891, 42894); (42896, 42954); (42960, 42961); (42963, 42963);
   (42965, 42969); (42997, 42998); (43000, 43002); (43824, 43866); (43868, 43880); (43888, 43967);
   (64256, 64262); (64275, 64279); (65313, 65338); (65345, 65370); (66560, 66639); (66736, 66771);
   (66776, 66811); (66928, 66938); (66940, 66954); (66956, 66962); (66964, 66965); (66967, 66977);
   (66979, 66993); (66995, 67001); (67003, 67004); (67456, 67456); (67459, 67461); (67463, 67504);
   (67506, 67514); (68736, 68786); (68800, 68850); (71840, 71903); (93760, 93823); (119808, 119892);
   (119894, 119964); (119966, 119967); (119970, 119970); (119973, 119974); (119977, 119980); (119982, 119993);
   (119995, 119995); (119997, 120003); (120005, 120069); (120071, 120074); (120077, 120084); (120086, 120092);
   (120094, 120121); (120123, 120126); (120128, 120132); (120134, 120134); (120138, 120144); (120146, 120485);
   (120488, 120512); (120514, 120538); (120540, 120570); (120572, 120596); (120598, 120628); (120630, 120654);
   (120656, 120686); (120688, 120712); (120714, 120744); (120746, 120770); (120772, 120779); (122624, 122633);
   (122635, 122654); (125184, 125251); (127280, 127305); (127312, 127337); (127344, 127369)]%N.

(** The case-ignorable characters, as ranges of code points. *)
Definition CASE_IGNORABLE : list (N * N) :=
  [
   (39, 39); (46, 46); (58, 58); (94, 94); (96, 96); (168, 168);
   (173, 173); (175, 175); (180, 180); (183, 184); (688, 879); (884, 885);
   (890, 890); (900, 901); (903, 903); (1155, 1161); (1369, 1369); (1375, 1375);
   (1425, 1469); (1471, 1471); (1473, 1474); (1476, 1477); (1479, 1479); (1524, 1524);
   (1536, 1541); (1552, 1562); (1564, 1564); (1600, 1600); (1611, 1631); (1648, 1648);
   (1750, 1757); (1759, 1768); (1770, 1773); (1807, 1807); (1809, 1809); (1840, 1866);
   (1958, 1968); (2027, 2037); (2042, 2042); (2045, 2045); (2070, 2093); (2137, 2139);
   (2184, 2184); (2192, 2193); (2200, 2207); (2249, 2306); (2362, 2362); (2364, 2364);
   (2369, 2376); (2381, 2381); (2385, 2391); (2402, 2403); (2417, 2417); (2433, 2433);
   (2492, 2492); (2497, 2500); (2509, 2509); (2530, 2531); (2558, 2558); (2561, 2562);
   (2620, 2620); (2625, 2626); (2631, 2632); (2635, 2637); (2641, 2641); (2672, 2673);
   (2677, 2677); (2689, 2690); (2748, 2748); (2753, 2757); (2759, 2760); (2765, 2765);
   (2786, 2787); (2810, 2815); (2817, 2817); (2876, 2876); (2879, 2879); (2881, 2884);
   (2893, 2893); (2901, 2902); (2914, 2915); (2946, 2946); (3008, 3008); (3021, 3021);
   (3072, 3072); (3076, 3076); (3132, 3132); (3134, 3136); (3142, 3144); (3146, 3149);
   (3157, 3158); (3170, 3171); (3201, 3201); (3260, 3260); (3263, 3263); (3270, 3270);
   (3276, 3277); (3298, 3299); (3328, 3329); (3387, 3388); (3393, 3396); (3405, 3405);
   (3426, 3427); (3457, 3457); (3530, 3530); (3538, 3540); (3542, 3542); (3633, 3633);
   (3636, 3642); (3654, 3662); (3761, 3761); (3764, 3772); (3782, 3782); (3784, 3789);
   (3864, 3865); (3893, 3893); (3895, 3895); (3897, 3897); (3953, 3966); (3968, 3972);
   (3974, 3975); (3981, 3991); (3993, 4028); (4038, 4038); (4141, 4144); (4146, 4151);
   (4153, 4154); (4157, 4158); (4184, 4185); (4190, 4192); (4209, 4212); (4226, 4226);
   (4229, 4230); (4237, 4237); (4253, 4253); (4348, 4348); (4957, 4959); (5906, 5908);
   (5938, 5939); (5970, 5971); (6002, 6003); (6068, 6069); (6071, 6077); (6086, 6086);
   (6089, 6099); (6103, 6103); (6109, 6109); (6155, 6159); (6211, 6211); (6277, 6278);
   (6313, 6313); (6432, 6434); (6439, 6440); (6450, 6450); (6457, 6459); (6679, 6680);
   (6683, 6683); (6742, 6742); (6744, 6750); (6752, 6752); (6754, 6754); (6757, 6764);
   (6771, 6780); (6783, 6783); (6823, 6823); (6832, 6862); (6912, 6915); (6964, 6964);
   (6966, 6970); (6972, 6972); (6978, 6978); (7019, 7027); (7040, 7041); (7074, 7077);
   (7080, 7081); (7083, 7085); (7142, 7142); (7144, 7145); (7149, 7149); (7151, 7153);
   (7212, 7219); (7222, 7223); (7288, 7293); (7376, 7378); (7380, 7392); (7394, 7400);
   (7405, 7405); (7412, 7412); (7416, 7417); (7468, 7530); (7544, 7544); (7579, 7679);
   (8125, 8125); (8127, 8129); (8141, 8143); (8157, 8159); (8173, 8175); (8189, 8190);
   (8203, 8207); (8216, 8217); (8228, 8228); (8231, 8231); (8234, 8238); (8288, 8292);
   (8294, 8303); (8305, 8305); (8319, 8319); (8336, 8348); (8400, 8432); (11388, 11389);
   (11503, 11505); (11631, 11631); (11647, 11647); (11744, 11775); (11823, 11823); (12293, 12293);
   (12330, 12333); (12337, 12341); (12347, 12347); (12441, 12446); (12540, 12542); (40981, 40981);
   (42232, 42237); (42508, 42508); (42607, 42610); (42612, 42621); (42623, 42623); (42652, 42655);
   (42736, 42737); (42752, 42785); (42864, 42864); (42888, 42890); (42994, 42996); (43000, 43001);
   (43010, 43010); (43014, 43014); (43019, 43019); (43045, 43046); (43052, 43052); (43204, 43205);
   (43232, 43249); (43263, 43263); (43302, 43309); (43335, 43345); (43392, 43394); (43443, 43443);
   (43446, 43449); (43452, 43453); (43471, 43471); (43493, 43494); (43561, 43566); (43569, 43570);
   (43573, 43574); (43587, 43587); (43596, 43596); (43632, 43632); (43644, 43644); (43696, 43696);
   (43698, 43700); (43703, 43704); (43710, 43711); (43713, 43713); (43741, 43741); (43756, 43757);
   (43763, 43764); (43766, 43766); (43867, 43871); (43881, 43883); (44005, 44005); (44008, 44008);
   (44013, 44013); (64286, 64286); (64434, 64450); (65024, 65039); (65043, 65043); (65056, 65071);
   (65106, 65106); (65109, 65109); (65279, 65279); (65287, 65287); (65294, 65294); (65306, 65306);
   (65342, 65342); (65344, 65344); (65392, 65392); (65438, 65439); (65507, 65507); (65529, 65531);
   (66045, 66045); (66272, 66272); (66422, 66426); (67456, 67461); (67463, 67504); (67506, 67514);
   (68097, 68099); (68101, 68102); (68108, 68111); (68152, 68154); (68159, 68159); (68325, 68326);
   (68900, 68903); (69291, 69292); (69446, 69456); (69506, 69509); (69633, 69633); (69688, 69702);
   (69744, 69744); (69747, 69748); (69759, 69761); (69811, 69814); (69817, 69818); (69821, 69821);
   (69826, 69826); (69837, 69837); (69888, 69890); (69927, 69931); (69933, 69940); (70003, 70003);
   (70016, 70017); (70070, 70078); (70089, 70092); (70095, 70095); (70191, 70193); (70196, 70196);
   (70198, 70199); (70206, 70206); (70367, 70367); (70371, 70378); (70400, 70401); (70459, 70460);
   (70464, 70464); (70502, 70508); (70512, 70516); (70712, 70719); (70722, 70724); (70726, 70726);
   (70750, 70750); (70835, 70840); (70842, 70842); (70847, 70848); (70850, 70851); (71090, 71093);
   (71100, 71101); (71103, 71104); (71132, 71133); (71219, 71226); (71229, 71229); (71231, 71232);
   (71339, 71339); (71341, 71341); (71344, 71349); (71351, 71351); (71453, 71455); (71458, 71461);
   (71463, 71467); (71727, 71735); (71737, 71738); (71995, 71996); (71998, 71998); (72003, 72003);
   (72148, 72151); (72154, 72155); (72160, 72160); (72193, 72202); (72243, 72248); (72251, 72254);
   (72263, 72263); (72273, 72278); (72281, 72283); (72330, 72342); (72344, 72345); (72752, 72758);
   (72760, 72765); (72767, 72767); (72850, 72871); (72874, 72880); (72882, 72883); (72885, 72886);
   (73009, 73014); (73018, 73018); (73020, 73021); (73023, 73029); (73031, 73031); (73104, 73105);
   (73109, 73109); (73111, 73111); (73459, 73460); (78896, 78904); (92912, 92916); (92976, 92982);
   (92992, 92995); (94031, 94031); (94095, 94111); (94176, 94177); (94179, 94180); (110576, 110579);
   (110581, 110587); (110589, 110590); (113821, 113822); (113824, 113827); (118528, 118573); (118576, 118598);
   (119143, 119145); (119155, 119170); (119173, 119179); (119210, 119213); (119362, 119364); (121344, 121398);
   (121403, 121452); (121461, 121461); (121476, 121476); (121499, 121503); (121505, 121519); (122880, 122886);
   (122888, 122904); (122907, 122913); (122915, 122916); (122918, 122922); (123184, 123197); (123566, 123566);
   (123628, 123631); (125136, 125142); (125252, 125259); (127995, 127999); (917505, 917505); (917536, 917631);
   (917760, 917999)]%N.

(** [c] lies in one of the ranges. *)
Definition in_ranges (c : N) (ranges : list (N * N)) : bool :=
  existsb (fun r : N * N => (fst r <=? c)%N && (c <=? snd r)%N) ranges.

(** [c.isspace()] *)
Definition is_space (c : N) : bool := in_ranges c WHITESPACE.

Definition is_cased (c : N) : bool := in_ranges c CASED.

Definition is_case_ignorable (c : N) : bool := in_ranges c CASE_IGNORABLE.

Fixpoint assoc (c : N) (table : list (N * N)) : option N :=
  match table with
  | [] => None
  | (c', l) :: table' => if (c =? c')%N then Some l else assoc c table'
  end.

(** The lower case of one character other than the capital sigma: the
    capital I with dot above (304) gives two characters, a character of
    the table gives its entry, every other character is its own lower
    case. *)
Definition lower_char (c : N) : str :=
  if (c =? 304)%N then [105; 775]%N
  else match assoc c LOWERCASE with
       | Some l => [l]
       | None => [c]
       end.

(** The second half of the final-sigma test: after the sigma, skipping
    case-ignorable characters, the text ends or a character that is not
    cased comes. *)
Fixpoint final_sigma_after (rest : str) : bool :=
  match rest with
  | [] => true
  | c :: rest' =>
      if is_case_ignorable c then final_sigma_after rest' else negb (is_cased c)
  end.

(** [s.lower()], with [after_cased] telling whether, before [s] and
    skipping case-ignorable characters, a cased character comes.  The
    capital sigma (931) becomes the final sigma (962) between a cased
    character and the end of a word, and the small sigma (963) elsewhere. *)
Fixpoint lower_from (after_cased : bool) (s : str) : str :=
  match s with
  | [] => []
  | c :: rest =>
      (if (c =? 931)%N
       then [if after_cased && final_sigma_after rest then 962 else 963]%N
       else lower_char c)
      ++ lower_from (if is_case_ignorable c then after_cased else is_cased c) rest
  end.

(** [s.lower()] *)
Definition lower (s : str) : str := lower_from false s.

Fixpoint lstrip (s : str) : str :=
  match s with
  | [] => []
  | c :: s' => if is_space c then lstrip s' else s
  end.

Fixpoint rstrip (s : str) : str :=
  match s with
  | [] => []
  | c :: s' =>
      match rstrip s' with
      | [] => if is_space c then [] else [c]
      | r => c :: r
      end
  end.

(** [s.strip()] *)
Definition strip (s : str) : str := rstrip (lstrip s).

(** [a == b] *)
Fixpoint eqb (a b : str) : bool :=
  match a, b with
  | [], [] => true
  | x :: a', y :: b' => (x =? y)%N && eqb a' b'
  | _, _ => false
  end.

(** [a <= b], by code points *)
Fixpoint leb (a b : str) : bool :=
  match a, b with
  | [], _ => true
  | _ :: _, [] => false
  | x :: a', y :: b' =>
      if (x <? y)%N then true else if (x =? y)%N then leb a' b' else false
  end.

(** [s.startswith(p)] *)
Fixpoint prefix (p s : str) : bool :=
  match p, s with
  | [], _ => true
  | _ :: _, [] => false
  | x :: p', y :: s' => (x =? y)%N && prefix p' s'
  end.

(** [sub in s] *)
Fixpoint contains (sub s : str) : bool :=
  prefix sub s ||
  match s with
  | [] => false
  | _ :: s' => contains sub s'
  end.

(** [sep.join(l)] *)
Fixpoint join (sep : str) (l : list str) : str :=
  match l with
  | [] => []
  | [x] => x
  | x :: rest => x ++ sep ++ join sep rest
  end.

(** [s * n] *)
Fixpoint repeat_str (s : str) (n : nat) : str :=
  match n with
  | O => []
  | S n' => s ++ repeat_str s n'
  end.

(** [str(n)] and [f"{n}"] for a non-negative integer *)
Definition of_nat (n : nat) : str := u (NilEmpty.string_of_uint (Nat.to_uint n)).

(** [bool(s)]: a string is truthy when it is not empty *)
Definition truthy (s : str) : bool :=
  match s with [] => false | _ => true end.

(** [bool(l)]: a list is truthy when it is not empty *)
Definition truthy_list {A : Type} (l : list A) : bool :=
  match l with [] => false | _ => true end.

(** [x in l] for a list of strings *)
Definition mem (x : str) (l : list str) : bool :=
  existsb (eqb x) l.

End Str.

(* ------------------------------------------------------------------ *)
(** ** ElementTree elements *)

(** [xml.etree.ElementTree.Element]: tag, attributes, text and children
    (the tail is never read by the program). *)
Inductive Element : Type :=
  mkElement (tag : str) (attrib : list (str * str))
            (text : option str) (children : list Element).

Definition tag (e : Element) : str :=
  match e with mkElement t _ _ _ => t end.
Definition attrib (e : Element) : list (str * str) :=
  match e with mkElement _ a _ _ => a end.
Definition text (e : Element) : option str :=
  match e with mkElement _ _ t _ => t end.
Definition children (e : Element) : list Element :=
  match e with mkElement _ _ _ c => c end.

(** [e.iter()]: the element itself, then its descendants, in document
    order. *)
Fixpoint iter (e : Element) : list Element :=
  match e with
  | mkElement _ _ _ cs => e :: flat_map iter cs
  end.

(** [e.findall('.//' + t)]: the descendants of [e] (not [e] itself) whose
    tag is [t], in document order. *)
Definition findall (t : str) (e : Element) : list Element :=
  List.filter (fun x => Str.eqb (tag x) t) (flat_map iter (children e)).

(** [e.find('.//' + t)]: the first such descendant, or [None]. *)
Definition find (t : str) (e : Element) : option Element :=
  head (findall t e).

(** [e.get(key, default)] *)
Fixpoint attrib_get (key : str) (a : list (str * str)) (default : str) : str :=
  match a with
  | [] => default
  | (k, v) :: a' => if Str.eqb k key then v else attrib_get key a' default
  end.

Definition get (e : Element) (key default : str) : str :=
  attrib_get key (attrib e) default.

(** The namespace table [NS] and the qualified names built from it. *)
Definition NS_office : str := u"urn:oasis:names:tc:opendocument:xmlns:office:1.0".
Definition NS_table : str := u"urn:oasis:names:tc:opendocument:xmlns:table:1.0".
Definition NS_text : str := u"urn:oasis:names:tc:opendocument:xmlns:text:1.0".

Definition qname (ns local : str) : str := u"{" ++ ns ++ u"}" ++ local.

(** [extract_text(cell)] *)
Definition extract_text (cell : Element) : str :=
  let texts :=
    flat_map (fun elem =>
                if Str.eqb (tag elem) (qname NS_text (u"p")) then
                  match text elem with
                  | Some t => if Str.truthy t then [t] else []
                  | None => []
                  end
                else [])
             (iter cell) in
  Str.strip (Str.join (u" ") texts).

(** The test of line 115 on the value of line 113. *)
Definition is_marker (cell_value : str) : bool :=
  Str.mem cell_value [u"x"; u"yes"; u"1"].

Definition cell_has_coverage (cell : Element) : bool :=
  let cell_value := Str.lower (extract_text cell) in
  is_marker cell_value.

(** ** Day type of a sheet (lines 75-76 and 177-178) *)

Inductive DayType : Type := Weekday | Weekend.

Definition DayType_str (d : DayType) : str :=
  match d with Weekday => u"Weekday" | Weekend => u"Weekend" end.

Definition is_weekend (sheet_name : str) : bool :=
  Str.contains (u"weekend") (Str.lower sheet_name).

Definition day_type_of (sheet_name : str) : DayType :=
  if is_weekend sheet_name then Weekend else Weekday.

(* ------------------------------------------------------------------ *)
(** ** Python dictionaries *)

Abbreviation dict V := (list (str * V)).

Module Dict.
Section Ops.
Context {V : Type}.

(** [d.get(k)] *)
Fixpoint get (k : str) (d : dict V) : option V :=
  match d with
  | [] => None
  | (k', v) :: d' => if Str.eqb k k' then Some v else get k d'
  end.

(** [k in d] *)
Definition has (k : str) (d : dict V) : bool :=
  match get k d with Some _ => true | None => false end.

(** [d[k] = v]: overwrite where the key is, else append. *)
Fixpoint set (k : str) (v : V) (d : dict V) : dict V :=
  match d with
  | [] => [(k, v)]
  | (k', v') :: d' =>
      if Str.eqb k k' then (k', v) :: d' else (k', v') :: set k v d'
  end.

(** [list(d.keys())] *)
Definition keys (d : dict V) : list str := map fst d.
End Ops.
End Dict.

(** [coverage_data[sheet_name][study_type][shift_position] = has_coverage] *)
Abbreviation CoverageData := (dict (dict (dict bool))).

(** Lines 122-127: create the two inner dictionaries when they are missing,
    then store [True] at the leaf.  The inner dictionaries are shared
    objects in Python; here each one is written back where it came from. *)
Definition store_coverage (sheet_name study_type shift_position : str)
    (coverage_data : CoverageData) : CoverageData :=
  let coverage_data :=
    if negb (Dict.has sheet_name coverage_data)
    then Dict.set sheet_name [] coverage_data else coverage_data in
  let studies := default [] (Dict.get sheet_name coverage_data) in
  let studies :=
    if negb (Dict.has study_type studies)
    then Dict.set study_type [] studies else studies in
  let positions := default [] (Dict.get study_type studies) in
  Dict.set sheet_name
    (Dict.set study_type (Dict.set shift_position true positions) studies)
    coverage_data.

(* ------------------------------------------------------------------ *)
(** ** The grid parser *)

(** [enumerate(l, start)] *)
Definition enumerate {A : Type} (l : list A) (start : nat) : list (nat * A) :=
  combine (seq start (length l)) l.

(** Line 117. *)
Definition resolve_shift_position (shift_positions : list str) (i : nat) : str :=
  if (i <? length shift_positions)%nat
  then nth i shift_positions (u"")
  else u"Column" ++ Str.of_nat i.

(** Body of the loop of line 112; the state is [coverage_data] and
    [coverage_count]. *)
Definition visit_cell (sheet_name study_type : str) (shift_positions : list str)
    (st : CoverageData * nat) (ic : nat * Element) : CoverageData * nat :=
  let '(coverage_data, coverage_count) := st in
  let '(i, cell) := ic in
  if cell_has_coverage cell then
    let shift_position := resolve_shift_position shift_positions i in
    (store_coverage sheet_name study_type shift_position coverage_data,
     coverage_count + 1)
  else st.

(** Body of the loop of line 97; the state is [coverage_data],
    [study_count] and [coverage_count]. *)
Definition visit_row (sheet_name : str) (shift_positions : list str)
    (st : CoverageData * nat * nat) (row : Element) : CoverageData * nat * nat :=
  let '(coverage_data, study_count, coverage_count) := st in
  match findall (qname NS_table (u"table-cell")) row with
  | [] => st
  | cell0 :: rest =>
      let study_type := extract_text cell0 in
      if negb (Str.truthy study_type) then st
      else
        let '(coverage_data, coverage_count) :=
          fold_left (visit_cell sheet_name study_type shift_positions)
                    (enumerate rest 1) (coverage_data, coverage_count) in
        (coverage_data, study_count + 1, coverage_count)
  end.

(** The icons of the printed lines, code point for code point as in the
    source file. *)
Definition ICON_CROSS : str := [8218; 249; 229]%N.
Definition ICON_TICK : str := [8218; 250; 236]%N.
Definition ICON_OK : str := [8218; 250; 214]%N.
Definition ICON_STUDY : str := [63743; 252; 236; 227]%N.
Definition ICON_CHART : str := [63743; 252; 236; 228]%N.

Definition NL : str := [10]%N.

(** What a call either returns or raises. *)
Inductive result (A : Type) : Type :=
| Return (a : A)
| Raise (exception : str).
Arguments Return {A} a.
Arguments Raise {A} exception.

(** The interpreter's services the program calls. *)
Record Runtime : Type := {
  (** [zipfile.ZipFile(filepath, 'r').read(name)]; the exception carries
      [str(e)] *)
  zipfile_read : str -> str -> result str;
  (** [ET.fromstring(content)] *)
  ET_fromstring : str -> result Element;
  (** [repr] of a list of strings, as an f-string formats it *)
  repr_list : list str -> str
}.

(** Line 71. *)
Definition sheet_name_of (table : Element) : str :=
  get table (qname NS_table (u"name")) (u"Unknown").

(** Body of the loop of line 70; the state is [coverage_data] and the
    printed texts. *)
Definition visit_table (rt : Runtime) (st : CoverageData * list str)
    (table : Element) : CoverageData * list str :=
  let '(coverage_data, out) := st in
  let sheet_name := sheet_name_of table in
  let out := out ++ [u"Processing sheet: " ++ sheet_name] in
  let day_type := day_type_of sheet_name in
  let rows := findall (qname NS_table (u"table-row")) table in
  match rows with
  | [] => (coverage_data, out)
  | header_row :: data_rows =>
      let header_cells := findall (qname NS_table (u"table-cell")) header_row in
      let shift_positions := map extract_text header_cells in
      let out := out ++
        [u"  Day type: " ++ DayType_str day_type;
         u"  Shift positions: " ++ repr_list rt (List.filter Str.truthy shift_positions);
         u"  Data rows: " ++ Str.of_nat (length rows - 1)] in
      let '(coverage_data, study_count, coverage_count) :=
        fold_left (visit_row sheet_name shift_positions) data_rows
                  (coverage_data, 0, 0) in
      (coverage_data,
       out ++ [u"  " ++ ICON_TICK ++ u" " ++ Str.of_nat study_count ++ u" study types, "
               ++ Str.of_nat coverage_count ++ u" coverage markers" ++ NL])
  end.

Definition AttributeError_find : str :=
  u"AttributeError: 'NoneType' object has no attribute 'find'".
Definition AttributeError_findall : str :=
  u"AttributeError: 'NoneType' object has no attribute 'findall'".

(** [parse_coverage_grid(filepath)]: the printed texts and what the call
    returns ([None] or the dictionary) or raises. *)
Definition parse_coverage_grid (rt : Runtime) (filepath : str)
    : list str * result (option CoverageData) :=
  let out :=
    [Str.repeat_str (u"=") 70;
     u"         SchedCU Coverage Grid Validation Tool";
     Str.repeat_str (u"=") 70;
     u"";
     u"Opening file: " ++ filepath] in
  match zipfile_read rt filepath (u"content.xml") with
  | Raise e =>
      (out ++ [ICON_CROSS ++ u" Failed to read ODS file: " ++ e], Return None)
  | Return content =>
      let out := out ++ [ICON_TICK ++ u" File opened successfully"] in
      match ET_fromstring rt content with
      | Raise e =>
          (out ++ [ICON_CROSS ++ u" Failed to parse XML: " ++ e], Return None)
      | Return root =>
          let out := out ++ [ICON_TICK ++ u" XML parsed successfully" ++ NL] in
          match find (qname NS_office (u"body")) root with
          | None => (out, Raise AttributeError_find)
          | Some body =>
              match find (qname NS_office (u"spreadsheet")) body with
              | None => (out, Raise AttributeError_findall)
              | Some spreadsheet =>
                  let tables := findall (qname NS_table (u"table")) spreadsheet in
                  let out := out ++
                    [ICON_TICK ++ u" Found " ++ Str.of_nat (length tables)
                     ++ u" sheet(s)" ++ NL] in
                  let '(coverage_data, out) :=
                    fold_left (visit_table rt) tables ([], out) in
                  (out, Return (Some coverage_data))
              end
          end
      end
  end.

(* ------------------------------------------------------------------ *)
(** ** Categories *)

(** [extract_study_category(study_type)] *)
Definition extract_study_category (study_type : str) : str :=
  let study_lower := Str.lower study_type in
  if Str.contains (u"ct") study_lower then
    if Str.contains (u"neuro") study_lower then u"CT Neuro"
    else if Str.contains (u"body") study_lower then u"CT Body"
    else u"CT"
  else if Str.contains (u"mr") study_lower || Str.contains (u"mri") study_lower then
    if Str.contains (u"neuro") study_lower then u"MRI Neuro"
    else if Str.contains (u"body") study_lower then u"MRI Body"
    else u"MRI"
  else if Str.contains (u"us") study_lower || Str.contains (u"ultrasound") study_lower then
    u"Ultrasound"
  else if Str.contains (u"dx") study_lower || Str.contains (u"x-ray") study_lower
          || Str.contains (u"xray") study_lower then
    u"X-Ray"
  else if Str.contains (u"nm") study_lower || Str.contains (u"nuclear") study_lower then
    u"Nuclear Medicine"
  else if Str.contains (u"fluoro") study_lower then u"Fluoroscopy"
  else if Str.contains (u"pet") study_lower then u"PET"
  else u"Other".

(* ------------------------------------------------------------------ *)
(** ** The coverage aggregator (lines 172-186) *)

(** The value [{'Weekday': set(), 'Weekend': set()}] of the two
    [defaultdict]s: a dictionary with exactly these two keys. *)
Record Coverage : Type := {
  cov_weekday : gset str;
  cov_weekend : gset str
}.

(** The [defaultdict] factory. *)
Definition empty_coverage : Coverage :=
  {| cov_weekday := ∅; cov_weekend := ∅ |}.

(** [coverage[day_type]] *)
Definition sheets_of (day_type : DayType) (c : Coverage) : gset str :=
  match day_type with
  | Weekday => cov_weekday c
  | Weekend => cov_weekend c
  end.

(** [coverage[day_type].add(sheet_name)] *)
Definition add_sheet (day_type : DayType) (sheet_name : str) (c : Coverage) : Coverage :=
  match day_type with
  | Weekday => {| cov_weekday := {[sheet_name]} ∪ cov_weekday c; cov_weekend := cov_weekend c |}
  | Weekend => {| cov_weekday := cov_weekday c; cov_weekend := {[sheet_name]} ∪ cov_weekend c |}
  end.

(** [d[key]] on a [defaultdict]: the stored value, or a fresh default. *)
Definition defaultdict_get (key : str) (d : dict Coverage) : Coverage :=
  default empty_coverage (Dict.get key d).

(** [d[key][day_type].add(sheet_name)] on a [defaultdict]: a missing key is
    inserted at the end with the default value, then the set is updated. *)
Definition record_sheet (key : str) (day_type : DayType) (sheet_name : str)
    (d : dict Coverage) : dict Coverage :=
  Dict.set key (add_sheet day_type sheet_name (defaultdict_get key d)) d.

(** The two maps the aggregation builds. *)
Record Aggregate : Type := {
  category_coverage : dict Coverage;
  study_type_coverage : dict Coverage
}.

(** Body of the loop of line 180. *)
Definition aggregate_study (day_type : DayType) (sheet_name : str)
    (acc : Aggregate) (entry : str * dict bool) : Aggregate :=
  let '(study_type, positions) := entry in
  let stc := record_sheet study_type day_type sheet_name (study_type_coverage acc) in
  let category := extract_study_category study_type in
  let cc := record_sheet category day_type sheet_name (category_coverage acc) in
  {| category_coverage := cc; study_type_coverage := stc |}.

(** Body of the loop of line 175. *)
Definition aggregate_sheet (acc : Aggregate) (entry : str * dict (dict bool)) : Aggregate :=
  let '(sheet_name, studies) := entry in
  let day_type := day_type_of sheet_name in
  fold_left (aggregate_study day_type sheet_name) studies acc.

Definition aggregate (coverage_data : CoverageData) : Aggregate :=
  fold_left aggregate_sheet coverage_data
            {| category_coverage := []; study_type_coverage := [] |}.

(* ------------------------------------------------------------------ *)
(** ** The gap analyzer (lines 238-245) *)

(** [bool(s)] for a set. *)
Definition set_truthy (s : gset str) : bool := negb (size s =? 0)%nat.

Definition gap_weekday (study_type : str) : str :=
  study_type ++ u" - Missing WEEKDAY coverage".
Definition gap_weekend (study_type : str) : str :=
  study_type ++ u" - Missing WEEKEND coverage".

(** Body of the loop of line 241. *)
Definition visit_gaps (gaps : list str) (entry : str * Coverage) : list str :=
  let '(study_type, coverage) := entry in
  let gaps :=
    if negb (set_truthy (cov_weekday coverage))
    then gaps ++ [gap_weekday study_type] else gaps in
  if negb (set_truthy (cov_weekend coverage))
  then gaps ++ [gap_weekend study_type] else gaps.

Definition find_gaps (study_type_coverage : dict Coverage) : list str :=
  fold_left visit_gaps study_type_coverage [].

(* ------------------------------------------------------------------ *)
(** ** The report *)

(** [sorted(keys)]: insertion into an ordered list, by code point order. *)
Fixpoint insert_sorted (k : str) (l : list str) : list str :=
  match l with
  | [] => [k]
  | k' :: l' => if Str.leb k k' then k :: l else k' :: insert_sorted k l'
  end.

Definition sorted (l : list str) : list str :=
  fold_right insert_sorted [] l.

(** Bodies of the loops of lines 194 and 216, which differ in the icon. *)
Definition report_subject (ic : str) (d : dict Coverage) (name : str) : list str :=
  let weekday_sheets := cov_weekday (defaultdict_get name d) in
  let weekend_sheets := cov_weekend (defaultdict_get name d) in
  [ic ++ u" " ++ name;
   u"   Weekday coverage: " ++ Str.of_nat (size weekday_sheets) ++ u" time period(s)";
   u"   Weekend coverage: " ++ Str.of_nat (size weekend_sheets) ++ u" time period(s)"]
  ++ (if negb (set_truthy weekday_sheets)
      then [u"   " ++ ICON_CROSS ++ u" WARNING: NO WEEKDAY COVERAGE"] else [])
  ++ (if negb (set_truthy weekend_sheets)
      then [u"   " ++ ICON_CROSS ++ u" WARNING: NO WEEKEND COVERAGE"] else [])
  ++ (if set_truthy weekday_sheets && set_truthy weekend_sheets
      then [u"   " ++ ICON_OK ++ u" Has both weekday and weekend coverage"] else [])
  ++ [u""].

Definition report_subjects (ic : str) (d : dict Coverage) : list str :=
  flat_map (report_subject ic d) (sorted (Dict.keys d)).

(** Lines 247-253. *)
Definition report_gaps (gaps : list str) : list str :=
  if Str.truthy_list gaps then
    [ICON_CROSS ++ u" Found " ++ Str.of_nat (length gaps) ++ u" gap(s):" ++ NL]
    ++ map (fun ig => Str.of_nat (fst ig) ++ u". " ++ snd ig) (enumerate gaps 1)
    ++ [u""]
  else
    [ICON_OK ++ u" NO GAPS FOUND - All study types have both weekday and weekend coverage" ++ NL].

(** Lines 261-268. *)
Definition report_statistics (total_study_types total_categories n_gaps : nat) : list str :=
  [ICON_CHART ++ u" Statistics:";
   u"   Total study types: " ++ Str.of_nat total_study_types;
   u"   Total categories: " ++ Str.of_nat total_categories;
   u"   Coverage gaps: " ++ Str.of_nat n_gaps;
   u""].

(** Lines 270-277. *)
Definition report_verdict (gaps : list str) : list str :=
  (if (length gaps =? 0)%nat then
     [ICON_OK ++ u" VALIDATION PASSED";
      u"   All study types have coverage for both weekdays and weekends"]
   else
     [ICON_CROSS ++ u" VALIDATION FAILED";
      u"   " ++ Str.of_nat (length gaps) ++ u" coverage gap(s) detected";
      u"   Review gaps listed above"])
  ++ [u""].

Definition banner (title : str) : list str :=
  [Str.repeat_str (u"=") 70; title; Str.repeat_str (u"=") 70; u""].

Definition heading (title : str) : list str :=
  [Str.repeat_str (u"-") 70; title; Str.repeat_str (u"-") 70; u""].

(** [analyze_coverage(coverage_data)]: everything the call prints.  It
    returns [None], and none of its operations can raise. *)
Definition analyze_coverage (coverage_data : CoverageData) : list str :=
  let agg := aggregate coverage_data in
  let gaps := find_gaps (study_type_coverage agg) in
  let total_study_types := length (study_type_coverage agg) in
  let total_categories := length (category_coverage agg) in
  banner (u"                   COVERAGE ANALYSIS")
  ++ heading (u"Study Type Coverage (Detailed)")
  ++ report_subjects ICON_STUDY (study_type_coverage agg)
  ++ heading (u"Study Category Coverage (Summary)")
  ++ report_subjects ICON_CHART (category_coverage agg)
  ++ heading (u"Coverage Gaps")
  ++ report_gaps gaps
  ++ banner (u"                   VALIDATION SUMMARY")
  ++ report_statistics total_study_types total_categories (length gaps)
  ++ report_verdict gaps.

(* ------------------------------------------------------------------ *)
(** ** The command line *)

(** How the process ends: its exit status, or the exception that reached
    the top level (the interpreter then exits with status 1). *)
Inductive Termination : Type :=
| Exit (status : nat)
| Uncaught (exception : str).

Definition DEFAULT_PATH : str := u"/home/user/schedCU/cuSchedNormalized.ods".

(** [bool(coverage_data)] for the value [parse_coverage_grid] returns:
    [None] and the empty dictionary are both falsy. *)
Definition coverage_truthy (r : option CoverageData) : bool :=
  match r with
  | None => false
  | Some [] => false
  | Some (_ :: _) => true
  end.

(** Lines 283-286. *)
Definition filepath_of (argv : list str) : str :=
  if (1 <? length argv)%nat then nth 1 argv (u"") else DEFAULT_PATH.

(** [main()], with [sys.argv]: the printed texts and how the process ends. *)
Definition main (rt : Runtime) (argv : list str) : list str * Termination :=
  let filepath := filepath_of argv in
  match parse_coverage_grid rt filepath with
  | (out, Raise e) => (out, Uncaught e)
  | (out, Return coverage_data) =>
      if coverage_truthy coverage_data then
        (out ++ analyze_coverage (default [] coverage_data), Exit 0)
      else
        (out ++ [u"Failed to parse coverage data"], Exit 1)
  end.

(* ------------------------------------------------------------------ *)
(** ** Small documents, used to state the scenarios *)

(** A [text:p] paragraph with text [t]. *)
Definition paragraph (t : str) : Element :=
  mkElement (qname NS_text (u"p")) [] (Some t) [].

(** A table cell with one paragraph. *)
Definition paragraph_cell (t : str) : Element :=
  mkElement (qname NS_table (u"table-cell")) [] None [paragraph t].

(** A table cell with one paragraph for each text. *)
Definition paragraphs_cell (ts : list str) : Element :=
  mkElement (qname NS_table (u"table-cell")) [] None (map paragraph ts).

Definition row_of (cells : list str) : Element :=
  mkElement (qname NS_table (u"table-row")) [] None (map paragraph_cell cells).

Definition table_of (name : str) (rows : list (list str)) : Element :=
  mkElement (qname NS_table (u"table")) [(qname NS_table (u"name"), name)] None
            (map row_of rows).

Definition spreadsheet_of (tables : list Element) : Element :=
  mkElement (qname NS_office (u"spreadsheet")) [] None tables.

Definition body_of (tables : list Element) : Element :=
  mkElement (qname NS_office (u"body")) [] None [spreadsheet_of tables].

Definition document_of (tables : list Element) : Element :=
  mkElement (qname NS_office (u"document-content")) [] None [body_of tables].

(** [repr] of a list of strings that hold no quote, no backslash and no
    control character: each one between single quotes. *)
Definition repr_plain (l : list str) : str :=
  u"[" ++ Str.join (u", ") (map (fun s : str => u"'" ++ s ++ u"'") l) ++ u"]".

(** A runtime in which every archive holds the document [root]. *)
Definition runtime_with (root : Element) : Runtime :=
  {| zipfile_read := fun _ _ => Return (u"content");
     ET_fromstring := fun _ => Return root;
     repr_list := repr_plain |}.

(** A runtime in which no path is a zip archive. *)
Definition runtime_not_a_zip : Runtime :=
  {| zipfile_read := fun _ _ => Raise (u"File is not a zip file");
     ET_fromstring := fun _ => Raise (u"no element found");
     repr_list := repr_plain |}.

(** A parsed document with one weekday and one weekend sheet. *)
Definition two_sheets : CoverageData :=
  [(u"Weekday Overnight", [(u"Allen MR Body", [(u"BODY1", true)])]);
   (u"Weekend Overnight", [(u"Allen MR Body", [(u"BODY1", true)]);
                          (u"CPMC CT Neuro", [(u"NEURO1", true)])])].

(** The same sheets, visited in the other order. *)
Definition two_sheets_shuffled : CoverageData :=
  [(u"Weekend Overnight", [(u"Allen MR Body", [(u"BODY1", true)]);
                          (u"CPMC CT Neuro", [(u"NEURO1", true)])]);
   (u"Weekday Overnight", [(u"Allen MR Body", [(u"BODY1", true)])])].

(** What the matrix holds for "Allen MR Body" on [two_sheets]. *)
Definition two_sheets_body : Coverage :=
  {| cov_weekday := {[u"Weekday Overnight"]};
     cov_weekend := {[u"Weekend Overnight"]} |}.

(** Two parsed documents with different numbers of sheets and of markers. *)
Definition one_sheet_two_markers : CoverageData :=
  [(u"Weekday Evening", [(u"Allen CT", [(u"P1", true)]);
                        (u"Allen MR", [(u"P1", true)])])].

Definition two_sheets_three_markers : CoverageData :=
  [(u"Weekday Evening", [(u"Allen CT", [(u"P1", true); (u"P2", true)])]);
   (u"Weekday Night", [(u"Allen MR", [(u"P1", true)])])].

(** Scenario 3: a header row of two columns and a data row of three
    cells, the third one marked. *)
Definition short_header_row : Element := row_of [u"CPMC CT Neuro"; u""; u"x"].

Definition short_header_sheet : list Element :=
  [table_of (u"Weekday 5-6 PM Neuro") [[u"Study"; u"NEURO1"]; [u"CPMC CT Neuro"; u""; u"x"]]].

(** A sheet none of whose cells is marked. *)
Definition unmarked_sheet : list Element :=
  [table_of (u"Weekend Overnight") [[u"Study"; u"BODY1"]; [u"Allen MR Body"; u"no"]]].

Definition ARGV : list str := [u"parse_coverage_grid.py"; u"grid.ods"].

(** Scenario 1: one weekday sheet with one marked cell. *)
Definition neuro_sheet : list Element :=
  [table_of (u"Weekday 5-6 PM Neuro") [[u"Study"; u"NEURO1"]; [u"CPMC CT Neuro"; u"x"]]].

(* ------------------------------------------------------------------ *)
(** ** Notions used to state the properties *)

(** The character [c] writes the small letter [l]: it is that letter, its
    capital 32 code points below, or, for the letter k (107), the Kelvin
    sign (8490), the other capital whose lower case is k. *)
Definition writes_letter (c l : N) : Prop :=
  c = l ∨ c = (l - 32)%N ∨ (l = 107%N ∧ c = 8490%N).

(** The letters of "weekend": d, e, k, n and w. *)
Definition plain (l : N) : Prop :=
  l = 100%N ∨ l = 101%N ∨ l = 107%N ∨ l = 110%N ∨ l = 119%N.

Definition plainb (l : N) : bool :=
  ((l =? 100) || (l =? 101) || (l =? 107) || (l =? 110) || (l =? 119))%N.

(** The text [w] spells the lower-case word [word], letter by letter, in
    some letter case. *)
Definition spells (w word : str) : Prop := Forall2 writes_letter w word.

(** The name has a part that spells "weekend" in some letter case. *)
Definition names_weekend (sheet_name : str) : Prop :=
  ∃ pre w post, sheet_name = pre ++ w ++ post ∧ spells w (u"weekend").

(** [coverage_data[sheet_name][study_type][shift_position]], when all three
    keys are present. *)
Definition leaf (coverage_data : CoverageData)
    (sheet_name study_type shift_position : str) : option bool :=
  studies ← Dict.get sheet_name coverage_data;
  positions ← Dict.get study_type studies;
  Dict.get shift_position positions.

(** The visits of the aggregation loops, in order: the key recorded and the
    sheet recorded under it. *)
Definition study_visits (coverage_data : CoverageData) : list (str * str) :=
  flat_map (fun entry : str * dict (dict bool) =>
              map (fun study : str * dict bool => (fst study, fst entry)) (snd entry))
           coverage_data.

Definition category_visits (coverage_data : CoverageData) : list (str * str) :=
  map (fun visit : str * str => (extract_study_category (fst visit), snd visit))
      (study_visits coverage_data).

(** Recording a run of visits in one [defaultdict]. *)
Definition record_all (visits : list (str * str)) (d : dict Coverage) : dict Coverage :=
  fold_left (fun d (visit : str * str) =>
               record_sheet (fst visit) (day_type_of (snd visit)) (snd visit) d)
            visits d.

(** The closing lines of a report that passed (lines 271-272, 277). *)
Definition PASSED : list str :=
  [ICON_OK ++ u" VALIDATION PASSED";
   u"   All study types have coverage for both weekdays and weekends";
   u""].

(** The report ends with the lines of a passed validation. *)
Definition validation_passed (report : list str) : Prop :=
  ∃ before, report = before ++ PASSED.

(** An entry of the matrix puts a message in the gap list for each of its
    two sets that is empty. *)
Definition emits (entry : str * Coverage) (g : str) : Prop :=
  (g = gap_weekday (fst entry) ∧ cov_weekday (snd entry) = ∅)
  ∨ (g = gap_weekend (fst entry) ∧ cov_weekend (snd entry) = ∅).

(** The distinct study types and categories of a parsed document. *)
Definition study_types_of (coverage_data : CoverageData) : gset str :=
  list_to_set (study_visits coverage_data).*1.

Definition categories_of (coverage_data : CoverageData) : gset str :=
  list_to_set (category_visits coverage_data).*1.

(** The number of distinct sheets and of coverage markers of a parsed
    document. *)
Definition distinct_sheets (coverage_data : CoverageData) : nat :=
  size (list_to_set (Dict.keys coverage_data) : gset str).

Definition total_markers (coverage_data : CoverageData) : nat :=
  sum_list (map (fun sheet : str * dict (dict bool) =>
                   sum_list (map (fun study : str * dict bool => length (snd study))
                                 (snd sheet)))
                coverage_data).

(** The cells of a row that the parser compares with the markers: those
    after the first, when the first is not empty. *)
Definition coverage_cells_of_row (row : Element) : list Element :=
  match findall (qname NS_table (u"table-cell")) row with
  | [] => []
  | cell0 :: rest => if Str.truthy (extract_text cell0) then rest else []
  end.

(** The cells of a table that the parser compares with the markers: those
    of the rows after the first. *)
Definition coverage_cells (table : Element) : list Element :=
  match findall (qname NS_table (u"table-row")) table with
  | [] => []
  | header_row :: data_rows => flat_map coverage_cells_of_row data_rows
  end.

(** The keys at which the parser stores [True], in the order of the stores:
    for a run of cells, a row, a table and a list of tables. *)
Definition store_entry (coverage_data : CoverageData) (key : str * str * str)
    : CoverageData :=
  store_coverage (fst (fst key)) (snd (fst key)) (snd key) coverage_data.

Definition cell_entries (sheet_name study_type : str) (shift_positions : list str)
    (cells : list (nat * Element)) : list (str * str * str) :=
  map (fun ic : nat * Element =>
         (sheet_name, study_type, resolve_shift_position shift_positions (fst ic)))
      (List.filter (fun ic : nat * Element => cell_has_coverage (snd ic)) cells).

Definition row_entries (sheet_name : str) (shift_positions : list str)
    (row : Element) : list (str * str * str) :=
  match findall (qname NS_table (u"table-cell")) row with
  | [] => []
  | cell0 :: rest =>
      if Str.truthy (extract_text cell0)
      then cell_entries sheet_name (extract_text cell0) shift_positions (enumerate rest 1)
      else []
  end.

Definition table_entries (table : Element) : list (str * str * str) :=
  match findall (qname NS_table (u"table-row")) table with
  | [] => []
  | header_row :: data_rows =>
      flat_map (row_entries (sheet_name_of table)
                  (map extract_text (findall (qname NS_table (u"table-cell")) header_row)))
               data_rows
  end.

Definition document_entries (tables : list Element) : list (str * str * str) :=
  flat_map table_entries tables.

(** Every leaf of the nested dictionary is [True]. *)
Definition positions_true (positions : dict bool) : Prop :=
  ∀ p v, (p, v) ∈ positions → v = true.

Definition studies_true (studies : dict (dict bool)) : Prop :=
  ∀ st positions, (st, positions) ∈ studies → positions_true positions.

Definition leaves_true (coverage_data : CoverageData) : Prop :=
  ∀ s studies, (s, studies) ∈ coverage_data → studies_true studies.

(** The table has a cell that parses as covered. *)
Definition has_covered_cell (table : Element) : Prop :=
  ∃ cell, cell ∈ coverage_cells table ∧ cell_has_coverage cell = true.

(* ------------------------------------------------------------------ *)
(** ** Further notions, for the properties beyond the specification *)


(** The paragraph texts [extract_text] collects from a cell, in document
    order (lines 26-30). *)
Definition paragraph_texts (cell : Element) : list str :=
  flat_map (fun elem =>
              if Str.eqb (tag elem) (qname NS_text (u"p")) then
                match text elem with
                | Some t => if Str.truthy t then [t] else []
                | None => []
                end
              else [])
           (iter cell).

(** The table has a data row labelled [st] with a covered cell in a column
    whose shift position resolves to [p], and its sheet name is [s]. *)
Definition marks (table : Element) (s st p : str) : Prop :=
  ∃ header_row data_rows row cell0 rest j cell,
    findall (qname NS_table (u"table-row")) table = header_row :: data_rows
    ∧ row ∈ data_rows
    ∧ findall (qname NS_table (u"table-cell")) row = cell0 :: rest
    ∧ Str.truthy (extract_text cell0) = true
    ∧ rest !! j = Some cell
    ∧ cell_has_coverage cell = true
    ∧ s = sheet_name_of table
    ∧ st = extract_text cell0
    ∧ p = resolve_shift_position
            (map extract_text (findall (qname NS_table (u"table-cell")) header_row))
            (S j).

(** The dictionary the loop of line 70 builds from a list of tables. *)
Definition parse_tables (rt : Runtime) (tables : list Element) : CoverageData :=
  fst (fold_left (visit_table rt) tables ([], [])).

(** The row counts as a study type at line 109: it has a first cell and
    the text of that cell is not empty. *)
Definition labelled (row : Element) : bool :=
  match findall (qname NS_table (u"table-cell")) row with
  | [] => false
  | cell0 :: _ => Str.truthy (extract_text cell0)
  end.

(** A runtime in which the archive reads but its content is not XML. *)
Definition runtime_bad_xml : Runtime :=
  {| zipfile_read := fun _ _ => Return (u"not xml");
     ET_fromstring := fun _ => Raise (u"syntax error: line 1, column 0");
     repr_list := repr_plain |}.

(** A well-formed document without an [office:body] element. *)
Definition document_without_body : Element :=
  mkElement (qname NS_office (u"document-content")) [] None [].

(** The study type occurs in a sheet of the parsed document whose day type
    is [day]. *)
Definition covered_on (coverage_data : CoverageData) (study_type : str)
    (day : DayType) : Prop :=
  ∃ s studies,
    (s, studies) ∈ coverage_data ∧ study_type ∈ Dict.keys studies ∧ day_type_of s = day.

(** The labels [extract_study_category] can return. *)
Definition CATEGORIES : list str :=
  [u"CT Neuro"; u"CT Body"; u"CT"; u"MRI Neuro"; u"MRI Body"; u"MRI"; u"Ultrasound";
   u"X-Ray"; u"Nuclear Medicine"; u"Fluoroscopy"; u"PET"; u"Other"].

(** A character that [str.lower] leaves alone, wherever it stands: it is
    not the capital sigma and it is its own lower case. *)
Definition fixedb (c : N) : bool :=
  negb (c =? 931)%N && Str.eqb (Str.lower_char c) [c].

(* ------------------------------------------------------------------ *)
(** ** Facts about strings *)

Module StrFacts.
Import Str.

Lemma eqb_eq (a b : str) : eqb a b = true ↔ a = b.
Proof.
  revert b. induction a as [|x a IH]; intros [|y b]; simpl; try done.
  rewrite andb_true_iff, N.eqb_eq, IH. split; [intros [-> ->]; done | intros [= -> ->]; done].
Qed.

Lemma eqb_spec (a b : str) : reflect (a = b) (eqb a b).
Proof.
  destruct (eqb a b) eqn:H; constructor.
  - by apply eqb_eq.
  - intros Heq. apply eqb_eq in Heq. congruence.
Qed.

Lemma eqb_refl (a : str) : eqb a a = true.
Proof. by apply eqb_eq. Qed.

Lemma eqb_neq (a b : str) : eqb a b = false ↔ a ≠ b.
Proof. destruct (eqb_spec a b); split; done. Qed.

Lemma prefix_spec (sub s : str) :
  prefix sub s = true ↔ ∃ post, s = sub ++ post.
Proof.
  revert s. induction sub as [|x sub IH]; intros s; simpl.
  - split; [intros _; by exists s | done].
  - destruct s as [|y s].
    + split; [done | intros [post H]; done].
    + rewrite andb_true_iff, N.eqb_eq, IH. split.
      * intros [-> [post ->]]. by exists post.
      * intros [post [= -> ->]]. split; [done | by exists post].
Qed.

Lemma contains_spec (sub s : str) :
  contains sub s = true ↔ ∃ pre post, s = pre ++ sub ++ post.
Proof.
  induction s as [|c s IH]; cbn [contains].
  - rewrite orb_false_r, prefix_spec. split.
    + intros [post H]. by exists [], post.
    + intros (pre & post & H). destruct pre; simpl in H; [eauto | done].
  - rewrite orb_true_iff, prefix_spec, IH. split.
    + intros [[post H] | (pre & post & H)].
      * by exists [], post.
      * exists (c :: pre), post. simpl. by rewrite H.
    + intros (pre & post & H). destruct pre as [|x pre]; simpl in H.
      * left. eauto.
      * right. exists pre, post. congruence.
Qed.

(** Appending a text of a known length can be undone. *)
Lemma append_inj_length (a b c d : str) :
  a ++ b = c ++ d → length b = length d → a = c ∧ b = d.
Proof. intros H Hlen. by apply app_inj_2. Qed.

Lemma mem_spec (x : str) (l : list str) : mem x l = true ↔ x ∈ l.
Proof.
  unfold mem. rewrite existsb_exists. split.
  - intros (y & Hin & Heq). apply eqb_eq in Heq as ->. by apply list_elem_of_In.
  - intros Hin. exists x. split; [by apply list_elem_of_In | apply eqb_refl].
Qed.

End StrFacts.

(* ------------------------------------------------------------------ *)
(** ** Facts about lower case *)

Module LowerFacts.
Import Str.

Lemma assoc_In (c l : N) (table : list (N * N)) :
  assoc c table = Some l → In (c, l) table.
Proof.
  induction table as [|[c' l'] table IH]; simpl; [done |].
  destruct (N.eqb_spec c c') as [-> | _]; [intros [= ->]; by left | auto].
Qed.

Lemma plainb_spec (l : N) : plainb l = true ↔ plain l.
Proof.
  unfold plainb, plain. rewrite !orb_true_iff, !N.eqb_eq. tauto.
Qed.

(** In the table, a plain letter is the lower case of its capital only,
    and k also of the Kelvin sign. *)
Lemma LOWERCASE_plain :
  forallb (fun e : N * N =>
             negb (plainb (snd e))
             || (fst e =? snd e - 32)%N
             || ((snd e =? 107)%N && (fst e =? 8490)%N))
          LOWERCASE = true.
Proof. vm_compute. reflexivity. Qed.

Lemma assoc_plain (c l : N) :
  plain l → assoc c LOWERCASE = Some l → writes_letter c l.
Proof.
  intros Hl Hassoc. apply assoc_In in Hassoc.
  pose proof (proj1 (forallb_forall _ _) LOWERCASE_plain (c, l) Hassoc) as H.
  simpl in H. apply plainb_spec in Hl. rewrite Hl in H. simpl in H.
  apply orb_true_iff in H as [H | H].
  - apply N.eqb_eq in H. right. by left.
  - apply andb_true_iff in H as [H1 H2]. apply N.eqb_eq in H1, H2. right. by right.
Qed.

(** A character that writes a plain letter is not the capital sigma, and
    its lower case is that letter. *)
Lemma writes_letter_lower (c l : N) :
  plain l → writes_letter c l → (c =? 931)%N = false ∧ lower_char c = [l].
Proof.
  intros Hl Hw.
  destruct Hl as [-> | [-> | [-> | [-> | ->]]]];
    destruct Hw as [-> | [-> | [Hk ->]]]; try discriminate Hk;
    split; vm_compute; reflexivity.
Qed.

(** The first character of a lower case is a plain letter only for a
    character that writes it, and then it is the whole lower case. *)
Lemma lower_char_head (c l : N) (t : str) :
  plain l → lower_char c = l :: t → writes_letter c l ∧ t = [].
Proof.
  intros Hl. unfold lower_char.
  destruct (N.eqb_spec c 304) as [-> | _].
  - intros [= <- _]. exfalso.
    destruct Hl as [H | [H | [H | [H | H]]]]; discriminate H.
  - destruct (assoc c LOWERCASE) as [l'|] eqn:Hassoc.
    + intros [= -> <-]. split; [by apply assoc_plain | done].
    + intros [= -> <-]. split; [by left | done].
Qed.

Lemma sigma_not_plain (l : N) (b : bool) :
  plain l → (if b then 962 else 963)%N ≠ l.
Proof.
  intros [-> | [-> | [-> | [-> | ->]]]]; destruct b; discriminate.
Qed.

(** One step of [lower_from]. *)
Lemma lower_from_cons (b : bool) (c : N) (rest : str) :
  lower_from b (c :: rest)
  = (if (c =? 931)%N
     then [if b && final_sigma_after rest then 962 else 963]%N
     else lower_char c)
    ++ lower_from (if is_case_ignorable c then b else is_cased c) rest.
Proof. done. Qed.

(** Where the lower case starts with a word of plain letters, the text
    starts with a spelling of the word. *)
Lemma prefix_lower_spells (kw : str) :
  Forall plain kw →
  ∀ b s, prefix kw (lower_from b s) = true →
         ∃ w post, s = w ++ post ∧ spells w kw.
Proof.
  induction 1 as [|l kw Hl Hkw IH]; intros b s Hp.
  - exists [], s. split; [done | constructor].
  - destruct s as [|c rest]; [done |].
    rewrite lower_from_cons in Hp.
    destruct (N.eqb_spec c 931) as [-> | Hc].
    + exfalso. cbn [app prefix] in Hp.
      apply andb_true_iff in Hp as [Hp _]. apply N.eqb_eq in Hp.
      by apply (sigma_not_plain l (b && final_sigma_after rest) Hl).
    + destruct (lower_char c) as [|x t] eqn:Hlc.
      { unfold lower_char in Hlc. destruct (c =? 304)%N; [done |].
        destruct (assoc c LOWERCASE); done. }
      cbn [app prefix] in Hp. apply andb_true_iff in Hp as [Hx Hp].
      apply N.eqb_eq in Hx as <-.
      destruct (lower_char_head c l t Hl Hlc) as [Hw ->]. cbn [app] in Hp.
      destruct (IH _ _ Hp) as (w & post & -> & Hs).
      exists (c :: w), post. split; [done | by constructor].
Qed.

(** The lower case of a text that starts with a spelling of a word of
    plain letters starts with the word. *)
Lemma lower_spells (kw w : str) :
  Forall plain kw → spells w kw →
  ∀ b post, ∃ b', lower_from b (w ++ post) = kw ++ lower_from b' post.
Proof.
  intros Hkw Hs. revert Hkw.
  induction Hs as [|c l w kw Hw Hs IH]; intros Hkw b post.
  - by exists b.
  - apply Forall_cons in Hkw as [Hl Hkw].
    destruct (writes_letter_lower c l Hl Hw) as [Hc Hlc].
    cbn [app]. rewrite lower_from_cons, Hc, Hlc.
    destruct (IH Hkw (if is_case_ignorable c then b else is_cased c) post) as [b' ->].
    by exists b'.
Qed.

Lemma lower_from_app (b : bool) (pre r : str) :
  ∃ out b', lower_from b (pre ++ r) = out ++ lower_from b' r.
Proof.
  revert b. induction pre as [|c pre IH]; intros b.
  - by exists [], b.
  - cbn [app]. rewrite lower_from_cons.
    destruct (IH (if is_case_ignorable c then b else is_cased c)) as (out & b' & ->).
    eexists _, b'. by rewrite app_assoc.
Qed.

Lemma lower_from_nil (b : bool) (s : str) : lower_from b s = [] → s = [].
Proof.
  destruct s as [|c rest]; [done |]. rewrite lower_from_cons.
  destruct (c =? 931)%N; [done |].
  unfold lower_char. destruct (c =? 304)%N; [done |].
  destruct (assoc c LOWERCASE); done.
Qed.

(** The lower case of a text contains a word of plain letters exactly
    where the text has a spelling of it. *)
Lemma contains_lower_spells (kw : str) (l : N) (kw' : str) :
  kw = l :: kw' → Forall plain kw →
  ∀ b s, contains kw (lower_from b s) = true ↔
         ∃ pre w post, s = pre ++ w ++ post ∧ spells w kw.
Proof.
  intros Hkw Hplain b s. split.
  - revert b. induction s as [|c rest IH]; intros b Hc.
    + subst kw. done.
    + assert (Hstep : prefix kw (lower_from b (c :: rest)) = true
                      ∨ ∃ b', contains kw (lower_from b' rest) = true).
      { rewrite lower_from_cons in Hc |- *.
        assert (Hl : plain l) by (subst kw; by apply Forall_cons in Hplain as [? _]).
        assert (Hone : ∀ x t, contains kw (x :: t) = true →
                              prefix kw (x :: t) = true ∨ contains kw t = true).
        { intros x t H. cbn [contains] in H. by apply orb_true_iff in H. }
        destruct (c =? 931)%N.
        - cbn [app] in Hc |- *. apply Hone in Hc as [? | ?]; [by left | right; eauto].
        - unfold lower_char in Hc |- *. destruct (N.eqb_spec c 304) as [-> | _].
          + cbn [app] in Hc |- *. apply Hone in Hc as [? | Hc]; [by left |].
            apply Hone in Hc as [Hc | ?]; [| right; eauto].
            exfalso. subst kw. cbn [prefix] in Hc.
            apply andb_true_iff in Hc as [Hc _]. apply N.eqb_eq in Hc. subst l.
            destruct Hl as [H | [H | [H | [H | H]]]]; discriminate H.
          + destruct (assoc c LOWERCASE); cbn [app] in Hc |- *;
              (apply Hone in Hc as [? | ?]; [by left | right; eauto]). }
      destruct Hstep as [Hp | [b' Hc']].
      * destruct (prefix_lower_spells kw Hplain _ _ Hp) as (w & post & Hs & Hw).
        exists [], w, post. done.
      * destruct (IH b' Hc') as (pre & w & post & -> & Hw).
        exists (c :: pre), w, post. done.
  - intros (pre & w & post & -> & Hw).
    destruct (lower_from_app b pre (w ++ post)) as (out & b' & ->).
    destruct (lower_spells kw w Hplain Hw b' post) as [b'' ->].
    apply StrFacts.contains_spec. by exists out, (lower_from b'' post).
Qed.

(** The lower case of a text is a word of plain letters exactly when the
    text spells the word. *)
Lemma lower_is_word_spells (kw w : str) :
  Forall plain kw → lower w = kw ↔ spells w kw.
Proof.
  intros Hplain. unfold lower. split.
  - intros Hlow.
    assert (Hp : prefix kw (lower_from false w) = true).
    { apply StrFacts.prefix_spec. exists []. by rewrite app_nil_r. }
    destruct (prefix_lower_spells kw Hplain _ _ Hp) as (w' & post & -> & Hs).
    destruct (lower_spells kw w' Hplain Hs false post) as [b' Heq].
    rewrite Heq in Hlow.
    assert (Hnil : lower_from b' post = []).
    { apply (app_inv_head kw). by rewrite app_nil_r. }
    apply lower_from_nil in Hnil as ->. by rewrite app_nil_r.
  - intros Hs. destruct (lower_spells kw w Hplain Hs false []) as [b' Heq].
    rewrite app_nil_r in Heq. rewrite Heq. simpl. by rewrite app_nil_r.
Qed.

Lemma Forall_plain (kw : str) : forallb plainb kw = true → Forall plain kw.
Proof.
  intros H. apply Forall_forall. intros l Hl. apply plainb_spec.
  apply (proj1 (forallb_forall _ _) H). by apply list_elem_of_In.
Qed.

Lemma weekend_plain : Forall plain (u"weekend").
Proof. apply Forall_plain. vm_compute. reflexivity. Qed.

End LowerFacts.

(* ------------------------------------------------------------------ *)
(** ** Day type *)

Lemma is_weekend_spec (sheet_name : str) :
  is_weekend sheet_name = true ↔ names_weekend sheet_name.
Proof.
  unfold is_weekend, names_weekend, Str.lower.
  apply (LowerFacts.contains_lower_spells (u"weekend") 119%N (u"eekend"));
    [done | apply LowerFacts.weekend_plain].
Qed.

(** C3: the parser gives a sheet the day type Weekend exactly when its
    name has a part that spells "weekend" in some letter case, Weekday for
    every other name, and there is no third day type.  A part spells
    "weekend" exactly when its lower case, as [str.lower] gives it, is
    "weekend"; a capital k is the letter K or the Kelvin sign (8490). *)
Theorem C3_day_type_of_sheet_name (sheet_name : str) :
  (day_type_of sheet_name = Weekend ↔ names_weekend sheet_name)
  ∧ (day_type_of sheet_name = Weekday ↔ ¬ names_weekend sheet_name)
  ∧ (day_type_of sheet_name = Weekend ∨ day_type_of sheet_name = Weekday)
  ∧ (∀ w, spells w (u"weekend") ↔ Str.lower w = u"weekend")
  ∧ day_type_of (u"Weekend Overnight") = Weekend
  ∧ day_type_of (u"WEEKEND 5-6 PM") = Weekend
  ∧ day_type_of (u"Mid-weeKEnd Body") = Weekend
  ∧ day_type_of (u"WEE" ++ [8490%N] ++ u"END Night") = Weekend
  ∧ day_type_of (u"Weekday 5-6 PM Neuro") = Weekday
  ∧ day_type_of (u"Week end") = Weekday
  ∧ day_type_of (u"Unknown") = Weekday.
Proof.
  split; [| split; [| split; [| split]]].
  - unfold day_type_of. rewrite <- is_weekend_spec.
    by destruct (is_weekend sheet_name).
  - unfold day_type_of. rewrite <- is_weekend_spec.
    by destruct (is_weekend sheet_name).
  - unfold day_type_of. destruct (is_weekend sheet_name); auto.
  - intros w. symmetry.
    apply LowerFacts.lower_is_word_spells, LowerFacts.weekend_plain.
  - repeat split; vm_compute; reflexivity.
Qed.

(* ------------------------------------------------------------------ *)
(** ** Coverage cells *)

Lemma is_marker_spec (v : str) :
  is_marker v = true ↔ v = u"x" ∨ v = u"yes" ∨ v = u"1".
Proof.
  unfold is_marker. rewrite StrFacts.mem_spec.
  rewrite !elem_of_cons, elem_of_nil. tauto.
Qed.

Lemma paragraph_texts_paragraphs (ts : list str) :
  flat_map (fun elem =>
              if Str.eqb (tag elem) (qname NS_text (u"p")) then
                match text elem with
                | Some t => if Str.truthy t then [t] else []
                | None => []
                end
              else [])
           (flat_map iter (map paragraph ts))
  = List.filter Str.truthy ts.
Proof.
  induction ts as [|t ts IH]; [done |].
  cbn [map flat_map iter paragraph app tag text].
  rewrite StrFacts.eqb_refl, IH. cbn [List.filter]. by destruct (Str.truthy t).
Qed.

Lemma extract_text_paragraphs_cell (ts : list str) :
  extract_text (paragraphs_cell ts)
  = Str.strip (Str.join (u" ") (List.filter Str.truthy ts)).
Proof.
  unfold extract_text, paragraphs_cell.
  cbn [iter flat_map tag].
  replace (Str.eqb (qname NS_table (u"table-cell")) (qname NS_text (u"p"))) with false
    by (vm_compute; reflexivity).
  cbn [app]. by rewrite paragraph_texts_paragraphs.
Qed.

Lemma extract_text_paragraph_cell (t : str) :
  extract_text (paragraph_cell t) = Str.strip t.
Proof.
  change (paragraph_cell t) with (paragraphs_cell [t]).
  rewrite extract_text_paragraphs_cell. by destruct t.
Qed.

(** C2, the text "X " is not one of the three markers, yet a cell holding
    it parses as covered: the extractor trims before the comparison. *)
Lemma C2_trailing_space_is_covered :
  is_marker (Str.lower (u"X ")) = false
  ∧ cell_has_coverage (paragraph_cell (u"X ")) = true.
Proof. split; vm_compute; reflexivity. Qed.

(** C2 as amended: a cell is covered exactly when its extracted text, in
    lower case, is "x", "yes" or "1"; the parser stores a leaf for the cell
    exactly then; the extracted text is the cell's non-empty paragraphs
    joined by one space and trimmed of white space at both ends, so "no",
    "" and "2" are not covered, "X " is, and so is "x" followed by a
    no-break space (160). *)
Theorem C2_cell_covered_iff_marker (cell : Element) :
  (cell_has_coverage cell = true ↔
     Str.lower (extract_text cell) = u"x"
     ∨ Str.lower (extract_text cell) = u"yes"
     ∨ Str.lower (extract_text cell) = u"1")
  ∧ (∀ sheet_name study_type shift_positions coverage_data coverage_count i,
       visit_cell sheet_name study_type shift_positions
                  (coverage_data, coverage_count) (i, cell)
       = if cell_has_coverage cell
         then (store_coverage sheet_name study_type
                 (resolve_shift_position shift_positions i) coverage_data,
               coverage_count + 1)
         else (coverage_data, coverage_count))
  ∧ (∀ t, cell_has_coverage (paragraph_cell t) = is_marker (Str.lower (Str.strip t)))
  ∧ (∀ ts, cell_has_coverage (paragraphs_cell ts)
           = is_marker (Str.lower (Str.strip (Str.join (u" ") (List.filter Str.truthy ts)))))
  ∧ cell_has_coverage (paragraph_cell (u"no")) = false
  ∧ cell_has_coverage (paragraph_cell (u"")) = false
  ∧ cell_has_coverage (paragraph_cell (u"2")) = false
  ∧ cell_has_coverage (paragraph_cell (u"X ")) = true
  ∧ cell_has_coverage (paragraph_cell (u"x" ++ [160%N])) = true
  ∧ cell_has_coverage (paragraphs_cell [u"x"; u"x"]) = false.
Proof.
  split; [apply is_marker_spec |].
  split; [done |].
  split; [intros t; unfold cell_has_coverage; by rewrite extract_text_paragraph_cell |].
  split; [intros ts; unfold cell_has_coverage; by rewrite extract_text_paragraphs_cell |].
  repeat split; vm_compute; reflexivity.
Qed.

(* ------------------------------------------------------------------ *)
(** ** Facts about dictionaries *)

Module DictFacts.
Section Facts.
Context {V : Type}.
Implicit Types (d : dict V) (k : str) (v : V).

Lemma get_set k k' v d :
  Dict.get k' (Dict.set k v d) = if Str.eqb k' k then Some v else Dict.get k' d.
Proof.
  induction d as [|[k0 v0] d IH]; simpl.
  - done.
  - destruct (StrFacts.eqb_spec k k0) as [-> | Hne]; simpl.
    + by destruct (Str.eqb k' k0).
    + rewrite IH. destruct (StrFacts.eqb_spec k' k0) as [-> | Hne'].
      * destruct (StrFacts.eqb_spec k0 k); congruence.
      * done.
Qed.

Lemma get_set_eq k v d : Dict.get k (Dict.set k v d) = Some v.
Proof. by rewrite get_set, StrFacts.eqb_refl. Qed.

Lemma get_set_ne k k' v d : k' ≠ k → Dict.get k' (Dict.set k v d) = Dict.get k' d.
Proof. intros H. rewrite get_set. by apply StrFacts.eqb_neq in H as ->. Qed.

Lemma get_None k d : Dict.get k d = None ↔ k ∉ Dict.keys d.
Proof.
  induction d as [|[k0 v0] d IH]; simpl.
  - split; [intros _; apply not_elem_of_nil | done].
  - rewrite not_elem_of_cons.
    destruct (StrFacts.eqb_spec k k0) as [-> | Hne]; [split; [done | tauto] |].
    rewrite IH. tauto.
Qed.

Lemma get_is_Some k d : is_Some (Dict.get k d) ↔ k ∈ Dict.keys d.
Proof.
  rewrite <- not_eq_None_Some, get_None.
  destruct (decide (k ∈ Dict.keys d)); tauto.
Qed.

Lemma has_spec k d : Dict.has k d = true ↔ k ∈ Dict.keys d.
Proof.
  rewrite <- get_is_Some. unfold Dict.has.
  destruct (Dict.get k d); split; try done; intros [? ?]; done.
Qed.

Lemma get_Some_elem k v d : Dict.get k d = Some v → (k, v) ∈ d.
Proof.
  induction d as [|[k0 v0] d IH]; simpl; [done |].
  destruct (StrFacts.eqb_spec k k0) as [-> | Hne].
  - intros [= ->]. apply elem_of_cons. by left.
  - intros H. apply elem_of_cons. right. by apply IH.
Qed.

Lemma elem_get_Some k v d : NoDup (Dict.keys d) → (k, v) ∈ d → Dict.get k d = Some v.
Proof.
  induction d as [|[k0 v0] d IH]; simpl; intros Hnd Hin.
  - by apply elem_of_nil in Hin.
  - apply NoDup_cons in Hnd as [Hk0 Hnd].
    apply elem_of_cons in Hin as [[= -> ->] | Hin].
    + by rewrite StrFacts.eqb_refl.
    + destruct (StrFacts.eqb_spec k k0) as [-> | Hne]; [| by apply IH].
      exfalso. apply Hk0. apply list_elem_of_fmap. by exists (k0, v).
Qed.

Lemma keys_set k v d :
  Dict.keys (Dict.set k v d)
  = if Dict.has k d then Dict.keys d else Dict.keys d ++ [k].
Proof.
  unfold Dict.has, Dict.keys. induction d as [|[k0 v0] d IH]; simpl; [done |].
  destruct (StrFacts.eqb_spec k k0) as [-> | Hne]; simpl; [done |].
  rewrite IH. by destruct (Dict.get k d).
Qed.

Lemma elem_of_keys_set k k' v d :
  k' ∈ Dict.keys (Dict.set k v d) ↔ k' = k ∨ k' ∈ Dict.keys d.
Proof.
  rewrite keys_set. destruct (Dict.has k d) eqn:Hhas.
  - apply has_spec in Hhas. split; [tauto | intros [-> | ?]; done].
  - rewrite elem_of_app, list_elem_of_singleton. tauto.
Qed.

Lemma NoDup_keys_set k v d : NoDup (Dict.keys d) → NoDup (Dict.keys (Dict.set k v d)).
Proof.
  intros Hnd. rewrite keys_set. destruct (Dict.has k d) eqn:Hhas; [done |].
  apply NoDup_app. split; [done |]. split; [| apply NoDup_singleton].
  intros x Hx Hx'. apply list_elem_of_singleton in Hx' as ->.
  apply has_spec in Hx. congruence.
Qed.

Lemma length_set k v d :
  length (Dict.set k v d) = if Dict.has k d then length d else S (length d).
Proof.
  unfold Dict.has. induction d as [|[k0 v0] d IH]; simpl; [done |].
  destruct (StrFacts.eqb_spec k k0) as [-> | Hne]; simpl; [done |].
  rewrite IH. by destruct (Dict.get k d).
Qed.
End Facts.
End DictFacts.

(* ------------------------------------------------------------------ *)
(** ** Facts about the aggregator *)

Module AggFacts.

Lemma coverage_eq (c c' : Coverage) :
  (∀ day s, s ∈ sheets_of day c ↔ s ∈ sheets_of day c') → c = c'.
Proof.
  destruct c as [wd we], c' as [wd' we']. intros H.
  f_equal; apply set_eq; intros s.
  - apply (H Weekday).
  - apply (H Weekend).
Qed.

Lemma elem_of_add_sheet day day0 s s0 c :
  s ∈ sheets_of day (add_sheet day0 s0 c) ↔ (day = day0 ∧ s = s0) ∨ s ∈ sheets_of day c.
Proof.
  destruct day, day0; simpl; rewrite ?elem_of_union, ?elem_of_singleton;
    split; intros H; try tauto; destruct H as [[? ?] | ?]; try done; auto.
Qed.

Lemma get_record_sheet k k0 day0 s0 d :
  Dict.get k (record_sheet k0 day0 s0 d)
  = if Str.eqb k k0 then Some (add_sheet day0 s0 (defaultdict_get k0 d))
    else Dict.get k d.
Proof. unfold record_sheet. apply DictFacts.get_set. Qed.

Lemma record_all_cons k0 s0 visits d :
  record_all ((k0, s0) :: visits) d
  = record_all visits (record_sheet k0 (day_type_of s0) s0 d).
Proof. done. Qed.

Lemma record_all_app v1 v2 d :
  record_all (v1 ++ v2) d = record_all v2 (record_all v1 d).
Proof. unfold record_all. apply fold_left_app. Qed.

(** Which keys the recorded map has. *)
Lemma record_all_keys visits d k :
  k ∈ Dict.keys (record_all visits d) ↔ k ∈ Dict.keys d ∨ k ∈ visits.*1.
Proof.
  revert d. induction visits as [|[k0 s0] visits IH]; intros d.
  - simpl. rewrite elem_of_nil. tauto.
  - rewrite record_all_cons, IH. unfold record_sheet.
    rewrite DictFacts.elem_of_keys_set. simpl. rewrite elem_of_cons. tauto.
Qed.

(** Which sheets the recorded map holds under a key. *)
Lemma record_all_sheets visits d k c :
  Dict.get k (record_all visits d) = Some c →
  ∀ day s, s ∈ sheets_of day c ↔
    s ∈ sheets_of day (defaultdict_get k d)
    ∨ ((k, s) ∈ visits ∧ day_type_of s = day).
Proof.
  revert d. induction visits as [|[k0 s0] visits IH]; intros d Hget day s.
  - simpl in Hget. unfold defaultdict_get. rewrite Hget. simpl.
    rewrite elem_of_nil. tauto.
  - rewrite record_all_cons in Hget. rewrite (IH _ Hget day s).
    unfold defaultdict_get at 1. rewrite get_record_sheet.
    rewrite elem_of_cons.
    destruct (StrFacts.eqb_spec k k0) as [-> | Hne]; simpl.
    + rewrite elem_of_add_sheet. naive_solver.
    + fold (defaultdict_get k d). naive_solver.
Qed.

Lemma record_all_NoDup visits d :
  NoDup (Dict.keys d) → NoDup (Dict.keys (record_all visits d)).
Proof.
  revert d. induction visits as [|[k0 s0] visits IH]; intros d Hnd; [done |].
  rewrite record_all_cons. apply IH. by apply DictFacts.NoDup_keys_set.
Qed.

(** The two maps of the aggregation are two runs of [record_all]. *)
Lemma aggregate_study_fold (sheet_name : str) (studies : dict (dict bool)) acc :
  study_type_coverage
    (fold_left (aggregate_study (day_type_of sheet_name) sheet_name) studies acc)
  = record_all (map (fun study : str * dict bool => (fst study, sheet_name)) studies)
               (study_type_coverage acc)
  ∧ category_coverage
      (fold_left (aggregate_study (day_type_of sheet_name) sheet_name) studies acc)
  = record_all (map (fun visit : str * str =>
                       (extract_study_category (fst visit), snd visit))
                  (map (fun study : str * dict bool => (fst study, sheet_name)) studies))
               (category_coverage acc).
Proof.
  revert acc.
  induction studies as [|[study_type positions] studies IH]; intros acc; [done |].
  cbn [fold_left map fst snd]. rewrite !record_all_cons.
  destruct (IH (aggregate_study (day_type_of sheet_name) sheet_name acc
                  (study_type, positions))) as [-> ->].
  done.
Qed.

Lemma aggregate_fold coverage_data acc :
  study_type_coverage (fold_left aggregate_sheet coverage_data acc)
  = record_all (study_visits coverage_data) (study_type_coverage acc)
  ∧ category_coverage (fold_left aggregate_sheet coverage_data acc)
  = record_all (category_visits coverage_data) (category_coverage acc).
Proof.
  revert acc. induction coverage_data as [|[sheet_name studies] cd IH]; intros acc; [done |].
  unfold category_visits, study_visits in *. cbn [fold_left flat_map fst snd].
  rewrite map_app, !record_all_app.
  destruct (IH (aggregate_sheet acc (sheet_name, studies))) as [-> ->].
  unfold aggregate_sheet.
  destruct (aggregate_study_fold sheet_name studies acc) as [-> ->].
  done.
Qed.

Lemma study_type_coverage_aggregate coverage_data :
  study_type_coverage (aggregate coverage_data)
  = record_all (study_visits coverage_data) [].
Proof. apply aggregate_fold. Qed.

Lemma category_coverage_aggregate coverage_data :
  category_coverage (aggregate coverage_data)
  = record_all (category_visits coverage_data) [].
Proof. apply aggregate_fold. Qed.

(** A visit is a study of a sheet of the input. *)
Lemma elem_of_study_visits (coverage_data : CoverageData) (k s : str) :
  (k, s) ∈ study_visits coverage_data ↔
  ∃ studies, (s, studies) ∈ coverage_data ∧ k ∈ Dict.keys studies.
Proof.
  unfold study_visits. rewrite list_elem_of_In, in_flat_map. split.
  - intros ([s' studies] & Hin & Hk). simpl in Hk.
    apply in_map_iff in Hk as ([k' positions] & [= <- <-] & Hk).
    exists studies. split; [by apply list_elem_of_In |].
    apply list_elem_of_fmap. exists (k', positions). split; [done | by apply list_elem_of_In].
  - intros (studies & Hin & Hk).
    apply list_elem_of_fmap in Hk as ([k' positions] & -> & Hk).
    exists (s, studies). split; [by apply list_elem_of_In |].
    simpl. apply in_map_iff. exists (k', positions). split; [done | by apply list_elem_of_In].
Qed.

End AggFacts.

(* ------------------------------------------------------------------ *)
(** ** The aggregated matrix *)

Lemma record_all_get_ext (v1 v2 : list (str * str)) (k : str) :
  (∀ s, (k, s) ∈ v1 ↔ (k, s) ∈ v2) →
  Dict.get k (record_all v1 []) = Dict.get k (record_all v2 []).
Proof.
  intros Hv.
  assert (Hkeys : k ∈ v1.*1 ↔ k ∈ v2.*1).
  { rewrite !list_elem_of_fmap.
    split; intros ([k' s] & -> & Hin); exists (k', s); (split; [done |]);
      by apply Hv. }
  destruct (Dict.get k (record_all v1 [])) as [c1|] eqn:H1;
    destruct (Dict.get k (record_all v2 [])) as [c2|] eqn:H2.
  - f_equal. apply AggFacts.coverage_eq. intros day s.
    rewrite (AggFacts.record_all_sheets _ _ _ _ H1 day s).
    rewrite (AggFacts.record_all_sheets _ _ _ _ H2 day s).
    rewrite Hv. done.
  - exfalso. apply DictFacts.get_None in H2. apply H2.
    apply AggFacts.record_all_keys. right. apply Hkeys.
    assert (Hk : k ∈ Dict.keys (record_all v1 [])).
    { apply DictFacts.get_is_Some. by rewrite H1. }
    apply AggFacts.record_all_keys in Hk as [Hk | Hk]; [by apply elem_of_nil in Hk | done].
  - exfalso. apply DictFacts.get_None in H1. apply H1.
    apply AggFacts.record_all_keys. right. apply Hkeys.
    assert (Hk : k ∈ Dict.keys (record_all v2 [])).
    { apply DictFacts.get_is_Some. by rewrite H2. }
    apply AggFacts.record_all_keys in Hk as [Hk | Hk]; [by apply elem_of_nil in Hk | done].
  - done.
Qed.

Lemma study_visits_Permutation (cd cd' : CoverageData) (k s : str) :
  Permutation cd cd' → (k, s) ∈ study_visits cd ↔ (k, s) ∈ study_visits cd'.
Proof.
  intros Hp. rewrite !AggFacts.elem_of_study_visits.
  split; intros (studies & Hin & Hk); exists studies; (split; [| done]).
  - by rewrite <- Hp.
  - by rewrite Hp.
Qed.

Lemma category_visits_Permutation (cd cd' : CoverageData) (k s : str) :
  Permutation cd cd' → (k, s) ∈ category_visits cd ↔ (k, s) ∈ category_visits cd'.
Proof.
  intros Hp. unfold category_visits. rewrite !list_elem_of_fmap.
  split; intros ([k' s'] & Heq & Hin); exists (k', s'); (split; [done |]).
  - by apply (study_visits_Permutation cd cd').
  - by apply (study_visits_Permutation cd cd').
Qed.

(** C4: visiting the sheets in another order gives the same matrix: under
    every key the two maps hold the same pair of sets, or both hold
    nothing; the same goes for the category map. *)
Theorem C4_aggregation_ignores_sheet_order
    (coverage_data shuffled : CoverageData) (key : str) :
  Permutation coverage_data shuffled →
  Dict.get key (study_type_coverage (aggregate shuffled))
  = Dict.get key (study_type_coverage (aggregate coverage_data))
  ∧ Dict.get key (category_coverage (aggregate shuffled))
    = Dict.get key (category_coverage (aggregate coverage_data)).
Proof.
  intros Hp.
  rewrite !AggFacts.study_type_coverage_aggregate, !AggFacts.category_coverage_aggregate.
  split; apply record_all_get_ext; intros s; symmetry.
  - by apply study_visits_Permutation.
  - by apply category_visits_Permutation.
Qed.

Lemma C4_aggregation_ignores_sheet_order_witness :
  Dict.get (u"Allen MR Body") (study_type_coverage (aggregate two_sheets_shuffled))
  = Dict.get (u"Allen MR Body") (study_type_coverage (aggregate two_sheets))
  ∧ Dict.get (u"Allen MR Body") (category_coverage (aggregate two_sheets_shuffled))
    = Dict.get (u"Allen MR Body") (category_coverage (aggregate two_sheets)).
Proof.
  apply (C4_aggregation_ignores_sheet_order two_sheets two_sheets_shuffled (u"Allen MR Body")).
  unfold two_sheets, two_sheets_shuffled. apply perm_swap.
Defined.

(** C8: in the aggregated matrix, the Weekday set of a study type holds
    only names of sheets of the input whose day type is Weekday, and its
    Weekend set only names of sheets whose day type is Weekend, whatever
    the sequence of sheets. *)
Theorem C8_sets_hold_sheets_of_their_day_type
    (coverage_data : CoverageData) (study_type : str) (coverage : Coverage) :
  Dict.get study_type (study_type_coverage (aggregate coverage_data)) = Some coverage →
  (∀ s, s ∈ cov_weekday coverage →
        s ∈ Dict.keys coverage_data ∧ day_type_of s = Weekday)
  ∧ (∀ s, s ∈ cov_weekend coverage →
          s ∈ Dict.keys coverage_data ∧ day_type_of s = Weekend).
Proof.
  rewrite AggFacts.study_type_coverage_aggregate. intros Hget.
  assert (Hin : ∀ day s, s ∈ sheets_of day coverage →
                         s ∈ Dict.keys coverage_data ∧ day_type_of s = day).
  { intros day s Hs.
    apply (AggFacts.record_all_sheets _ _ _ _ Hget) in Hs as [Hs | [Hs Hday]].
    - destruct day; by apply elem_of_empty in Hs.
    - split; [| done].
      apply AggFacts.elem_of_study_visits in Hs as (studies & Hs & _).
      apply list_elem_of_fmap. by exists (s, studies). }
  split; intros s Hs.
  - by apply (Hin Weekday).
  - by apply (Hin Weekend).
Qed.

Lemma C8_sets_hold_sheets_of_their_day_type_witness :
  (∀ s, s ∈ cov_weekday two_sheets_body →
        s ∈ Dict.keys two_sheets ∧ day_type_of s = Weekday)
  ∧ (∀ s, s ∈ cov_weekend two_sheets_body →
          s ∈ Dict.keys two_sheets ∧ day_type_of s = Weekend).
Proof.
  apply (C8_sets_hold_sheets_of_their_day_type two_sheets (u"Allen MR Body") two_sheets_body).
  vm_compute. reflexivity.
Defined.

(* ------------------------------------------------------------------ *)
(** ** The gap list *)

Module GapFacts.

Lemma set_truthy_false (s : gset str) : set_truthy s = false ↔ s = ∅.
Proof.
  unfold set_truthy. rewrite negb_false_iff, Nat.eqb_eq, size_empty_iff.
  split; [apply leibniz_equiv | by intros ->].
Qed.

(** The two messages never collide: each names its subject and its day
    type. *)
Lemma gap_weekday_inj (k k' : str) : gap_weekday k = gap_weekday k' → k = k'.
Proof.
  unfold gap_weekday. intros H.
  by destruct (StrFacts.append_inj_length _ _ _ _ H eq_refl).
Qed.

Lemma gap_weekend_inj (k k' : str) : gap_weekend k = gap_weekend k' → k = k'.
Proof.
  unfold gap_weekend. intros H.
  by destruct (StrFacts.append_inj_length _ _ _ _ H eq_refl).
Qed.

Lemma gap_weekday_weekend (k k' : str) : gap_weekday k ≠ gap_weekend k'.
Proof.
  unfold gap_weekday, gap_weekend. intros H.
  by destruct (StrFacts.append_inj_length _ _ _ _ H eq_refl).
Qed.

Lemma elem_of_visit_gaps gaps entry g :
  g ∈ visit_gaps gaps entry ↔ g ∈ gaps ∨ emits entry g.
Proof.
  destruct entry as [k c]. unfold visit_gaps, emits. simpl.
  destruct (set_truthy (cov_weekday c)) eqn:Hwd;
    destruct (set_truthy (cov_weekend c)) eqn:Hwe; simpl;
    rewrite ?elem_of_app, ?list_elem_of_singleton;
    try apply set_truthy_false in Hwd; try apply set_truthy_false in Hwe;
    split; try tauto.
  - intros [? | [[_ H] | [_ H]]]; [done | |]; rewrite H in *; done.
  - intros [? | [[_ H] | ?]]; [tauto | | tauto]. rewrite H in Hwd. done.
  - intros [? | [? | [_ H]]]; [tauto | tauto |]. rewrite H in Hwe. done.
Qed.

Lemma elem_of_fold_visit_gaps d gaps g :
  g ∈ fold_left visit_gaps d gaps ↔ g ∈ gaps ∨ ∃ entry, entry ∈ d ∧ emits entry g.
Proof.
  revert gaps. induction d as [|entry d IH]; intros gaps; simpl.
  - split; [tauto | intros [? | (? & H & _)]; [done | by apply elem_of_nil in H]].
  - rewrite IH, elem_of_visit_gaps. split.
    + intros [[? | ?] | (e & ? & ?)]; [tauto | |].
      * right. exists entry. split; [apply elem_of_cons; tauto | done].
      * right. exists e. split; [apply elem_of_cons; tauto | done].
    + intros [? | (e & [-> | ?]%elem_of_cons & ?)]; [tauto | tauto |].
      right. by exists e.
Qed.

Lemma elem_of_find_gaps d g :
  g ∈ find_gaps d ↔ ∃ entry, entry ∈ d ∧ emits entry g.
Proof.
  unfold find_gaps. rewrite elem_of_fold_visit_gaps, elem_of_nil. tauto.
Qed.

(** In a dictionary, the message of a subject is in the list exactly when
    the subject's set is empty. *)
Lemma gap_weekday_iff d k c :
  NoDup (Dict.keys d) → Dict.get k d = Some c →
  gap_weekday k ∈ find_gaps d ↔ cov_weekday c = ∅.
Proof.
  intros Hnd Hget. rewrite elem_of_find_gaps. split.
  - intros ([k' c'] & Hin & [[Hg He] | [Hg He]]); simpl in *.
    + apply gap_weekday_inj in Hg as <-.
      apply (DictFacts.elem_get_Some _ _ _ Hnd) in Hin. congruence.
    + by apply gap_weekday_weekend in Hg.
  - intros He. exists (k, c). split; [by apply DictFacts.get_Some_elem |].
    left. done.
Qed.

Lemma gap_weekend_iff d k c :
  NoDup (Dict.keys d) → Dict.get k d = Some c →
  gap_weekend k ∈ find_gaps d ↔ cov_weekend c = ∅.
Proof.
  intros Hnd Hget. rewrite elem_of_find_gaps. split.
  - intros ([k' c'] & Hin & [[Hg He] | [Hg He]]); simpl in *.
    + symmetry in Hg. by apply gap_weekday_weekend in Hg.
    + apply gap_weekend_inj in Hg as <-.
      apply (DictFacts.elem_get_Some _ _ _ Hnd) in Hin. congruence.
  - intros He. exists (k, c). split; [by apply DictFacts.get_Some_elem |].
    right. done.
Qed.

(** The report ends with the verdict. *)
Lemma analyze_coverage_verdict coverage_data :
  ∃ before,
    analyze_coverage coverage_data
    = before ++ report_verdict (find_gaps (study_type_coverage (aggregate coverage_data))).
Proof.
  unfold analyze_coverage. eexists. rewrite !app_assoc. reflexivity.
Qed.

Lemma validation_passed_iff coverage_data :
  validation_passed (analyze_coverage coverage_data)
  ↔ find_gaps (study_type_coverage (aggregate coverage_data)) = [].
Proof.
  destruct (analyze_coverage_verdict coverage_data) as [before ->].
  unfold validation_passed, report_verdict.
  destruct (find_gaps _) as [|g gaps]; cbn [length Nat.eqb].
  - split; [done | intros _]. by exists before.
  - split; [| done]. intros [before' H]. exfalso.
    assert (Hsplit : ∀ (x y z w : str) (b : list str),
               b ++ [x; y; z; w] = (b ++ [x]) ++ [y; z; w])
      by (intros; by rewrite <- app_assoc).
    cbn [app] in H. rewrite Hsplit in H.
    apply app_inj_2 in H as [_ H]; [| done].
    unfold PASSED in H. injection H as _ H _.
    vm_compute in H. discriminate H.
Qed.

End GapFacts.

(** C1: on the matrix the aggregation builds, the gap list holds the
    Weekday gap of a subject exactly when the subject's Weekday set is
    empty, its Weekend gap exactly when its Weekend set is empty, and the
    report ends as a passed validation exactly when the gap list is
    empty. *)
Theorem C1_gap_iff_set_empty
    (coverage_data : CoverageData) (subject : str) (coverage : Coverage) :
  Dict.get subject (study_type_coverage (aggregate coverage_data)) = Some coverage →
  (gap_weekday subject ∈ find_gaps (study_type_coverage (aggregate coverage_data))
     ↔ cov_weekday coverage = ∅)
  ∧ (gap_weekend subject ∈ find_gaps (study_type_coverage (aggregate coverage_data))
       ↔ cov_weekend coverage = ∅)
  ∧ (validation_passed (analyze_coverage coverage_data)
       ↔ find_gaps (study_type_coverage (aggregate coverage_data)) = []).
Proof.
  intros Hget.
  assert (Hnd : NoDup (Dict.keys (study_type_coverage (aggregate coverage_data)))).
  { rewrite AggFacts.study_type_coverage_aggregate.
    apply AggFacts.record_all_NoDup. apply NoDup_nil_2. }
  split; [by apply GapFacts.gap_weekday_iff |].
  split; [by apply GapFacts.gap_weekend_iff |].
  apply GapFacts.validation_passed_iff.
Qed.

Lemma C1_gap_iff_set_empty_witness :
  (gap_weekday (u"Allen MR Body") ∈ find_gaps (study_type_coverage (aggregate two_sheets))
     ↔ cov_weekday two_sheets_body = ∅)
  ∧ (gap_weekend (u"Allen MR Body") ∈ find_gaps (study_type_coverage (aggregate two_sheets))
       ↔ cov_weekend two_sheets_body = ∅)
  ∧ (validation_passed (analyze_coverage two_sheets)
       ↔ find_gaps (study_type_coverage (aggregate two_sheets)) = []).
Proof.
  apply (C1_gap_iff_set_empty two_sheets (u"Allen MR Body") two_sheets_body).
  vm_compute. reflexivity.
Defined.

(* ------------------------------------------------------------------ *)
(** ** The summary counts *)

Lemma length_record_all (visits : list (str * str)) :
  length (record_all visits []) = size (list_to_set visits.*1 : gset str).
Proof.
  assert (Hnd : NoDup (Dict.keys (record_all visits []))).
  { apply AggFacts.record_all_NoDup. apply NoDup_nil_2. }
  transitivity (length (Dict.keys (record_all visits []))).
  { unfold Dict.keys. by rewrite length_map. }
  rewrite <- (size_list_to_set (C:=gset str) _ Hnd). f_equal.
  apply set_eq. intros k. rewrite !elem_of_list_to_set, AggFacts.record_all_keys.
  simpl. rewrite elem_of_nil. tauto.
Qed.

Lemma enumerate_lookup {A : Type} (l : list A) (start i : nat) (x : A) :
  l !! i = Some x → enumerate l start !! i = Some (start + i, x).
Proof.
  unfold enumerate. revert start i.
  induction l as [|y l IH]; intros start i Hi; [done |].
  destruct i as [|i]; simpl in *.
  - injection Hi as ->. by rewrite Nat.add_0_r.
  - rewrite (IH (S start) i Hi). f_equal. f_equal. lia.
Qed.

Lemma length_enumerate {A : Type} (l : list A) (start : nat) :
  length (enumerate l start) = length l.
Proof. unfold enumerate. rewrite length_combine, length_seq. lia. Qed.

Lemma report_gaps_nth (gaps : list str) (i : nat) (g : str) :
  gaps !! i = Some g →
  report_gaps gaps !! S i = Some (Str.of_nat (S i) ++ u". " ++ g).
Proof.
  intros Hi. unfold report_gaps. destruct gaps as [|g0 gaps]; [done |].
  cbn [Str.truthy_list]. rewrite lookup_app_r; [| simpl; lia].
  cbn [length Nat.sub]. rewrite Nat.sub_0_r.
  rewrite lookup_app_l.
  2:{ rewrite length_map, length_enumerate. by apply lookup_lt_Some in Hi. }
  rewrite list_lookup_fmap, (enumerate_lookup _ 1 i g Hi). done.
Qed.

(** C6, two parsed documents with different numbers of sheets and of
    coverage markers on which the analyzer prints the same report: the
    report gives neither the number of sheets nor the number of markers. *)
Lemma C6_report_lacks_sheet_and_marker_counts :
  analyze_coverage one_sheet_two_markers = analyze_coverage two_sheets_three_markers
  ∧ distinct_sheets one_sheet_two_markers ≠ distinct_sheets two_sheets_three_markers
  ∧ total_markers one_sheet_two_markers ≠ total_markers two_sheets_three_markers.
Proof.
  split; [vm_compute; reflexivity |].
  split; vm_compute; lia.
Qed.

(** C6 as amended: on every parsed document the analyzer runs to the end
    without raising and prints the gap list, which may be empty, one
    numbered line per gap in the order of the list, and then the counts of
    distinct study types, of distinct categories and of gaps, and the
    verdict. *)
Theorem C6_analyzer_reports_gaps_and_counts (coverage_data : CoverageData) :
  ∃ before,
    analyze_coverage coverage_data
    = before
      ++ report_gaps (find_gaps (study_type_coverage (aggregate coverage_data)))
      ++ banner (u"                   VALIDATION SUMMARY")
      ++ report_statistics
           (size (study_types_of coverage_data))
           (size (categories_of coverage_data))
           (length (find_gaps (study_type_coverage (aggregate coverage_data))))
      ++ report_verdict (find_gaps (study_type_coverage (aggregate coverage_data)))
    ∧ ∀ i g,
        find_gaps (study_type_coverage (aggregate coverage_data)) !! i = Some g →
        report_gaps (find_gaps (study_type_coverage (aggregate coverage_data))) !! S i
        = Some (Str.of_nat (S i) ++ u". " ++ g).
Proof.
  unfold analyze_coverage, study_types_of, categories_of.
  rewrite <- !length_record_all.
  rewrite <- AggFacts.study_type_coverage_aggregate, <- AggFacts.category_coverage_aggregate.
  eexists. split; [| apply report_gaps_nth].
  rewrite !app_assoc. reflexivity.
Qed.

(* ------------------------------------------------------------------ *)
(** ** Facts about the parser *)

Module ParseFacts.

(** The store of lines 122-127, seen through the three lookups. *)
Lemma leaf_store_coverage (cd : CoverageData) (s st p s' st' p' : str) :
  leaf (store_coverage s st p cd) s' st' p'
  = if Str.eqb s' s && Str.eqb st' st && Str.eqb p' p
    then Some true else leaf cd s' st' p'.
Proof.
  unfold leaf, store_coverage.
  set (cd1 := if negb (Dict.has s cd) then Dict.set s [] cd else cd).
  assert (Hcd1 : ∀ k, Dict.get k cd1
                      = if Str.eqb k s then Some (default [] (Dict.get s cd))
                        else Dict.get k cd).
  { intros k. subst cd1. unfold Dict.has.
    destruct (Dict.get s cd) as [studies|] eqn:Hs; simpl.
    - destruct (StrFacts.eqb_spec k s) as [-> | Hne]; [done | done].
    - rewrite DictFacts.get_set. by destruct (Str.eqb k s). }
  rewrite (Hcd1 s), StrFacts.eqb_refl. simpl.
  set (studies := default [] (Dict.get s cd)).
  set (studies1 := if negb (Dict.has st studies) then Dict.set st [] studies else studies).
  assert (Hst1 : ∀ k, Dict.get k studies1
                      = if Str.eqb k st then Some (default [] (Dict.get st studies))
                        else Dict.get k studies).
  { intros k. subst studies1. unfold Dict.has.
    destruct (Dict.get st studies) as [positions|] eqn:Hst; simpl.
    - destruct (StrFacts.eqb_spec k st) as [-> | Hne]; [done | done].
    - rewrite DictFacts.get_set. by destruct (Str.eqb k st). }
  rewrite (Hst1 st), StrFacts.eqb_refl. simpl.
  rewrite DictFacts.get_set.
  destruct (StrFacts.eqb_spec s' s) as [-> | Hs]; simpl.
  - rewrite DictFacts.get_set.
    destruct (StrFacts.eqb_spec st' st) as [-> | Hst]; simpl.
    + rewrite DictFacts.get_set.
      destruct (StrFacts.eqb_spec p' p) as [-> | Hp]; [done |].
      subst studies. destruct (Dict.get s cd) as [studies|]; simpl; [| done].
      by destruct (Dict.get st studies).
    + rewrite Hst1. apply StrFacts.eqb_neq in Hst as ->.
      subst studies. by destruct (Dict.get s cd).
  - rewrite Hcd1. by apply StrFacts.eqb_neq in Hs as ->.
Qed.

Lemma keys_store_coverage (cd : CoverageData) (s st p k : str) :
  k ∈ Dict.keys (store_coverage s st p cd) ↔ k = s ∨ k ∈ Dict.keys cd.
Proof.
  unfold store_coverage. rewrite DictFacts.elem_of_keys_set.
  destruct (Dict.has s cd) eqn:Hhas; simpl; [done |].
  rewrite DictFacts.elem_of_keys_set. tauto.
Qed.

(** A run of stores. *)
Lemma leaf_fold_store (entries : list (str * str * str)) (cd : CoverageData)
    (s st p : str) :
  leaf (fold_left store_entry entries cd) s st p
  = if bool_decide ((s, st, p) ∈ entries) then Some true else leaf cd s st p.
Proof.
  revert cd. induction entries as [|[[s0 st0] p0] entries IH]; intros cd.
  - cbn [fold_left]. rewrite bool_decide_eq_false_2; [done | apply not_elem_of_nil].
  - cbn [fold_left]. rewrite IH. unfold store_entry. cbn [fst snd].
    rewrite leaf_store_coverage.
    destruct (decide ((s, st, p) ∈ entries)) as [Hin | Hnin].
    + rewrite !bool_decide_eq_true_2; [done | | done]. apply elem_of_cons. by right.
    + rewrite (bool_decide_eq_false_2 _ Hnin).
      destruct (StrFacts.eqb_spec s s0) as [-> | Hs]; simpl.
      * destruct (StrFacts.eqb_spec st st0) as [-> | Hst]; simpl.
        -- destruct (StrFacts.eqb_spec p p0) as [-> | Hp]; simpl.
           ++ rewrite bool_decide_eq_true_2; [done | apply elem_of_cons; by left].
           ++ rewrite bool_decide_eq_false_2; [done |].
              intros [[=] | ?]%elem_of_cons; done.
        -- rewrite bool_decide_eq_false_2; [done |].
           intros [[=] | ?]%elem_of_cons; done.
      * rewrite bool_decide_eq_false_2; [done |].
        intros [[=] | ?]%elem_of_cons; done.
Qed.

Lemma keys_fold_store (entries : list (str * str * str)) (cd : CoverageData)
    (k : str) :
  k ∈ Dict.keys (fold_left store_entry entries cd)
  ↔ k ∈ Dict.keys cd ∨ ∃ st p, (k, st, p) ∈ entries.
Proof.
  revert cd. induction entries as [|[[s0 st0] p0] entries IH]; intros cd.
  - simpl. split; [tauto | intros [? | (? & ? & H)]; [done | by apply elem_of_nil in H]].
  - cbn [fold_left]. rewrite IH. unfold store_entry. cbn [fst snd].
    rewrite keys_store_coverage. split.
    + intros [[-> | ?] | (st & p & ?)]; [| tauto |].
      * right. exists st0, p0. apply elem_of_cons. by left.
      * right. exists st, p. apply elem_of_cons. by right.
    + intros [? | (st & p & [[= -> -> ->] | ?]%elem_of_cons)]; [tauto | tauto |].
      right. by exists st, p.
Qed.

(** The loops of the parser are runs of stores. *)
Lemma visit_cell_fold (s st : str) (sp : list str) (cells : list (nat * Element))
    (cd : CoverageData) (n : nat) :
  fst (fold_left (visit_cell s st sp) cells (cd, n))
  = fold_left store_entry (cell_entries s st sp cells) cd.
Proof.
  revert cd n. induction cells as [|[i cell] cells IH]; intros cd n; [done |].
  unfold cell_entries in *. cbn [fold_left List.filter snd fst].
  unfold visit_cell at 2.
  destruct (cell_has_coverage cell); cbn [map fold_left]; by rewrite IH.
Qed.

Lemma visit_row_fold (s : str) (sp : list str) (row : Element)
    (cd : CoverageData) (a b : nat) :
  fst (fst (visit_row s sp (cd, a, b) row))
  = fold_left store_entry (row_entries s sp row) cd.
Proof.
  unfold visit_row, row_entries.
  destruct (findall _ row) as [|cell0 rest]; [done |].
  destruct (Str.truthy (extract_text cell0)); simpl; [| done].
  rewrite <- (visit_cell_fold s (extract_text cell0) sp (enumerate rest 1) cd b).
  by destruct (fold_left _ _ _).
Qed.

Lemma visit_rows_fold (s : str) (sp : list str) (rows : list Element)
    (cd : CoverageData) (a b : nat) :
  fst (fst (fold_left (visit_row s sp) rows (cd, a, b)))
  = fold_left store_entry (flat_map (row_entries s sp) rows) cd.
Proof.
  revert cd a b. induction rows as [|row rows IH]; intros cd a b; [done |].
  cbn [fold_left flat_map]. rewrite fold_left_app.
  rewrite <- (visit_row_fold s sp row cd a b).
  destruct (visit_row s sp (cd, a, b) row) as [[cd' a'] b']. apply IH.
Qed.

Lemma visit_table_fold (rt : Runtime) (table : Element) (cd : CoverageData)
    (out : list str) :
  fst (visit_table rt (cd, out) table) = fold_left store_entry (table_entries table) cd.
Proof.
  unfold visit_table, table_entries.
  destruct (findall _ table) as [|header_row data_rows]; [done |].
  rewrite <- (visit_rows_fold _ _ data_rows cd 0 0).
  by destruct (fold_left _ data_rows _) as [[cd' a'] b'].
Qed.

Lemma visit_tables_fold (rt : Runtime) (tables : list Element) (cd : CoverageData)
    (out : list str) :
  fst (fold_left (visit_table rt) tables (cd, out))
  = fold_left store_entry (document_entries tables) cd.
Proof.
  revert cd out. induction tables as [|table tables IH]; intros cd out; [done |].
  unfold document_entries in *. cbn [fold_left flat_map]. rewrite fold_left_app.
  rewrite <- (visit_table_fold rt table cd out).
  destruct (visit_table rt (cd, out) table) as [cd' out']. apply IH.
Qed.

End ParseFacts.

(* ------------------------------------------------------------------ *)
(** ** The parsed structure *)

Module LeafFacts.
Section Levels.
Context {V : Type} (P : V → Prop).

Lemma elem_of_set (k0 k : str) (v0 v : V) (d : dict V) :
  (k, v) ∈ Dict.set k0 v0 d → (k, v) ∈ d ∨ v = v0.
Proof.
  induction d as [|[k1 v1] d IH]; simpl.
  - intros [[= -> ->] | H]%elem_of_cons; [by right | by apply elem_of_nil in H].
  - destruct (Str.eqb k0 k1).
    + intros [[= -> ->] | H]%elem_of_cons; [by right |]. left. apply elem_of_cons. by right.
    + intros [[= -> ->] | H]%elem_of_cons; [left; apply elem_of_cons; by left |].
      destruct (IH H) as [? | ?]; [| by right]. left. apply elem_of_cons. by right.
Qed.

Lemma all_set (k0 : str) (v0 : V) (d : dict V) :
  (∀ k v, (k, v) ∈ d → P v) → P v0 → ∀ k v, (k, v) ∈ Dict.set k0 v0 d → P v.
Proof. intros Hd H0 k v [H | ->]%elem_of_set; eauto. Qed.

Lemma all_get_default (k0 : str) (dflt : V) (d : dict V) :
  (∀ k v, (k, v) ∈ d → P v) → P dflt → P (default dflt (Dict.get k0 d)).
Proof.
  intros Hd H0. destruct (Dict.get k0 d) as [v|] eqn:Hget; simpl; [| done].
  apply (Hd k0). by apply DictFacts.get_Some_elem.
Qed.
End Levels.

Lemma positions_true_nil : positions_true [].
Proof. intros p v H. by apply elem_of_nil in H. Qed.

Lemma studies_true_nil : studies_true [].
Proof. intros st positions H. by apply elem_of_nil in H. Qed.

Lemma leaves_true_nil : leaves_true [].
Proof. intros s studies H. by apply elem_of_nil in H. Qed.

Lemma leaves_true_store (s st p : str) (cd : CoverageData) :
  leaves_true cd → leaves_true (store_coverage s st p cd).
Proof.
  intros Hcd. unfold store_coverage.
  set (cd1 := if negb (Dict.has s cd) then Dict.set s [] cd else cd).
  assert (Hcd1 : leaves_true cd1).
  { subst cd1. destruct (negb (Dict.has s cd)); [| done].
    exact (all_set studies_true s [] cd Hcd studies_true_nil). }
  set (studies := default [] (Dict.get s cd1)).
  assert (Hstudies : studies_true studies).
  { exact (all_get_default studies_true s [] cd1 Hcd1 studies_true_nil). }
  set (studies1 := if negb (Dict.has st studies) then Dict.set st [] studies else studies).
  assert (Hstudies1 : studies_true studies1).
  { subst studies1. destruct (negb (Dict.has st studies)); [| done].
    exact (all_set positions_true st [] studies Hstudies positions_true_nil). }
  set (positions := default [] (Dict.get st studies1)).
  assert (Hpositions : positions_true positions).
  { exact (all_get_default positions_true st [] studies1 Hstudies1 positions_true_nil). }
  refine (all_set studies_true s _ cd1 Hcd1 _).
  refine (all_set positions_true st _ studies1 Hstudies1 _).
  exact (all_set (λ v, v = true) p true positions Hpositions eq_refl).
Qed.

Lemma leaves_true_fold (entries : list (str * str * str)) (cd : CoverageData) :
  leaves_true cd → leaves_true (fold_left store_entry entries cd).
Proof.
  revert cd. induction entries as [|e entries IH]; intros cd Hcd; [done |].
  cbn [fold_left]. apply IH. by apply leaves_true_store.
Qed.

End LeafFacts.

Module EntryFacts.

Lemma elem_of_enumerate {A : Type} (l : list A) (start i : nat) (x : A) :
  (i, x) ∈ enumerate l start → x ∈ l.
Proof.
  unfold enumerate. rewrite !list_elem_of_In. apply in_combine_r.
Qed.

Lemma elem_of_cell_entries s st sp cells (e : str * str * str) :
  e ∈ cell_entries s st sp cells ↔
  ∃ i cell, (i, cell) ∈ cells ∧ cell_has_coverage cell = true
            ∧ e = (s, st, resolve_shift_position sp i).
Proof.
  unfold cell_entries. rewrite list_elem_of_fmap. split.
  - intros ([i cell] & -> & Hin).
    apply list_elem_of_In, filter_In in Hin as [Hin Hc].
    exists i, cell. split; [by apply list_elem_of_In | done].
  - intros (i & cell & Hin & Hc & ->). exists (i, cell). split; [done |].
    apply list_elem_of_In, filter_In. split; [by apply list_elem_of_In | done].
Qed.

(** A covered cell of a row is stored under the row's label and the label
    resolved for the cell's column. *)
Lemma row_entries_of_cell s sp row cell0 rest j cell :
  findall (qname NS_table (u"table-cell")) row = cell0 :: rest →
  Str.truthy (extract_text cell0) = true →
  rest !! j = Some cell →
  cell_has_coverage cell = true →
  (s, extract_text cell0, resolve_shift_position sp (S j)) ∈ row_entries s sp row.
Proof.
  intros Hcells Hlabel Hj Hc. unfold row_entries. rewrite Hcells, Hlabel.
  apply elem_of_cell_entries. exists (S j), cell. split; [| done].
  apply list_elem_of_lookup. exists j. apply (enumerate_lookup rest 1 j cell Hj).
Qed.

Lemma elem_of_row_entries s sp row (e : str * str * str) :
  e ∈ row_entries s sp row →
  fst (fst e) = s
  ∧ ∃ cell, cell ∈ coverage_cells_of_row row ∧ cell_has_coverage cell = true.
Proof.
  unfold row_entries, coverage_cells_of_row.
  destruct (findall _ row) as [|cell0 rest]; [by intros H%elem_of_nil |].
  destruct (Str.truthy (extract_text cell0)); [| by intros H%elem_of_nil].
  intros (i & cell & Hin & Hc & ->)%elem_of_cell_entries. split; [done |].
  exists cell. split; [| done]. by apply elem_of_enumerate in Hin.
Qed.

Lemma row_entries_exists s sp row cell :
  cell ∈ coverage_cells_of_row row → cell_has_coverage cell = true →
  ∃ st p, (s, st, p) ∈ row_entries s sp row.
Proof.
  unfold coverage_cells_of_row.
  destruct (findall _ row) as [|cell0 rest] eqn:Hcells; [by intros H%elem_of_nil |].
  destruct (Str.truthy (extract_text cell0)) eqn:Hlabel; [| by intros H%elem_of_nil].
  intros [j Hj]%list_elem_of_lookup Hc.
  exists (extract_text cell0), (resolve_shift_position sp (S j)).
  by apply (row_entries_of_cell s sp row cell0 rest j cell).
Qed.

(** The entries of a table are under its sheet name, and there are some
    exactly when the table has a covered cell. *)
Lemma elem_of_table_entries table (e : str * str * str) :
  e ∈ table_entries table → fst (fst e) = sheet_name_of table ∧ has_covered_cell table.
Proof.
  unfold table_entries, has_covered_cell, coverage_cells.
  destruct (findall _ table) as [|header_row data_rows]; [by intros H%elem_of_nil |].
  rewrite list_elem_of_In, in_flat_map. intros (row & Hrow & He).
  apply list_elem_of_In, elem_of_row_entries in He as [Hs (cell & Hcell & Hc)].
  split; [done |]. exists cell. split; [| done].
  apply list_elem_of_In, in_flat_map. exists row. split; [done | by apply list_elem_of_In].
Qed.

Lemma table_entries_exists table :
  has_covered_cell table → ∃ st p, (sheet_name_of table, st, p) ∈ table_entries table.
Proof.
  unfold table_entries, has_covered_cell, coverage_cells.
  destruct (findall _ table) as [|header_row data_rows];
    [by intros (cell & H%elem_of_nil & _) |].
  intros (cell & Hcell & Hc).
  apply list_elem_of_In, in_flat_map in Hcell as (row & Hrow & Hcell).
  apply list_elem_of_In in Hcell.
  destruct (row_entries_exists (sheet_name_of table)
              (map extract_text (findall (qname NS_table (u"table-cell")) header_row))
              row cell Hcell Hc) as (st & p & He).
  exists st, p. apply list_elem_of_In, in_flat_map. exists row.
  split; [done | by apply list_elem_of_In].
Qed.

Lemma document_entries_sheet tables (s : str) :
  (∃ st p, (s, st, p) ∈ document_entries tables)
  ↔ ∃ table, table ∈ tables ∧ sheet_name_of table = s ∧ has_covered_cell table.
Proof.
  unfold document_entries. split.
  - intros (st & p & He). apply list_elem_of_In, in_flat_map in He as (table & Ht & He).
    apply list_elem_of_In, elem_of_table_entries in He as [Hs Hc].
    exists table. split; [by apply list_elem_of_In | done].
  - intros (table & Ht & <- & Hc).
    destruct (table_entries_exists table Hc) as (st & p & He).
    exists st, p. apply list_elem_of_In, in_flat_map. exists table.
    split; by apply list_elem_of_In.
Qed.

(** What [parse_coverage_grid] returns on a document with a body and a
    spreadsheet. *)
Lemma parse_coverage_grid_document rt filepath content root body spreadsheet :
  zipfile_read rt filepath (u"content.xml") = Return content →
  ET_fromstring rt content = Return root →
  find (qname NS_office (u"body")) root = Some body →
  find (qname NS_office (u"spreadsheet")) body = Some spreadsheet →
  ∃ out,
    parse_coverage_grid rt filepath
    = (out, Return (Some (fold_left store_entry
                            (document_entries (findall (qname NS_table (u"table")) spreadsheet))
                            []))).
Proof.
  intros Hzip Hxml Hbody Hss. unfold parse_coverage_grid.
  rewrite Hzip, Hxml, Hbody, Hss.
  match goal with
  | |- context [fold_left (visit_table rt) ?ts (?cd, ?o)] =>
      rewrite <- (ParseFacts.visit_tables_fold rt ts cd o);
      destruct (fold_left (visit_table rt) ts (cd, o)) as [cd' out']
  end.
  by exists out'.
Qed.

End EntryFacts.

(* ------------------------------------------------------------------ *)
(** ** The parser's results *)

(** C10: on a document with a body and a spreadsheet the parser returns a
    nested dictionary in which every leaf is [True], and a sheet name is a
    key of it exactly when a table of that name has a cell that parsed as
    covered. *)
Theorem C10_leaves_true_and_sheets_with_coverage
    (rt : Runtime) (filepath content : str) (root body spreadsheet : Element) :
  zipfile_read rt filepath (u"content.xml") = Return content →
  ET_fromstring rt content = Return root →
  find (qname NS_office (u"body")) root = Some body →
  find (qname NS_office (u"spreadsheet")) body = Some spreadsheet →
  ∃ out coverage_data,
    parse_coverage_grid rt filepath = (out, Return (Some coverage_data))
    ∧ leaves_true coverage_data
    ∧ (∀ s st p v, leaf coverage_data s st p = Some v → v = true)
    ∧ (∀ s, s ∈ Dict.keys coverage_data ↔
            ∃ table, table ∈ findall (qname NS_table (u"table")) spreadsheet
                     ∧ sheet_name_of table = s ∧ has_covered_cell table).
Proof.
  intros Hzip Hxml Hbody Hss.
  destruct (EntryFacts.parse_coverage_grid_document _ _ _ _ _ _ Hzip Hxml Hbody Hss)
    as [out Hparse].
  eexists out, _. split; [exact Hparse |].
  split; [apply LeafFacts.leaves_true_fold, LeafFacts.leaves_true_nil |].
  split.
  - intros s st p v. rewrite ParseFacts.leaf_fold_store.
    case_bool_decide; [by intros [= <-] | done].
  - intros s. rewrite ParseFacts.keys_fold_store, EntryFacts.document_entries_sheet.
    split; [intros [H | H]; [by apply elem_of_nil in H | done] | by right].
Qed.

Lemma C10_leaves_true_and_sheets_with_coverage_witness :
  ∃ out coverage_data,
    parse_coverage_grid (runtime_with (document_of short_header_sheet)) (u"grid.ods")
    = (out, Return (Some coverage_data))
    ∧ leaves_true coverage_data
    ∧ (∀ s st p v, leaf coverage_data s st p = Some v → v = true)
    ∧ (∀ s, s ∈ Dict.keys coverage_data ↔
            ∃ table, table ∈ findall (qname NS_table (u"table")) (spreadsheet_of short_header_sheet)
                     ∧ sheet_name_of table = s ∧ has_covered_cell table).
Proof.
  apply (C10_leaves_true_and_sheets_with_coverage
           (runtime_with (document_of short_header_sheet)) (u"grid.ods") (u"content")
           (document_of short_header_sheet) (body_of short_header_sheet)
           (spreadsheet_of short_header_sheet)); reflexivity.
Defined.

(** C7: in a data row, a column index at or past the end of the header
    row resolves to the label "Column" followed by the index, and a covered
    cell at that index is stored under that label; the row is processed to
    the end whatever its length. *)
Theorem C7_column_past_header_gets_synthetic_label
    (sheet_name : str) (shift_positions : list str)
    (row cell0 cell : Element) (rest : list Element)
    (coverage_data : CoverageData) (study_count coverage_count i : nat) :
  findall (qname NS_table (u"table-cell")) row = cell0 :: rest →
  Str.truthy (extract_text cell0) = true →
  (cell0 :: rest) !! i = Some cell →
  (1 ≤ i)%nat →
  (length shift_positions ≤ i)%nat →
  resolve_shift_position shift_positions i = u"Column" ++ Str.of_nat i
  ∧ (cell_has_coverage cell = true →
     leaf (fst (fst (visit_row sheet_name shift_positions
                       (coverage_data, study_count, coverage_count) row)))
          sheet_name (extract_text cell0) (u"Column" ++ Str.of_nat i)
     = Some true).
Proof.
  intros Hcells Hlabel Hi H1 Hlen.
  assert (Hres : resolve_shift_position shift_positions i = u"Column" ++ Str.of_nat i).
  { unfold resolve_shift_position.
    destruct (Nat.ltb_spec i (length shift_positions)); [lia | done]. }
  split; [done |]. intros Hc.
  rewrite ParseFacts.visit_row_fold, ParseFacts.leaf_fold_store.
  rewrite bool_decide_eq_true_2; [done |].
  destruct i as [|j]; [lia |]. simpl in Hi. rewrite <- Hres.
  by apply (EntryFacts.row_entries_of_cell sheet_name shift_positions row cell0 rest j cell).
Qed.

Lemma C7_column_past_header_gets_synthetic_label_witness :
  (resolve_shift_position [u"Study"; u"NEURO1"] 2 = u"Column2"
   ∧ (cell_has_coverage (paragraph_cell (u"x")) = true →
      leaf (fst (fst (visit_row (u"Weekday 5-6 PM Neuro") [u"Study"; u"NEURO1"] ([], 0, 0)
                        short_header_row)))
           (u"Weekday 5-6 PM Neuro") (u"CPMC CT Neuro") (u"Column2")
      = Some true))
  ∧ snd (parse_coverage_grid (runtime_with (document_of short_header_sheet)) (u"grid.ods"))
    = Return (Some [(u"Weekday 5-6 PM Neuro", [(u"CPMC CT Neuro", [(u"Column2", true)])])]).
Proof.
  split; [| reflexivity].
  apply (C7_column_past_header_gets_synthetic_label
           (u"Weekday 5-6 PM Neuro") [u"Study"; u"NEURO1"] short_header_row
           (paragraph_cell (u"CPMC CT Neuro")) (paragraph_cell (u"x"))
           [paragraph_cell (u""); paragraph_cell (u"x")] [] 0 0 2);
    [reflexivity | reflexivity | reflexivity | lia | simpl; lia].
Defined.

(* ------------------------------------------------------------------ *)
(** ** The command line *)

Lemma main_falsy (rt : Runtime) (argv : list str) (out : list str)
    (r : option CoverageData) :
  parse_coverage_grid rt (filepath_of argv) = (out, Return r) →
  coverage_truthy r = false →
  main rt argv = (out ++ [u"Failed to parse coverage data"], Exit 1).
Proof. intros Hparse Hr. unfold main. by rewrite Hparse, Hr. Qed.

(** C9: a document that parses but has no covered cell makes
    [parse_coverage_grid] return the empty dictionary, which is falsy like
    the [None] of a parse failure: in both cases [main] skips the analysis,
    prints "Failed to parse coverage data" and exits with status 1. *)
Theorem C9_no_markers_reported_as_parse_failure
    (rt : Runtime) (argv : list str) (content : str)
    (root body spreadsheet : Element) :
  zipfile_read rt (filepath_of argv) (u"content.xml") = Return content →
  ET_fromstring rt content = Return root →
  find (qname NS_office (u"body")) root = Some body →
  find (qname NS_office (u"spreadsheet")) body = Some spreadsheet →
  (∀ table, table ∈ findall (qname NS_table (u"table")) spreadsheet →
            ¬ has_covered_cell table) →
  ∃ out,
    parse_coverage_grid rt (filepath_of argv) = (out, Return (Some []))
    ∧ coverage_truthy (Some []) = coverage_truthy None
    ∧ main rt argv = (out ++ [u"Failed to parse coverage data"], Exit 1)
    ∧ (∀ rt' out',
         parse_coverage_grid rt' (filepath_of argv) = (out', Return None) →
         main rt' argv = (out' ++ [u"Failed to parse coverage data"], Exit 1)).
Proof.
  intros Hzip Hxml Hbody Hss Hnone.
  destruct (EntryFacts.parse_coverage_grid_document _ _ _ _ _ _ Hzip Hxml Hbody Hss)
    as [out Hparse].
  assert (Hempty : fold_left store_entry
                     (document_entries (findall (qname NS_table (u"table")) spreadsheet)) []
                   = []).
  { destruct (fold_left store_entry _ []) as [|[s studies] cd] eqn:Hcd; [done |].
    exfalso.
    assert (Hs : s ∈ Dict.keys (fold_left store_entry
                   (document_entries (findall (qname NS_table (u"table")) spreadsheet)) [])).
    { rewrite Hcd. apply elem_of_cons. by left. }
    apply ParseFacts.keys_fold_store in Hs as [Hs | Hs]; [by apply elem_of_nil in Hs |].
    apply EntryFacts.document_entries_sheet in Hs as (table & Ht & _ & Hc).
    by apply (Hnone table). }
  rewrite Hempty in Hparse. exists out.
  split; [done |]. split; [done |].
  split; [by apply (main_falsy rt argv out (Some [])) |].
  intros rt' out' Hparse'. by apply (main_falsy rt' argv out' None).
Qed.

Lemma C9_no_markers_reported_as_parse_failure_witness :
  ∃ out,
    parse_coverage_grid (runtime_with (document_of unmarked_sheet)) (filepath_of ARGV)
    = (out, Return (Some []))
    ∧ coverage_truthy (Some []) = coverage_truthy None
    ∧ main (runtime_with (document_of unmarked_sheet)) ARGV
      = (out ++ [u"Failed to parse coverage data"], Exit 1)
    ∧ (∀ rt' out',
         parse_coverage_grid rt' (filepath_of ARGV) = (out', Return None) →
         main rt' ARGV = (out' ++ [u"Failed to parse coverage data"], Exit 1)).
Proof.
  apply (C9_no_markers_reported_as_parse_failure
           (runtime_with (document_of unmarked_sheet)) ARGV (u"content")
           (document_of unmarked_sheet) (body_of unmarked_sheet)
           (spreadsheet_of unmarked_sheet)); try reflexivity.
  intros table Ht (cell & Hcell & Hc).
  change (table ∈ unmarked_sheet) in Ht. unfold unmarked_sheet in Ht.
  apply list_elem_of_singleton in Ht as ->.
  change (cell ∈ [paragraph_cell (u"no")]) in Hcell.
  apply list_elem_of_singleton in Hcell as ->.
  discriminate Hc.
Defined.

(** C5: when the path is not an archive the read raises; then
    [parse_coverage_grid] prints the cause and returns [None] and no
    dictionary, [main] prints "Failed to parse coverage data" and exits with
    status 1, and no sheet has been processed. *)
Theorem C5_not_a_container_is_terminal
    (rt : Runtime) (argv : list str) (e : str) :
  zipfile_read rt (filepath_of argv) (u"content.xml") = Raise e →
  parse_coverage_grid rt (filepath_of argv)
  = (banner (u"         SchedCU Coverage Grid Validation Tool")
       ++ [u"Opening file: " ++ filepath_of argv;
           ICON_CROSS ++ u" Failed to read ODS file: " ++ e],
     Return None)
  ∧ main rt argv
    = (banner (u"         SchedCU Coverage Grid Validation Tool")
         ++ [u"Opening file: " ++ filepath_of argv;
             ICON_CROSS ++ u" Failed to read ODS file: " ++ e;
             u"Failed to parse coverage data"],
       Exit 1)
  ∧ (∀ line, line ∈ fst (main rt argv) →
             Str.prefix (u"Processing sheet: ") line = false).
Proof.
  intros Hzip.
  assert (Hparse : parse_coverage_grid rt (filepath_of argv)
    = (banner (u"         SchedCU Coverage Grid Validation Tool")
         ++ [u"Opening file: " ++ filepath_of argv;
             ICON_CROSS ++ u" Failed to read ODS file: " ++ e],
       Return None)).
  { unfold parse_coverage_grid. by rewrite Hzip. }
  assert (Hmain : main rt argv
    = (banner (u"         SchedCU Coverage Grid Validation Tool")
         ++ [u"Opening file: " ++ filepath_of argv;
             ICON_CROSS ++ u" Failed to read ODS file: " ++ e;
             u"Failed to parse coverage data"],
       Exit 1)).
  { by rewrite (main_falsy rt argv _ None Hparse eq_refl). }
  split; [done |]. split; [done |].
  intros line. rewrite Hmain. unfold banner. cbn [fst app].
  rewrite !elem_of_cons, elem_of_nil.
  intros [-> | [-> | [-> | [-> | [-> | [-> | [-> | []]]]]]]]; reflexivity.
Qed.

Lemma C5_not_a_container_is_terminal_witness :
  parse_coverage_grid runtime_not_a_zip (filepath_of ARGV)
  = (banner (u"         SchedCU Coverage Grid Validation Tool")
       ++ [u"Opening file: " ++ filepath_of ARGV;
           ICON_CROSS ++ u" Failed to read ODS file: " ++ u"File is not a zip file"],
     Return None)
  ∧ main runtime_not_a_zip ARGV
    = (banner (u"         SchedCU Coverage Grid Validation Tool")
         ++ [u"Opening file: " ++ filepath_of ARGV;
             ICON_CROSS ++ u" Failed to read ODS file: " ++ u"File is not a zip file";
             u"Failed to parse coverage data"],
       Exit 1)
  ∧ (∀ line, line ∈ fst (main runtime_not_a_zip ARGV) →
             Str.prefix (u"Processing sheet: ") line = false).
Proof.
  apply (C5_not_a_container_is_terminal runtime_not_a_zip ARGV (u"File is not a zip file")).
  reflexivity.
Defined.

(* ------------------------------------------------------------------ *)
(** ** Scenarios of the specification, run on the model *)

(** Scenario 1: the sheet is in the Weekday set of its study type, the
    Weekend set is empty, and the only gap is the Weekend one. *)
Example scenario_single_weekday_sheet :
  snd (parse_coverage_grid (runtime_with (document_of neuro_sheet)) (u"grid.ods"))
  = Return (Some [(u"Weekday 5-6 PM Neuro", [(u"CPMC CT Neuro", [(u"NEURO1", true)])])])
  ∧ study_type_coverage
      (aggregate [(u"Weekday 5-6 PM Neuro", [(u"CPMC CT Neuro", [(u"NEURO1", true)])])])
    = [(u"CPMC CT Neuro",
        {| cov_weekday := {[u"Weekday 5-6 PM Neuro"]}; cov_weekend := ∅ |})]
  ∧ find_gaps
      (study_type_coverage
         (aggregate [(u"Weekday 5-6 PM Neuro", [(u"CPMC CT Neuro", [(u"NEURO1", true)])])]))
    = [gap_weekend (u"CPMC CT Neuro")].
Proof. repeat split; vm_compute; reflexivity. Qed.

(** Scenario 2: a study type covered on a weekday and on a weekend sheet
    has no gap. *)
Example scenario_both_day_types :
  Dict.get (u"Allen MR Body") (study_type_coverage (aggregate two_sheets))
  = Some two_sheets_body
  ∧ Str.mem (gap_weekday (u"Allen MR Body"))
            (find_gaps (study_type_coverage (aggregate two_sheets))) = false
  ∧ Str.mem (gap_weekend (u"Allen MR Body"))
            (find_gaps (study_type_coverage (aggregate two_sheets))) = false.
Proof. repeat split; vm_compute; reflexivity. Qed.

(** Scenario 4: a row whose first cell is empty stores nothing. *)
Example scenario_empty_study_type :
  snd (parse_coverage_grid
         (runtime_with (document_of
            [table_of (u"Weekday Overnight") [[u"Study"; u"BODY1"]; [u""; u"x"]]]))
         (u"grid.ods"))
  = Return (Some []).
Proof. vm_compute. reflexivity. Qed.

(** A marker followed by a no-break space (160) is trimmed and counts; a
    row whose label is a no-break space only is skipped. *)
Example scenario_no_break_space :
  snd (parse_coverage_grid
         (runtime_with (document_of
            [table_of (u"Weekday Evening")
               [[u"Study"; u"P1"]; [u"CT Head"; u"x" ++ [160%N]]]]))
         (u"grid.ods"))
  = Return (Some [(u"Weekday Evening", [(u"CT Head", [(u"P1", true)])])])
  ∧ snd (parse_coverage_grid
           (runtime_with (document_of
              [table_of (u"Weekday Evening") [[u"Study"; u"P1"]; [[160%N]; u"x"]]]))
           (u"grid.ods"))
    = Return (Some []).
Proof. split; vm_compute; reflexivity. Qed.

(** A sheet whose name writes the k of "weekend" with the Kelvin sign
    (8490) is a weekend sheet. *)
Example scenario_kelvin_sign :
  study_type_coverage
    (aggregate [(u"WEE" ++ [8490%N] ++ u"END Night", [(u"CT Head", [(u"P1", true)])])])
  = [(u"CT Head",
      {| cov_weekday := ∅;
         cov_weekend := {[u"WEE" ++ [8490%N] ++ u"END Night"]} |})].
Proof. vm_compute. reflexivity. Qed.

(* ------------------------------------------------------------------ *)
(** ** More on the extracted text *)

Module TextFacts.
Import Str.

Lemma lstrip_head (s t : str) (c : N) :
  lstrip s = c :: t → is_space c = false.
Proof.
  induction s as [|a s IH]; simpl; [done |].
  destruct (is_space a) eqn:Ha; [done |]. by intros [= <- _].
Qed.

Lemma rstrip_prefix (s : str) : ∃ ws, s = rstrip s ++ ws.
Proof.
  induction s as [|a s [ws IH]]; simpl; [by exists [] |].
  destruct (rstrip s) as [|b r] eqn:Hr.
  - destruct (is_space a).
    + by exists (a :: s).
    + exists s. done.
  - exists ws. simpl. simpl in IH. by rewrite <- IH.
Qed.

Lemma rstrip_last (s t : str) (c : N) :
  rstrip s = t ++ [c] → is_space c = false.
Proof.
  revert t. induction s as [|a s IH]; intros t; simpl.
  - destruct t; done.
  - destruct (rstrip s) as [|b r] eqn:Hr.
    + destruct (is_space a) eqn:Ha; [destruct t; done |].
      destruct t as [|x t]; simpl; [by intros [= <-] |].
      destruct t; done.
    + destruct t as [|x t]; simpl; [done |].
      intros [= _ H]. by apply (IH t).
Qed.

Lemma rstrip_idem (s : str) : rstrip (rstrip s) = rstrip s.
Proof.
  induction s as [|a s IH]; simpl; [done |].
  destruct (rstrip s) as [|b r] eqn:Hr.
  - destruct (is_space a) eqn:Ha; simpl; [done | by rewrite Ha].
  - change (rstrip (a :: b :: r)) with
      (match rstrip (b :: r) with
       | [] => if is_space a then [] else [a]
       | r' => a :: r'
       end).
    by rewrite IH.
Qed.

Lemma lstrip_fixed (s : str) :
  (∀ c t, s = c :: t → is_space c = false) → lstrip s = s.
Proof.
  destruct s as [|a s]; simpl; [done |]. intros H. by rewrite (H a s eq_refl).
Qed.

Lemma strip_head (s t : str) (c : N) :
  strip s = c :: t → is_space c = false.
Proof.
  unfold strip. intros H.
  destruct (rstrip_prefix (lstrip s)) as [ws Hws]. rewrite H in Hws. simpl in Hws.
  by apply (lstrip_head s (t ++ ws) c).
Qed.

Lemma strip_idem (s : str) : strip (strip s) = strip s.
Proof.
  unfold strip at 1. rewrite lstrip_fixed.
  - unfold strip. apply rstrip_idem.
  - intros c t. apply strip_head.
Qed.






Lemma extract_text_paragraph_texts (cell : Element) :
  extract_text cell = strip (join (u" ") (paragraph_texts cell)).
Proof. done. Qed.


End TextFacts.

(** The extracted text has no white space at either end, and trimming it
    again changes nothing. *)
Theorem extract_text_is_trimmed (cell : Element) :
  Str.strip (extract_text cell) = extract_text cell
  ∧ (∀ c t, extract_text cell = c :: t → Str.is_space c = false)
  ∧ (∀ t c, extract_text cell = t ++ [c] → Str.is_space c = false).
Proof.
  rewrite TextFacts.extract_text_paragraph_texts.
  split; [apply TextFacts.strip_idem |].
  split; [intros c t; apply TextFacts.strip_head |].
  intros t c. unfold Str.strip. apply TextFacts.rstrip_last.
Qed.


(* ------------------------------------------------------------------ *)
(** ** More on the parser *)

Module MarkFacts.

Lemma enumerate_elem_lookup {A : Type} (l : list A) (start i : nat) (x : A) :
  (i, x) ∈ enumerate l start → ∃ j, i = start + j ∧ l !! j = Some x.
Proof.
  unfold enumerate. revert start.
  induction l as [|y l IH]; intros start; simpl.
  - by intros H%elem_of_nil.
  - intros [[= -> ->] | H]%elem_of_cons.
    + exists 0. split; [lia | done].
    + destruct (IH (S start) H) as (j & -> & Hj). exists (S j). split; [lia | done].
Qed.

Lemma elem_of_table_entries_marks (table : Element) (s st p : str) :
  (s, st, p) ∈ table_entries table ↔ marks table s st p.
Proof.
  unfold table_entries, marks. split.
  - destruct (findall _ table) as [|header_row data_rows] eqn:Hrows;
      [by intros H%elem_of_nil |].
    rewrite list_elem_of_In, in_flat_map. intros (row & Hrow & He).
    apply list_elem_of_In in He. unfold row_entries in He.
    destruct (findall _ row) as [|cell0 rest] eqn:Hcells; [by apply elem_of_nil in He |].
    destruct (Str.truthy (extract_text cell0)) eqn:Hlabel; [| by apply elem_of_nil in He].
    apply EntryFacts.elem_of_cell_entries in He as (i & cell & Hin & Hc & [= -> -> ->]).
    apply enumerate_elem_lookup in Hin as (j & -> & Hj).
    exists header_row, data_rows, row, cell0, rest, j, cell.
    repeat split; try done. by apply list_elem_of_In.
  - intros (header_row & data_rows & row & cell0 & rest & j & cell
            & -> & Hrow & Hcells & Hlabel & Hj & Hc & -> & -> & ->).
    apply list_elem_of_In, in_flat_map. exists row. split; [by apply list_elem_of_In |].
    apply list_elem_of_In.
    by apply (EntryFacts.row_entries_of_cell _ _ row cell0 rest j cell).
Qed.

Lemma elem_of_document_entries_marks (tables : list Element) (s st p : str) :
  (s, st, p) ∈ document_entries tables ↔ ∃ table, table ∈ tables ∧ marks table s st p.
Proof.
  unfold document_entries. rewrite list_elem_of_In, in_flat_map. split.
  - intros (table & Ht & He). exists table. split; [by apply list_elem_of_In |].
    by apply elem_of_table_entries_marks, list_elem_of_In.
  - intros (table & Ht & He). exists table. split; [by apply list_elem_of_In |].
    by apply list_elem_of_In, elem_of_table_entries_marks.
Qed.

Lemma leaf_parse_tables (rt : Runtime) (tables : list Element) (s st p : str) :
  leaf (parse_tables rt tables) s st p
  = if bool_decide ((s, st, p) ∈ document_entries tables) then Some true else None.
Proof.
  unfold parse_tables. by rewrite ParseFacts.visit_tables_fold, ParseFacts.leaf_fold_store.
Qed.

End MarkFacts.

(** What the parser stores: in the dictionary it returns, the leaf under a
    sheet name, a study type and a shift position is [True] exactly when a
    table of that name has a data row with that label and a covered cell
    whose column resolves to that position; otherwise there is no leaf.
    Rows with the same label, and tables with the same name, add up. *)
Theorem parse_coverage_grid_leaves
    (rt : Runtime) (filepath content : str) (root body spreadsheet : Element) :
  zipfile_read rt filepath (u"content.xml") = Return content →
  ET_fromstring rt content = Return root →
  find (qname NS_office (u"body")) root = Some body →
  find (qname NS_office (u"spreadsheet")) body = Some spreadsheet →
  ∃ out coverage_data,
    parse_coverage_grid rt filepath = (out, Return (Some coverage_data))
    ∧ ∀ s st p,
        (leaf coverage_data s st p = Some true ↔
           ∃ table, table ∈ findall (qname NS_table (u"table")) spreadsheet
                    ∧ marks table s st p)
        ∧ (leaf coverage_data s st p = None ↔
             ¬ ∃ table, table ∈ findall (qname NS_table (u"table")) spreadsheet
                        ∧ marks table s st p).
Proof.
  intros Hzip Hxml Hbody Hss.
  destruct (EntryFacts.parse_coverage_grid_document _ _ _ _ _ _ Hzip Hxml Hbody Hss)
    as [out Hparse].
  eexists out, _. split; [exact Hparse |].
  intros s st p. rewrite ParseFacts.leaf_fold_store.
  rewrite <- MarkFacts.elem_of_document_entries_marks.
  case_bool_decide; split; split; try done.
Qed.

Lemma parse_coverage_grid_leaves_witness :
  ∃ out coverage_data,
    parse_coverage_grid (runtime_with (document_of short_header_sheet)) (u"grid.ods")
    = (out, Return (Some coverage_data))
    ∧ ∀ s st p,
        (leaf coverage_data s st p = Some true ↔
           ∃ table, table ∈ findall (qname NS_table (u"table"))
                                    (spreadsheet_of short_header_sheet)
                    ∧ marks table s st p)
        ∧ (leaf coverage_data s st p = None ↔
             ¬ ∃ table, table ∈ findall (qname NS_table (u"table"))
                                        (spreadsheet_of short_header_sheet)
                        ∧ marks table s st p).
Proof.
  apply (parse_coverage_grid_leaves
           (runtime_with (document_of short_header_sheet)) (u"grid.ods") (u"content")
           (document_of short_header_sheet) (body_of short_header_sheet)
           (spreadsheet_of short_header_sheet)); reflexivity.
Defined.

(** [parse_tables] is what [parse_coverage_grid] returns on a document with
    a body and a spreadsheet. *)
Lemma parse_coverage_grid_returns_parse_tables
    (rt : Runtime) (filepath content : str) (root body spreadsheet : Element) :
  zipfile_read rt filepath (u"content.xml") = Return content →
  ET_fromstring rt content = Return root →
  find (qname NS_office (u"body")) root = Some body →
  find (qname NS_office (u"spreadsheet")) body = Some spreadsheet →
  snd (parse_coverage_grid rt filepath)
  = Return (Some (parse_tables rt (findall (qname NS_table (u"table")) spreadsheet))).
Proof.
  intros Hzip Hxml Hbody Hss.
  destruct (EntryFacts.parse_coverage_grid_document _ _ _ _ _ _ Hzip Hxml Hbody Hss)
    as [out ->].
  unfold parse_tables. by rewrite ParseFacts.visit_tables_fold.
Qed.

(** The dictionary the parser builds from the tables of a document (see
    [parse_coverage_grid_returns_parse_tables]) does not depend on the
    order of the tables: the same sheets are keys and every lookup gives
    the same leaf. *)
Theorem parse_tables_ignores_table_order
    (rt : Runtime) (tables shuffled : list Element) (s st p : str) :
  Permutation tables shuffled →
  leaf (parse_tables rt shuffled) s st p = leaf (parse_tables rt tables) s st p
  ∧ (s ∈ Dict.keys (parse_tables rt shuffled) ↔ s ∈ Dict.keys (parse_tables rt tables)).
Proof.
  intros Hp.
  assert (Hin : ∀ e, e ∈ document_entries shuffled ↔ e ∈ document_entries tables).
  { intros [[s' st'] p']. rewrite !MarkFacts.elem_of_document_entries_marks.
    split; intros (table & Ht & Hm); exists table; (split; [| done]).
    - by rewrite Hp.
    - by rewrite <- Hp. }
  split.
  - rewrite !MarkFacts.leaf_parse_tables.
    destruct (decide ((s, st, p) ∈ document_entries tables)) as [H | H].
    + rewrite !bool_decide_eq_true_2; [done | done | by apply Hin].
    + rewrite !bool_decide_eq_false_2; [done | done | by rewrite Hin].
  - unfold parse_tables. rewrite !ParseFacts.visit_tables_fold, !ParseFacts.keys_fold_store.
    split; (intros [H | (st' & p' & H)]; [by left | right; exists st', p'; by apply Hin]).
Qed.

Lemma parse_tables_ignores_table_order_witness :
  leaf (parse_tables (runtime_with (document_of [])) (unmarked_sheet ++ neuro_sheet))
       (u"Weekday 5-6 PM Neuro") (u"CPMC CT Neuro") (u"NEURO1")
  = leaf (parse_tables (runtime_with (document_of [])) (neuro_sheet ++ unmarked_sheet))
         (u"Weekday 5-6 PM Neuro") (u"CPMC CT Neuro") (u"NEURO1")
  ∧ (u"Weekday 5-6 PM Neuro"
       ∈ Dict.keys (parse_tables (runtime_with (document_of [])) (unmarked_sheet ++ neuro_sheet))
     ↔ u"Weekday 5-6 PM Neuro"
       ∈ Dict.keys (parse_tables (runtime_with (document_of [])) (neuro_sheet ++ unmarked_sheet))).
Proof.
  apply (parse_tables_ignores_table_order (runtime_with (document_of []))
           (neuro_sheet ++ unmarked_sheet) (unmarked_sheet ++ neuro_sheet)).
  apply perm_swap.
Defined.

(* ------------------------------------------------------------------ *)
(** ** The other ways a run ends *)

(** When the archive reads but its content is not well-formed XML, the
    parser prints the cause and returns [None], and [main] prints "Failed
    to parse coverage data" and exits with status 1. *)
Theorem malformed_xml_is_terminal
    (rt : Runtime) (argv : list str) (content e : str) :
  zipfile_read rt (filepath_of argv) (u"content.xml") = Return content →
  ET_fromstring rt content = Raise e →
  parse_coverage_grid rt (filepath_of argv)
  = (banner (u"         SchedCU Coverage Grid Validation Tool")
       ++ [u"Opening file: " ++ filepath_of argv;
           ICON_TICK ++ u" File opened successfully";
           ICON_CROSS ++ u" Failed to parse XML: " ++ e],
     Return None)
  ∧ main rt argv
    = (banner (u"         SchedCU Coverage Grid Validation Tool")
         ++ [u"Opening file: " ++ filepath_of argv;
             ICON_TICK ++ u" File opened successfully";
             ICON_CROSS ++ u" Failed to parse XML: " ++ e;
             u"Failed to parse coverage data"],
       Exit 1).
Proof.
  intros Hzip Hxml.
  assert (Hparse : parse_coverage_grid rt (filepath_of argv)
    = (banner (u"         SchedCU Coverage Grid Validation Tool")
         ++ [u"Opening file: " ++ filepath_of argv;
             ICON_TICK ++ u" File opened successfully";
             ICON_CROSS ++ u" Failed to parse XML: " ++ e],
       Return None)).
  { unfold parse_coverage_grid. by rewrite Hzip, Hxml. }
  split; [done |].
  by rewrite (main_falsy rt argv _ None Hparse eq_refl).
Qed.

Lemma malformed_xml_is_terminal_witness :
  parse_coverage_grid runtime_bad_xml (filepath_of ARGV)
  = (banner (u"         SchedCU Coverage Grid Validation Tool")
       ++ [u"Opening file: " ++ filepath_of ARGV;
           ICON_TICK ++ u" File opened successfully";
           ICON_CROSS ++ u" Failed to parse XML: " ++ u"syntax error: line 1, column 0"],
     Return None)
  ∧ main runtime_bad_xml ARGV
    = (banner (u"         SchedCU Coverage Grid Validation Tool")
         ++ [u"Opening file: " ++ filepath_of ARGV;
             ICON_TICK ++ u" File opened successfully";
             ICON_CROSS ++ u" Failed to parse XML: " ++ u"syntax error: line 1, column 0";
             u"Failed to parse coverage data"],
       Exit 1).
Proof.
  apply (malformed_xml_is_terminal runtime_bad_xml ARGV (u"not xml")
           (u"syntax error: line 1, column 0")); reflexivity.
Defined.

(** A well-formed XML document that has no [office:body], or a body
    without an [office:spreadsheet], is not reported as a failure: the
    lookup on [None] raises an [AttributeError] that nothing catches, so
    [main] ends with that exception and never prints "Failed to parse
    coverage data". *)
Theorem missing_structure_raises
    (rt : Runtime) (argv : list str) (content : str) (root : Element) :
  zipfile_read rt (filepath_of argv) (u"content.xml") = Return content →
  ET_fromstring rt content = Return root →
  find (qname NS_office (u"body")) root = None
  ∨ (∃ body, find (qname NS_office (u"body")) root = Some body
             ∧ find (qname NS_office (u"spreadsheet")) body = None) →
  ∃ out e,
    parse_coverage_grid rt (filepath_of argv) = (out, Raise e)
    ∧ main rt argv = (out, Uncaught e)
    ∧ (e = AttributeError_find ∨ e = AttributeError_findall)
    ∧ u"Failed to parse coverage data" ∉ out.
Proof.
  intros Hzip Hxml Hmissing.
  assert (Hout : u"Failed to parse coverage data"
                 ∉ banner (u"         SchedCU Coverage Grid Validation Tool")
                   ++ [u"Opening file: " ++ filepath_of argv;
                       ICON_TICK ++ u" File opened successfully";
                       ICON_TICK ++ u" XML parsed successfully" ++ NL]).
  { unfold banner. cbn [app]. rewrite !elem_of_cons, elem_of_nil.
    intros [H | [H | [H | [H | [H | [H | [H | []]]]]]]];
      apply (f_equal (Str.prefix (u"Failed"))) in H; discriminate H. }
  destruct Hmissing as [Hbody | (body & Hbody & Hss)].
  - eexists _, AttributeError_find. unfold main, parse_coverage_grid.
    rewrite Hzip, Hxml, Hbody. repeat split; try done. by left.
  - eexists _, AttributeError_findall. unfold main, parse_coverage_grid.
    rewrite Hzip, Hxml, Hbody, Hss. repeat split; try done. by right.
Qed.

Lemma missing_structure_raises_witness :
  ∃ out e,
    parse_coverage_grid (runtime_with document_without_body) (filepath_of ARGV)
    = (out, Raise e)
    ∧ main (runtime_with document_without_body) ARGV = (out, Uncaught e)
    ∧ (e = AttributeError_find ∨ e = AttributeError_findall)
    ∧ u"Failed to parse coverage data" ∉ out.
Proof.
  apply (missing_structure_raises (runtime_with document_without_body) ARGV (u"content")
           document_without_body); [reflexivity | reflexivity | left; reflexivity].
Defined.

(** A document with at least one covered cell is analysed and the process
    exits with status 0, whether or not the analysis finds gaps: the exit
    status never tells a failed validation from a passed one. *)
Theorem covered_document_exits_zero
    (rt : Runtime) (argv : list str) (content : str)
    (root body spreadsheet table : Element) :
  zipfile_read rt (filepath_of argv) (u"content.xml") = Return content →
  ET_fromstring rt content = Return root →
  find (qname NS_office (u"body")) root = Some body →
  find (qname NS_office (u"spreadsheet")) body = Some spreadsheet →
  table ∈ findall (qname NS_table (u"table")) spreadsheet →
  has_covered_cell table →
  ∃ out coverage_data,
    parse_coverage_grid rt (filepath_of argv) = (out, Return (Some coverage_data))
    ∧ coverage_data ≠ []
    ∧ main rt argv = (out ++ analyze_coverage coverage_data, Exit 0).
Proof.
  intros Hzip Hxml Hbody Hss Ht Hc.
  destruct (EntryFacts.parse_coverage_grid_document _ _ _ _ _ _ Hzip Hxml Hbody Hss)
    as [out Hparse].
  eexists out, _. split; [exact Hparse |].
  assert (Hkey : sheet_name_of table
                 ∈ Dict.keys (fold_left store_entry
                     (document_entries (findall (qname NS_table (u"table")) spreadsheet)) [])).
  { apply ParseFacts.keys_fold_store. right.
    apply EntryFacts.document_entries_sheet. by exists table. }
  unfold main. rewrite Hparse.
  destruct (fold_left store_entry _ []) as [|entry cd]; [by apply elem_of_nil in Hkey |].
  done.
Qed.

Lemma covered_document_exits_zero_witness :
  ∃ out coverage_data,
    parse_coverage_grid (runtime_with (document_of neuro_sheet)) (filepath_of ARGV)
    = (out, Return (Some coverage_data))
    ∧ coverage_data ≠ []
    ∧ main (runtime_with (document_of neuro_sheet)) ARGV
      = (out ++ analyze_coverage coverage_data, Exit 0).
Proof.
  apply (covered_document_exits_zero
           (runtime_with (document_of neuro_sheet)) ARGV (u"content")
           (document_of neuro_sheet) (body_of neuro_sheet) (spreadsheet_of neuro_sheet)
           (table_of (u"Weekday 5-6 PM Neuro") [[u"Study"; u"NEURO1"]; [u"CPMC CT Neuro"; u"x"]]));
    try reflexivity.
  - change (table_of (u"Weekday 5-6 PM Neuro") [[u"Study"; u"NEURO1"]; [u"CPMC CT Neuro"; u"x"]]
            ∈ neuro_sheet).
    apply list_elem_of_singleton. reflexivity.
  - exists (paragraph_cell (u"x")). split; [| reflexivity].
    change (paragraph_cell (u"x") ∈ [paragraph_cell (u"x")]).
    apply list_elem_of_singleton. reflexivity.
Defined.

(* ------------------------------------------------------------------ *)
(** ** The counters printed for a sheet *)

Module CountFacts.

Lemma filter_enumerate {A : Type} (f : A → bool) (l : list A) (start : nat) :
  length (List.filter (fun ic : nat * A => f (snd ic)) (enumerate l start))
  = length (List.filter f l).
Proof.
  unfold enumerate. revert start. induction l as [|x l IH]; intros start; [done |].
  simpl. destruct (f x); simpl; by rewrite IH.
Qed.

Lemma visit_cell_count (s st : str) (sp : list str) (cells : list (nat * Element))
    (cd : CoverageData) (n : nat) :
  snd (fold_left (visit_cell s st sp) cells (cd, n))
  = n + length (List.filter (fun ic : nat * Element => cell_has_coverage (snd ic)) cells).
Proof.
  revert cd n. induction cells as [|[i cell] cells IH]; intros cd n; [simpl; lia |].
  cbn [fold_left List.filter snd]. unfold visit_cell at 2.
  destruct (cell_has_coverage cell); rewrite IH; simpl; lia.
Qed.

Lemma visit_row_count (s : str) (sp : list str) (row : Element)
    (cd : CoverageData) (a b : nat) :
  snd (fst (visit_row s sp (cd, a, b) row)) = a + (if labelled row then 1 else 0)
  ∧ snd (visit_row s sp (cd, a, b) row)
    = b + length (List.filter cell_has_coverage (coverage_cells_of_row row)).
Proof.
  unfold visit_row, labelled, coverage_cells_of_row.
  destruct (findall _ row) as [|cell0 rest]; [simpl; lia |].
  destruct (Str.truthy (extract_text cell0)); simpl; [| lia].
  pose proof (visit_cell_count s (extract_text cell0) sp (enumerate rest 1) cd b) as Hc.
  rewrite filter_enumerate in Hc.
  destruct (fold_left _ (enumerate rest 1) (cd, b)) as [cd' b']. simpl in *. lia.
Qed.

Lemma visit_rows_count (s : str) (sp : list str) (rows : list Element)
    (cd : CoverageData) (a b : nat) :
  snd (fst (fold_left (visit_row s sp) rows (cd, a, b)))
  = a + length (List.filter labelled rows)
  ∧ snd (fold_left (visit_row s sp) rows (cd, a, b))
    = b + length (List.filter cell_has_coverage (flat_map coverage_cells_of_row rows)).
Proof.
  revert cd a b. induction rows as [|row rows IH]; intros cd a b; [simpl; lia |].
  cbn [fold_left flat_map List.filter].
  destruct (visit_row_count s sp row cd a b) as [Ha Hb].
  destruct (visit_row s sp (cd, a, b) row) as [[cd' a'] b']. simpl in Ha, Hb.
  destruct (IH cd' a' b') as [-> ->]. subst a' b'.
  rewrite List.filter_app, length_app.
  destruct (labelled row); simpl; lia.
Qed.

End CountFacts.

(** What is printed for a sheet.  A table without rows prints its name
    only.  Otherwise the last line gives, as "study types", the number of
    data rows with a non-empty first cell (a label that occurs in two rows
    is counted twice) and, as "coverage markers", the number of covered
    cells in those rows. *)
Theorem visit_table_prints_counts
    (rt : Runtime) (coverage_data : CoverageData) (out : list str) (table : Element) :
  snd (visit_table rt (coverage_data, out) table)
  = out ++ [u"Processing sheet: " ++ sheet_name_of table]
    ++ match findall (qname NS_table (u"table-row")) table with
       | [] => []
       | header_row :: data_rows =>
           [u"  Day type: " ++ DayType_str (day_type_of (sheet_name_of table));
            u"  Shift positions: "
              ++ repr_list rt
                    (List.filter Str.truthy
                       (map extract_text
                            (findall (qname NS_table (u"table-cell")) header_row)));
            u"  Data rows: " ++ Str.of_nat (length data_rows);
            u"  " ++ ICON_TICK ++ u" "
              ++ Str.of_nat (length (List.filter labelled data_rows))
              ++ u" study types, "
              ++ Str.of_nat (length (List.filter cell_has_coverage (coverage_cells table)))
              ++ u" coverage markers" ++ NL]
       end.
Proof.
  unfold visit_table, coverage_cells.
  destruct (findall _ table) as [|header_row data_rows]; [done |].
  destruct (CountFacts.visit_rows_count (sheet_name_of table)
              (map extract_text (findall (qname NS_table (u"table-cell")) header_row))
              data_rows coverage_data 0 0) as [Ha Hb].
  destruct (fold_left _ data_rows _) as [[cd' a'] b']. simpl in Ha, Hb. subst a' b'.
  cbn [snd length Nat.sub]. rewrite Nat.sub_0_r, <- !app_assoc. done.
Qed.

(* ------------------------------------------------------------------ *)
(** ** More on the aggregated matrix and the gaps *)

Module MatrixFacts.

Lemma get_record_all_is_Some (visits : list (str * str)) (k : str) :
  is_Some (Dict.get k (record_all visits [])) ↔ ∃ s, (k, s) ∈ visits.
Proof.
  rewrite DictFacts.get_is_Some, AggFacts.record_all_keys, list_elem_of_fmap.
  split.
  - intros [H | ([k' s] & -> & Hin)]; [by apply elem_of_nil in H | by exists s].
  - intros [s Hin]. right. by exists (k, s).
Qed.

Lemma record_all_sheets_nil (visits : list (str * str)) (k : str) (c : Coverage) :
  Dict.get k (record_all visits []) = Some c →
  ∀ day s, s ∈ sheets_of day c ↔ (k, s) ∈ visits ∧ day_type_of s = day.
Proof.
  intros Hget day s. rewrite (AggFacts.record_all_sheets _ _ _ _ Hget day s).
  split; [intros [H | H]; [destruct day; by apply elem_of_empty in H | done] | by right].
Qed.

Lemma elem_of_category_visits (cd : CoverageData) (cat s : str) :
  (cat, s) ∈ category_visits cd ↔
  ∃ st, (st, s) ∈ study_visits cd ∧ extract_study_category st = cat.
Proof.
  unfold category_visits. rewrite list_elem_of_fmap. split.
  - intros ([st s'] & [= -> ->] & Hin). by exists st.
  - intros (st & Hin & <-). by exists (st, s).
Qed.

Lemma study_visits_app (cd more : CoverageData) :
  study_visits (cd ++ more) = study_visits cd ++ study_visits more.
Proof. unfold study_visits. apply flat_map_app. Qed.

(** Every entry of the study-type map has a sheet in one of its sets. *)
Lemma entry_has_sheet (visits : list (str * str)) (k : str) (c : Coverage) :
  Dict.get k (record_all visits []) = Some c →
  cov_weekday c ≠ ∅ ∨ cov_weekend c ≠ ∅.
Proof.
  intros Hget.
  assert (Hs : is_Some (Dict.get k (record_all visits []))) by (by rewrite Hget).
  apply get_record_all_is_Some in Hs as [s Hin].
  assert (Hmem : s ∈ sheets_of (day_type_of s) c).
  { by apply (record_all_sheets_nil visits k c Hget). }
  destruct (day_type_of s); simpl in Hmem; [left | right];
    intros He; rewrite He in Hmem; by apply elem_of_empty in Hmem.
Qed.

Lemma length_visit_gaps (gaps : list str) (entry : str * Coverage) :
  cov_weekday (snd entry) ≠ ∅ ∨ cov_weekend (snd entry) ≠ ∅ →
  (length (visit_gaps gaps entry) ≤ S (length gaps))%nat.
Proof.
  destruct entry as [k c]. unfold visit_gaps. simpl. intros H.
  destruct (set_truthy (cov_weekday c)) eqn:Hwd;
    destruct (set_truthy (cov_weekend c)) eqn:Hwe; simpl;
    rewrite ?length_app; simpl; try lia.
  apply GapFacts.set_truthy_false in Hwd, Hwe. tauto.
Qed.

Lemma length_fold_visit_gaps (d : dict Coverage) (gaps : list str) :
  (∀ entry, entry ∈ d → cov_weekday (snd entry) ≠ ∅ ∨ cov_weekend (snd entry) ≠ ∅) →
  (length (fold_left visit_gaps d gaps) ≤ length gaps + length d)%nat.
Proof.
  revert gaps. induction d as [|entry d IH]; intros gaps Hd; simpl; [lia |].
  assert (He := length_visit_gaps gaps entry (Hd entry ltac:(apply elem_of_cons; by left))).
  specialize (IH (visit_gaps gaps entry)
                 (λ e Hin, Hd e ltac:(apply elem_of_cons; by right))).
  lia.
Qed.

Lemma size_set_map_le (f : str → str) (X : gset str) :
  (size (set_map f X : gset str) ≤ size X)%nat.
Proof.
  induction X as [|x X Hx IH] using set_ind_L.
  - by rewrite set_map_empty, !size_empty.
  - rewrite set_map_union_L, set_map_singleton_L.
    rewrite (size_union_alt {[f x]}), size_singleton.
    rewrite (size_union {[x]} X), size_singleton; [| set_solver].
    assert ((size (set_map f X ∖ {[f x]} : gset str)
             ≤ size (set_map f X : gset str))%nat).
    { apply subseteq_size. set_solver. }
    lia.
Qed.

Lemma NoDup_study_type_coverage (cd : CoverageData) :
  NoDup (Dict.keys (study_type_coverage (aggregate cd))).
Proof.
  rewrite AggFacts.study_type_coverage_aggregate.
  apply AggFacts.record_all_NoDup, NoDup_nil_2.
Qed.

Lemma elem_of_study_types_of (cd : CoverageData) (st : str) :
  st ∈ study_types_of cd ↔ is_Some (Dict.get st (study_type_coverage (aggregate cd))).
Proof.
  unfold study_types_of.
  rewrite elem_of_list_to_set, AggFacts.study_type_coverage_aggregate,
    get_record_all_is_Some, list_elem_of_fmap.
  split.
  - intros ([k s] & -> & Hin). by exists s.
  - intros [s Hin]. by exists (st, s).
Qed.

Lemma sheets_of_study_type (cd : CoverageData) (st : str) (c : Coverage) :
  Dict.get st (study_type_coverage (aggregate cd)) = Some c →
  ∀ day s,
    s ∈ sheets_of day c ↔
    (∃ studies, (s, studies) ∈ cd ∧ st ∈ Dict.keys studies) ∧ day_type_of s = day.
Proof.
  rewrite AggFacts.study_type_coverage_aggregate. intros Hget day s.
  rewrite (record_all_sheets_nil _ _ _ Hget day s).
  by rewrite AggFacts.elem_of_study_visits.
Qed.

End MatrixFacts.

(** What the study-type map holds, in terms of the parsed document: a
    study type is a key exactly when it occurs in some sheet, and a sheet
    is in its set for a day type exactly when the study type occurs in
    that sheet and the sheet has that day type. *)
Theorem study_type_coverage_holds_exactly (coverage_data : CoverageData) (study_type : str) :
  (is_Some (Dict.get study_type (study_type_coverage (aggregate coverage_data)))
     ↔ ∃ s studies, (s, studies) ∈ coverage_data ∧ study_type ∈ Dict.keys studies)
  ∧ (∀ coverage,
       Dict.get study_type (study_type_coverage (aggregate coverage_data)) = Some coverage →
       ∀ day s,
         s ∈ sheets_of day coverage ↔
         (∃ studies, (s, studies) ∈ coverage_data ∧ study_type ∈ Dict.keys studies)
         ∧ day_type_of s = day).
Proof.
  split; [| apply MatrixFacts.sheets_of_study_type].
  rewrite AggFacts.study_type_coverage_aggregate.
  rewrite MatrixFacts.get_record_all_is_Some. split.
  - intros [s H]. apply AggFacts.elem_of_study_visits in H as (studies & ? & ?).
    by exists s, studies.
  - intros (s & studies & ? & ?). exists s.
    apply AggFacts.elem_of_study_visits. by exists studies.
Qed.

(** The set of a category is the union of the sets of the study types
    classified in it. *)
Theorem category_coverage_is_union
    (coverage_data : CoverageData) (category : str) (coverage : Coverage)
    (day : DayType) (s : str) :
  Dict.get category (category_coverage (aggregate coverage_data)) = Some coverage →
  s ∈ sheets_of day coverage ↔
  ∃ study_type c,
    Dict.get study_type (study_type_coverage (aggregate coverage_data)) = Some c
    ∧ extract_study_category study_type = category
    ∧ s ∈ sheets_of day c.
Proof.
  rewrite AggFacts.study_type_coverage_aggregate, AggFacts.category_coverage_aggregate.
  intros Hget. rewrite (MatrixFacts.record_all_sheets_nil _ _ _ Hget day s).
  rewrite MatrixFacts.elem_of_category_visits. split.
  - intros [(st & Hin & Hcat) Hday].
    assert (Hs : is_Some (Dict.get st (record_all (study_visits coverage_data) []))).
    { apply MatrixFacts.get_record_all_is_Some. by exists s. }
    destruct Hs as [c Hc]. exists st, c. split; [done |]. split; [done |].
    by apply (MatrixFacts.record_all_sheets_nil _ _ _ Hc).
  - intros (st & c & Hc & Hcat & Hs).
    apply (MatrixFacts.record_all_sheets_nil _ _ _ Hc) in Hs as [Hin Hday].
    split; [by exists st | done].
Qed.

Lemma category_coverage_is_union_witness :
  u"Weekend Overnight" ∈ sheets_of Weekend two_sheets_body ↔
  ∃ study_type c,
    Dict.get study_type (study_type_coverage (aggregate two_sheets)) = Some c
    ∧ extract_study_category study_type = u"MRI Body"
    ∧ u"Weekend Overnight" ∈ sheets_of Weekend c.
Proof.
  apply (category_coverage_is_union two_sheets (u"MRI Body") two_sheets_body Weekend
           (u"Weekend Overnight")).
  vm_compute. reflexivity.
Defined.

(** Adding sheets never removes anything: a study type of the map stays a
    key and both of its sets can only grow. *)
Theorem aggregate_grows_with_sheets
    (coverage_data more : CoverageData) (study_type : str) (coverage : Coverage) :
  Dict.get study_type (study_type_coverage (aggregate coverage_data)) = Some coverage →
  ∃ coverage',
    Dict.get study_type (study_type_coverage (aggregate (coverage_data ++ more)))
    = Some coverage'
    ∧ cov_weekday coverage ⊆ cov_weekday coverage'
    ∧ cov_weekend coverage ⊆ cov_weekend coverage'.
Proof.
  rewrite !AggFacts.study_type_coverage_aggregate, MatrixFacts.study_visits_app.
  intros Hget.
  assert (Hs : is_Some (Dict.get study_type
                 (record_all (study_visits coverage_data ++ study_visits more) []))).
  { apply MatrixFacts.get_record_all_is_Some.
    assert (Hs : is_Some (Dict.get study_type (record_all (study_visits coverage_data) [])))
      by (by rewrite Hget).
    apply MatrixFacts.get_record_all_is_Some in Hs as [s Hin].
    exists s. apply elem_of_app. by left. }
  destruct Hs as [coverage' Hget']. exists coverage'. split; [done |].
  assert (Hsub : ∀ day s, s ∈ sheets_of day coverage → s ∈ sheets_of day coverage').
  { intros day s Hin.
    apply (MatrixFacts.record_all_sheets_nil _ _ _ Hget) in Hin as [Hin Hday].
    apply (MatrixFacts.record_all_sheets_nil _ _ _ Hget').
    split; [apply elem_of_app; by left | done]. }
  split; intros s; [apply (Hsub Weekday) | apply (Hsub Weekend)].
Qed.

Lemma aggregate_grows_with_sheets_witness :
  ∃ coverage',
    Dict.get (u"Allen MR Body")
      (study_type_coverage (aggregate (two_sheets ++ one_sheet_two_markers)))
    = Some coverage'
    ∧ cov_weekday two_sheets_body ⊆ cov_weekday coverage'
    ∧ cov_weekend two_sheets_body ⊆ cov_weekend coverage'.
Proof.
  apply (aggregate_grows_with_sheets two_sheets one_sheet_two_markers (u"Allen MR Body")
           two_sheets_body).
  vm_compute. reflexivity.
Defined.

(** No study type of the map is without coverage altogether, so the gap
    list never holds both the Weekday and the Weekend gap of one study
    type. *)
Theorem no_study_type_misses_both (coverage_data : CoverageData) (study_type : str) :
  (∀ coverage,
     Dict.get study_type (study_type_coverage (aggregate coverage_data)) = Some coverage →
     cov_weekday coverage ≠ ∅ ∨ cov_weekend coverage ≠ ∅)
  ∧ ¬ (gap_weekday study_type ∈ find_gaps (study_type_coverage (aggregate coverage_data))
       ∧ gap_weekend study_type ∈ find_gaps (study_type_coverage (aggregate coverage_data))).
Proof.
  assert (Hne : ∀ coverage,
     Dict.get study_type (study_type_coverage (aggregate coverage_data)) = Some coverage →
     cov_weekday coverage ≠ ∅ ∨ cov_weekend coverage ≠ ∅).
  { rewrite AggFacts.study_type_coverage_aggregate. apply MatrixFacts.entry_has_sheet. }
  split; [done |]. intros [Hwd Hwe].
  pose proof (MatrixFacts.NoDup_study_type_coverage coverage_data) as Hnd.
  apply GapFacts.elem_of_find_gaps in Hwd as ([k c] & Hin & [[Hg He] | [Hg He]]);
    simpl in *; [| by apply GapFacts.gap_weekday_weekend in Hg].
  apply GapFacts.gap_weekday_inj in Hg as <-.
  apply (DictFacts.elem_get_Some _ _ _ Hnd) in Hin.
  apply (GapFacts.gap_weekend_iff _ _ _ Hnd Hin) in Hwe.
  destruct (Hne c Hin); done.
Qed.

(** Every gap is the Weekday or the Weekend gap of a study type of the
    parsed document: the category map, which gets the same warnings in the
    report, adds nothing to the gap list. *)
Theorem gaps_name_study_types (coverage_data : CoverageData) :
  Forall (λ g, ∃ study_type,
            study_type ∈ study_types_of coverage_data
            ∧ (g = gap_weekday study_type ∨ g = gap_weekend study_type))
         (find_gaps (study_type_coverage (aggregate coverage_data))).
Proof.
  apply Forall_forall. intros g Hg.
  apply GapFacts.elem_of_find_gaps in Hg as ([k c] & Hin & Hemit).
  exists k. split.
  - apply MatrixFacts.elem_of_study_types_of. exists c.
    apply DictFacts.elem_get_Some; [apply MatrixFacts.NoDup_study_type_coverage | done].
  - destruct Hemit as [[-> _] | [-> _]]; [by left | by right].
Qed.

(** The three counts of the summary are related: there are at most as many
    gaps as study types, and at most as many categories as study types. *)
Theorem summary_counts_bounded (coverage_data : CoverageData) :
  (length (find_gaps (study_type_coverage (aggregate coverage_data)))
   ≤ length (study_type_coverage (aggregate coverage_data)))%nat
  ∧ (length (category_coverage (aggregate coverage_data))
     ≤ length (study_type_coverage (aggregate coverage_data)))%nat.
Proof.
  split.
  - unfold find_gaps.
    etrans; [apply MatrixFacts.length_fold_visit_gaps | simpl; lia].
    intros [k c] Hin. simpl.
    pose proof (MatrixFacts.NoDup_study_type_coverage coverage_data) as Hnd.
    apply (DictFacts.elem_get_Some _ _ _ Hnd) in Hin.
    rewrite AggFacts.study_type_coverage_aggregate in Hin.
    by apply (MatrixFacts.entry_has_sheet _ _ _ Hin).
  - rewrite AggFacts.study_type_coverage_aggregate, AggFacts.category_coverage_aggregate.
    rewrite !length_record_all. unfold category_visits.
    rewrite <- list_fmap_compose.
    replace (list_to_set ((fst ∘ (λ visit : str * str,
                 (extract_study_category (fst visit), snd visit)))
               <$> study_visits coverage_data) : gset str)
      with (set_map extract_study_category
              (list_to_set (study_visits coverage_data).*1 : gset str) : gset str).
    + apply MatrixFacts.size_set_map_le.
    + apply set_eq. intros cat.
      rewrite elem_of_map, elem_of_list_to_set, list_elem_of_fmap. split.
      * intros (st & -> & Hst). apply elem_of_list_to_set, list_elem_of_fmap in Hst
          as ([k s] & -> & Hin). by exists (k, s).
      * intros ([k s] & -> & Hin). exists k. split; [done |].
        apply elem_of_list_to_set, list_elem_of_fmap. by exists (k, s).
Qed.

(** The validation passes exactly when every study type of the parsed
    document occurs in a sheet that is a weekday sheet and in one that is
    a weekend sheet. *)
Theorem validation_passes_iff_covered_on_both (coverage_data : CoverageData) :
  validation_passed (analyze_coverage coverage_data)
  ↔ ∀ study_type,
      study_type ∈ study_types_of coverage_data →
      covered_on coverage_data study_type Weekday
      ∧ covered_on coverage_data study_type Weekend.
Proof.
  rewrite GapFacts.validation_passed_iff.
  pose proof (MatrixFacts.NoDup_study_type_coverage coverage_data) as Hnd.
  assert (Hcov : ∀ st c day,
            Dict.get st (study_type_coverage (aggregate coverage_data)) = Some c →
            sheets_of day c ≠ ∅ ↔ covered_on coverage_data st day).
  { intros st c day Hget.
    pose proof (MatrixFacts.sheets_of_study_type coverage_data st c Hget) as Hsheets.
    unfold covered_on. split.
    - intros [s Hs]%set_choose_L.
      apply Hsheets in Hs as [(studies & ? & ?) ?]. by exists s, studies.
    - intros (s & studies & Hin & Hk & Hday) He.
      assert (Hs : s ∈ sheets_of day c).
      { apply Hsheets. split; [by exists studies | done]. }
      rewrite He in Hs. by apply elem_of_empty in Hs. }
  split.
  - intros Hgaps st [c Hget]%MatrixFacts.elem_of_study_types_of.
    split.
    + apply (Hcov st c Weekday Hget). simpl. intros He.
      apply (GapFacts.gap_weekday_iff _ _ _ Hnd Hget) in He.
      rewrite Hgaps in He. by apply elem_of_nil in He.
    + apply (Hcov st c Weekend Hget). simpl. intros He.
      apply (GapFacts.gap_weekend_iff _ _ _ Hnd Hget) in He.
      rewrite Hgaps in He. by apply elem_of_nil in He.
  - intros Hall.
    destruct (find_gaps _) as [|g gaps] eqn:Hgaps; [done |]. exfalso.
    assert (Hg : g ∈ find_gaps (study_type_coverage (aggregate coverage_data))).
    { rewrite Hgaps. apply elem_of_cons. by left. }
    apply GapFacts.elem_of_find_gaps in Hg as ([k c] & Hin & Hemit).
    apply (DictFacts.elem_get_Some _ _ _ Hnd) in Hin.
    assert (Hk : k ∈ study_types_of coverage_data).
    { apply MatrixFacts.elem_of_study_types_of. by exists c. }
    destruct (Hall k Hk) as [Hwd Hwe].
    apply (Hcov k c Weekday Hin) in Hwd. apply (Hcov k c Weekend Hin) in Hwe.
    destruct Hemit as [[_ He] | [_ He]]; simpl in *; done.
Qed.

(* ------------------------------------------------------------------ *)
(** ** The category of a study type *)

Module CategoryFacts.

Lemma fixedb_spec (c : N) :
  fixedb c = true ↔ (c =? 931)%N = false ∧ Str.lower_char c = [c].
Proof.
  unfold fixedb. rewrite andb_true_iff, negb_true_iff, StrFacts.eqb_eq. tauto.
Qed.

(** Every lower case in the table is left alone by [str.lower]. *)
Lemma LOWERCASE_fixed :
  forallb (fun e : N * N => fixedb (snd e)) Str.LOWERCASE = true.
Proof. vm_compute. reflexivity. Qed.

Lemma lower_char_fixed (c : N) :
  (c =? 931)%N = false → forallb fixedb (Str.lower_char c) = true.
Proof.
  intros Hc. unfold Str.lower_char.
  destruct (N.eqb_spec c 304) as [-> | H304]; [vm_compute; reflexivity |].
  destruct (Str.assoc c Str.LOWERCASE) as [l|] eqn:Hassoc.
  - apply LowerFacts.assoc_In in Hassoc.
    pose proof (proj1 (forallb_forall _ _) LOWERCASE_fixed (c, l) Hassoc) as H.
    simpl in H. cbn [forallb]. by rewrite H.
  - cbn [forallb]. rewrite andb_true_r. apply fixedb_spec. split; [done |].
    unfold Str.lower_char. apply N.eqb_neq in H304. by rewrite H304, Hassoc.
Qed.

Lemma lower_from_fixed_out (b : bool) (s : str) :
  forallb fixedb (Str.lower_from b s) = true.
Proof.
  revert b. induction s as [|c rest IH]; intros b; [done |].
  rewrite LowerFacts.lower_from_cons, forallb_app, IH, andb_true_r.
  destruct (c =? 931)%N eqn:Hc; [| by apply lower_char_fixed].
  destruct (b && Str.final_sigma_after rest); vm_compute; reflexivity.
Qed.

Lemma lower_from_fixed (b : bool) (s : str) :
  forallb fixedb s = true → Str.lower_from b s = s.
Proof.
  revert b. induction s as [|c rest IH]; intros b; [done |].
  cbn [forallb]. intros [Hc Hrest]%andb_true_iff.
  apply fixedb_spec in Hc as [Hc Hlc].
  by rewrite LowerFacts.lower_from_cons, Hc, Hlc, IH.
Qed.

Lemma lower_idem (s : str) : Str.lower (Str.lower s) = Str.lower s.
Proof. unfold Str.lower. apply lower_from_fixed, lower_from_fixed_out. Qed.

(** A text that contains "mri" contains "mr". *)
Lemma contains_mri_mr (s : str) :
  Str.contains (u"mri") s = true → Str.contains (u"mr") s = true.
Proof.
  rewrite !StrFacts.contains_spec. intros (pre & post & ->).
  exists pre, (105%N :: post). done.
Qed.

Ltac split_tests :=
  repeat match goal with
         | |- context [if ?b then _ else _] => destruct b eqn:?
         | |- context [?a || ?b] => destruct a eqn:?; simpl
         end.

Ltac in_list :=
  repeat first [apply list_elem_of_here | apply list_elem_of_further].

Ltac tests_in H :=
  repeat match type of H with
         | context [if ?b then _ else _] => destruct b eqn:?
         end.

(** The hypothesis puts a label in a list of other labels. *)
Ltac absurd_in H :=
  exfalso; tests_in H; revert H; rewrite ?elem_of_cons, elem_of_nil;
  intuition discriminate.

(** The hypothesis equates two different labels. *)
Ltac absurd_eq H := exfalso; tests_in H; discriminate H.

End CategoryFacts.

(** The category is always one of the twelve labels, and it depends on the
    study type up to letter case only. *)
Theorem extract_study_category_range (study_type : str) :
  extract_study_category study_type ∈ CATEGORIES
  ∧ extract_study_category (Str.lower study_type) = extract_study_category study_type.
Proof.
  split.
  - unfold extract_study_category, CATEGORIES.
    CategoryFacts.split_tests; CategoryFacts.in_list.
  - unfold extract_study_category. by rewrite CategoryFacts.lower_idem.
Qed.

(** The order of the tests decides: a study type whose lower-case text
    contains "ct" anywhere is in a CT category whatever else it contains;
    one without "ct" that contains "mr" is in an MRI category (the test
    for "mri" never adds a case); one with neither that contains "us" or
    "ultrasound" is "Ultrasound". *)
Theorem extract_study_category_priority (study_type : str) :
  (extract_study_category study_type ∈ [u"CT Neuro"; u"CT Body"; u"CT"]
     ↔ Str.contains (u"ct") (Str.lower study_type) = true)
  ∧ (extract_study_category study_type ∈ [u"MRI Neuro"; u"MRI Body"; u"MRI"]
       ↔ Str.contains (u"ct") (Str.lower study_type) = false
         ∧ Str.contains (u"mr") (Str.lower study_type) = true)
  ∧ (extract_study_category study_type = u"Ultrasound"
       ↔ Str.contains (u"ct") (Str.lower study_type) = false
         ∧ Str.contains (u"mr") (Str.lower study_type) = false
         ∧ (Str.contains (u"us") (Str.lower study_type) = true
            ∨ Str.contains (u"ultrasound") (Str.lower study_type) = true)).
Proof.
  unfold extract_study_category.
  pose proof (CategoryFacts.contains_mri_mr (Str.lower study_type)) as Hmri.
  destruct (Str.contains (u"ct") (Str.lower study_type)) eqn:Hct.
  { split; [| split].
    - split; [done | intros _; CategoryFacts.split_tests; CategoryFacts.in_list].
    - split; [intros H; CategoryFacts.absurd_in H | intros [? _]; done].
    - split; [intros H; CategoryFacts.absurd_eq H | intros [? _]; done]. }
  destruct (Str.contains (u"mr") (Str.lower study_type)) eqn:Hmr; cbn [orb].
  { split; [| split].
    - split; [intros H; CategoryFacts.absurd_in H | done].
    - split; [done | intros _; CategoryFacts.split_tests; CategoryFacts.in_list].
    - split; [intros H; CategoryFacts.absurd_eq H | intros (_ & ? & _); done]. }
  destruct (Str.contains (u"mri") (Str.lower study_type)) eqn:Hmri';
    [by specialize (Hmri eq_refl) |].
  destruct (Str.contains (u"us") (Str.lower study_type)) eqn:Hus; cbn [orb].
  { split; [| split].
    - split; [intros H; CategoryFacts.absurd_in H | done].
    - split; [intros H; CategoryFacts.absurd_in H | intros [_ ?]; done].
    - split; [intros _; auto | done]. }
  destruct (Str.contains (u"ultrasound") (Str.lower study_type)) eqn:Hul.
  { split; [| split].
    - split; [intros H; CategoryFacts.absurd_in H | done].
    - split; [intros H; CategoryFacts.absurd_in H | intros [_ ?]; done].
    - split; [intros _; auto | done]. }
  split; [| split].
  - split; [intros H; CategoryFacts.absurd_in H | done].
  - split; [intros H; CategoryFacts.absurd_in H | intros [_ ?]; done].
  - split; [intros H; CategoryFacts.absurd_eq H | intros (_ & _ & [? | ?]); done].
Qed.
